(** * Travel Planner (ORS): a shallow embedding of [app.py]

    The POI store ([load_pois], [save_pois], [list_pois], [create_poi],
    [delete_poi]), the [PoiIn] validator and the two gateways ([geocode],
    [route]) are transcribed from the Python source.  Python values are an
    inductive type of JSON-shaped data, floats are IEEE binary64
    ([PrimFloat]), strings are sequences of code points, and every handler
    runs in a small state-and-exception monad over a [world] that holds the
    POI file, the identifier generator and a trace of the effects performed.
    What the program takes from Python is a [Runtime]; [Json] gives the
    text [json.dump] writes and the value [json.load] reads from it. *)

From Stdlib Require Import ZArith NArith List Bool String Ascii Floats Lia.
From Stdlib Require DecimalFacts DecimalPos DecimalZ.
Import ListNotations.

(** ** Python strings *)

(** A [str] is a sequence of Unicode code points. *)
Definition pystr := list N.

Module Str.

Definition cont (a : ascii) : N := N.land (N_of_ascii a) 63.

(** String literals of this file are UTF-8, as the source file is. *)
Fixpoint utf8_decode (s : string) : pystr :=
  match s with
  | EmptyString => []
  | String a r =>
      let b := N_of_ascii a in
      if (b <? 128)%N then b :: utf8_decode r
      else if (b <? 224)%N then
        match r with
        | String a1 r1 =>
            (N.shiftl (N.land b 31) 6 + cont a1)%N :: utf8_decode r1
        | EmptyString => [b]
        end
      else if (b <? 240)%N then
        match r with
        | String a1 (String a2 r2) =>
            (N.shiftl (N.land b 15) 12 + N.shiftl (cont a1) 6 + cont a2)%N
              :: utf8_decode r2
        | _ => [b]
        end
      else
        match r with
        | String a1 (String a2 (String a3 r3)) =>
            (N.shiftl (N.land b 7) 18 + N.shiftl (cont a1) 12
             + N.shiftl (cont a2) 6 + cont a3)%N :: utf8_decode r3
        | _ => [b]
        end
  end.

Definition eqb (s t : pystr) : bool :=
  if list_eq_dec N.eq_dec s t then true else false.

(** [Py_UNICODE_ISSPACE]: the code points [str.strip()] removes. *)
Definition is_space (c : N) : bool :=
  ((9 <=? c) && (c <=? 13) || (28 <=? c) && (c <=? 32)
   || (c =? 133) || (c =? 160) || (c =? 5760)
   || (8192 <=? c) && (c <=? 8202)
   || (c =? 8232) || (c =? 8233) || (c =? 8239) || (c =? 8287)
   || (c =? 12288))%N.

Fixpoint lstrip (s : pystr) : pystr :=
  match s with
  | [] => []
  | c :: r => if is_space c then lstrip r else s
  end.

Definition rstrip (s : pystr) : pystr := rev (lstrip (rev s)).

(** [s.strip()] *)
Definition strip (s : pystr) : pystr := rstrip (lstrip s).

(** [s.split(sep)] for a one-character separator: every occurrence
    splits, empty pieces are kept. *)
Fixpoint split (sep : N) (s : pystr) : list pystr :=
  match s with
  | [] => [[]]
  | c :: r =>
      if (c =? sep)%N then [] :: split sep r
      else match split sep r with
           | w :: ws => (c :: w) :: ws
           | [] => [[c]]
           end
  end.

(** ASCII-only lower-casing: agrees with [str.lower] on ASCII text.  It is
    the instance of the runtime's [str_lower] used in the examples. *)
Definition ascii_lower (s : pystr) : pystr :=
  map (fun c => if ((65 <=? c) && (c <=? 90))%N then (c + 32)%N else c) s.

(** Text that has a UTF-8 encoding: no surrogate code point. *)
Definition is_text (s : pystr) : bool :=
  forallb (fun c => (c <? 55296) || (57343 <? c) && (c <=? 1114111))%N s.

Definition hex_digit (n : N) : N :=
  if (n <? 10)%N then (48 + n)%N else (87 + n)%N.

(** ['%032x' % k]: the 32 low hexadecimal digits of [k], as [UUID.hex]
    prints the 128-bit integer of a UUID. *)
Definition hex32 (k : N) : pystr :=
  map (fun i => hex_digit (k / 16 ^ N.of_nat (31 - i) mod 16)%N) (seq 0 32).

End Str.

(** [u "..."] is the [str] a literal of the source denotes. *)
Definition u (s : string) : pystr := Str.utf8_decode s.

(** ** Python values and exceptions *)

(** The values [json.load] and [Response.json()] produce and the handlers
    build.  A [dict] keeps insertion order; lookups take the first binding. *)
#[warnings="-register-all"]
Inductive pyval : Type :=
| PNone
| PBool (b : bool)
| PInt (z : Z)
| PFloat (f : float)
| PStr (s : pystr)
| PList (l : list pyval)
| PDict (d : list (pystr * pyval)).

Inductive exn : Type :=
| HTTPException (status : Z) (detail : pystr)
| ValidationError (errors : list (string * pyval))
| FileNotFoundError
| JSONDecodeError
| KeyError
| TypeError
| AttributeError
| ValueError
| IndexError
| OverflowError
| UnicodeEncodeError
| TransportError.

Inductive result (A : Type) : Type :=
| Ok (a : A)
| Raise (e : exn).

Arguments Ok {A} a.
Arguments Raise {A} e.

Module R.

Definition bind {A B} (c : result A) (k : A -> result B) : result B :=
  match c with
  | Ok a => k a
  | Raise e => Raise e
  end.

(** A comprehension [[f(x) for x in l]]: left to right, the first
    exception escapes. *)
Fixpoint mapM {A B} (f : A -> result B) (l : list A) : result (list B) :=
  match l with
  | [] => Ok []
  | x :: r =>
      bind (f x) (fun y => bind (mapM f r) (fun ys => Ok (y :: ys)))
  end.

(** A comprehension [[x for x in l if keep(x)]]. *)
Fixpoint filterM {A} (keep : A -> result bool) (l : list A)
  : result (list A) :=
  match l with
  | [] => Ok []
  | x :: r =>
      bind (keep x) (fun b =>
      bind (filterM keep r) (fun ys => Ok (if b then x :: ys else ys)))
  end.

End R.

Declare Scope result_scope.
Delimit Scope result_scope with result.
Notation "x <~ c ;; k" := (R.bind c (fun x => k))
  (at level 61, c at next level, right associativity) : result_scope.
Notation "' p <~ c ;; k" := (R.bind c (fun x => match x with p => k end))
  (at level 61, p pattern, c at next level, right associativity)
  : result_scope.

(** ** Operations on values *)

Module Py.

Local Open Scope result_scope.

Fixpoint lookup (k : pystr) (d : list (pystr * pyval)) : option pyval :=
  match d with
  | [] => None
  | (k', v) :: r => if Str.eqb k k' then Some v else lookup k r
  end.

(** [obj.get(key, default)]: only a dict has [get]. *)
Definition get (obj : pyval) (key : pystr) (default : pyval)
  : result pyval :=
  match obj with
  | PDict d =>
      match lookup key d with
      | Some v => Ok v
      | None => Ok default
      end
  | _ => Raise AttributeError
  end.

(** [obj[key]] for a string key. *)
Definition getitem (obj : pyval) (key : pystr) : result pyval :=
  match obj with
  | PDict d =>
      match lookup key d with
      | Some v => Ok v
      | None => Raise KeyError
      end
  | _ => Raise TypeError
  end.

(** [obj[0]] *)
Definition first (obj : pyval) : result pyval :=
  match obj with
  | PList (x :: _) => Ok x
  | PStr (c :: _) => Ok (PStr [c])
  | PList [] | PStr [] => Raise IndexError
  | PDict _ => Raise KeyError
  | _ => Raise TypeError
  end.

(** [for x in obj]: the items a loop or an unpacking visits. *)
Definition iter (obj : pyval) : result (list pyval) :=
  match obj with
  | PList l => Ok l
  | PStr s => Ok (map (fun c => PStr [c]) s)
  | PDict d => Ok (map (fun kv => PStr (fst kv)) d)
  | _ => Raise TypeError
  end.

(** [len(obj)] *)
Definition len (obj : pyval) : result nat :=
  match obj with
  | PList l => Ok (List.length l)
  | PStr s => Ok (List.length s)
  | PDict d => Ok (List.length d)
  | _ => Raise TypeError
  end.

(** [a, b = obj] *)
Definition unpack2 (obj : pyval) : result (pyval * pyval) :=
  xs <~ iter obj ;;
  match xs with
  | [a; b] => Ok (a, b)
  | _ => Raise ValueError
  end.

(** [obj.append(x)]: only a list has [append]. *)
Definition append (obj x : pyval) : result pyval :=
  match obj with
  | PList l => Ok (PList (l ++ [x]))
  | _ => Raise AttributeError
  end.

(** [obj.strip()]: only a str has [strip]. *)
Definition strip (obj : pyval) : result pystr :=
  match obj with
  | PStr s => Ok (Str.strip s)
  | _ => Raise AttributeError
  end.

(** [obj == s] for a string [s]. *)
Definition eq_str (obj : pyval) (s : pystr) : bool :=
  match obj with
  | PStr t => Str.eqb t s
  | _ => false
  end.

(** Truth value of an object, as [not], [or] and [if] test it. *)
Definition truthy (obj : pyval) : bool :=
  match obj with
  | PNone => false
  | PBool b => b
  | PInt z => negb (z =? 0)%Z
  | PFloat f => negb (f =? 0)%float
  | PStr s => negb (Nat.eqb (List.length s) 0)
  | PList l => negb (Nat.eqb (List.length l) 0)
  | PDict d => negb (Nat.eqb (List.length d) 0)
  end.

(** [a or b] (both operands here are already evaluated and cannot raise) *)
Definition or_ (a b : pyval) : pyval := if truthy a then a else b.

(** Every [str] in the value, keys included, has a UTF-8 encoding. *)
Fixpoint encodable (v : pyval) : bool :=
  match v with
  | PStr s => Str.is_text s
  | PList l => forallb encodable l
  | PDict d =>
      forallb (fun kv => let '(k, x) := kv in Str.is_text k && encodable x) d
  | _ => true
  end.

(** No [float] in the value is a NaN or an infinity. *)
Fixpoint finite (v : pyval) : bool :=
  match v with
  | PFloat f => is_finite f
  | PList l => forallb finite l
  | PDict d => forallb (fun kv => let '(_, x) := kv in finite x) d
  | _ => true
  end.

(** What [json.dumps(v, ensure_ascii=False, allow_nan=False)
    .encode("utf-8")] raises, if anything: [ValueError] from [dumps] on a
    float that is not finite, else [UnicodeEncodeError] from [encode] on a
    surrogate. *)
Definition render_error (v : pyval) : option exn :=
  if negb (finite v) then Some ValueError
  else if negb (encodable v) then Some UnicodeEncodeError
  else None.

End Py.

(** The status code the framework answers with when a handler raises.  A
    [ValidationError] is answered 422 with a body that echoes every rejected
    input; the body is rendered as [Py.render_error] describes, and when
    that fails the answer is 500 like for any other exception. *)
Definition http_status (e : exn) : Z :=
  match e with
  | HTTPException status _ => status
  | ValidationError errors =>
      if forallb (fun le => match Py.render_error (snd le) with
                            | None => true
                            | Some _ => false
                            end) errors
      then 422 else 500
  | _ => 500
  end.

(** ** Python arithmetic on floats *)

Module Num.

Local Open Scope Z_scope.

(** The integer nearest to [num / den] ([den] positive), ties to even. *)
Definition round_half_even (num den : Z) : Z :=
  let q := num / den in
  let r := num mod den in
  match 2 * r ?= den with
  | Lt => q
  | Gt => q + 1
  | Eq => if Z.even q then q else q + 1
  end.

(** The integer nearest to [m * 2^e * k], ties to even. *)
Definition scaled_round (m : positive) (e k : Z) : Z :=
  if 0 <=? e then Z.pos m * 2 ^ e * k
  else round_half_even (Z.pos m * k) (2 ^ (- e)).

(** The binary64 nearest to [(-1)^s * n / d] (ties to even); an infinity
    when it is out of range. *)
Definition nearest_quotient (s : bool) (n : Z) (d : positive) : float :=
  match n with
  | Z.pos p =>
      SF2Prim (SFdiv prec emax (S754_finite s p 0) (S754_finite false d 0))
  | _ => if s then (-0)%float else 0%float
  end.

(** [round(x, ndigits)] for a float [x] and [0 <= ndigits <= 323]: the
    exact value of [x] is rounded half-even to [ndigits] decimals and the
    decimal obtained is converted back to the nearest float.  Infinities
    and NaN round to themselves. *)
Definition round_ndigits (x : float) (ndigits : nat) : float :=
  match Prim2SF x with
  | S754_finite s m e =>
      let k := 10 ^ Z.of_nat ndigits in
      nearest_quotient s (scaled_round m e k) (Z.to_pos k)
  | _ => x
  end.

(** [round(x)] for a float [x]: the nearest [int], ties to even. *)
Definition round_int (x : float) : result Z :=
  match Prim2SF x with
  | S754_zero _ => Ok 0
  | S754_finite s m e =>
      let n := scaled_round m e 1 in
      Ok (if s then - n else n)
  | S754_infinity _ => Raise OverflowError
  | S754_nan => Raise ValueError
  end.

(** [a / b] for two [int]s, [b] positive: correctly rounded. *)
Definition int_truediv (a : Z) (b : positive) : result float :=
  let q := nearest_quotient (a <? 0) (Z.abs a) b in
  if is_infinity q then Raise OverflowError else Ok q.

(** The float an [int] operand is converted to (here a small constant). *)
Definition of_pos (c : positive) : float :=
  nearest_quotient false (Z.pos c) 1.

(** [v / c] for a positive integer constant [c]. *)
Definition truediv (v : pyval) (c : positive) : result float :=
  match v with
  | PFloat f => Ok (f / of_pos c)%float
  | PInt z => int_truediv z c
  | PBool b => int_truediv (if b then 1 else 0) c
  | _ => Raise TypeError
  end.

(** [lo <= v <= hi] on floats (false on NaN). *)
Definition between (lo v hi : float) : bool :=
  ((lo <=? v) && (v <=? hi))%float.

End Num.

(** ** The world a handler runs in *)

Inductive http_method : Type := GET | POST.

(** What [httpx.AsyncClient(timeout=...)] is asked to send. *)
Record http_request : Type := {
  req_method : http_method;
  req_url : pystr;
  req_headers : list (pystr * pystr);
  req_params : list (pystr * pyval);
  req_json : option pyval;
  req_timeout : Z
}.

(** [r.status_code], [r.text] and [r.json()] ([None] when the body is not
    JSON). *)
Record http_response : Type := {
  status_code : Z;
  text : pystr;
  json : option pyval
}.

(** The routing provider: [None] is a transport failure or timeout. *)
Definition provider := http_request -> option http_response.

(** *** The runtime the program is linked against

    What the source takes from Python and its libraries, and from the
    process environment. *)
Class Runtime : Type := {
  (** contents of a file on disk *)
  file_text : Type;
  (** [json.dump(v, f, ensure_ascii=False, indent=2)]: the text written *)
  json_dump : pyval -> file_text;
  (** the part of that text that has reached the file when a [str] of [v]
      cannot be encoded and the write stops there *)
  json_dump_prefix : pyval -> file_text;
  (** [json.load(f)]; [None] when the text is not valid JSON *)
  json_load : file_text -> option pyval;
  (** [str.lower] *)
  str_lower : pystr -> pystr;
  (** [float(s)] on a string; [None] is its [ValueError] *)
  py_float : pystr -> option float;
  (** [uuid.uuid4().int] at the n-th draw of the process *)
  uuid4_int : nat -> N;
  (** [os.environ.get("ORS_API_KEY")], checked non-empty at start-up *)
  ORS_API_KEY : pystr
}.

(** ** The JSON text of a value

    [json.dump(v, f, ensure_ascii=False, indent=2)] and [json.load(f)], as
    the [json] module of the standard library has them, on the text of the
    file. *)

Module Json.

Local Open Scope N_scope.

(** *** Writing *)

(** ['\\u{0:04x}'.format(c)]: four hexadecimal digits *)
Definition hex4 (c : N) : pystr :=
  map (fun i => Str.hex_digit (c / 16 ^ N.of_nat (3 - i) mod 16)) (seq 0 4).

(** [ESCAPE_DCT]: the quote, the backslash and the control characters are
    escaped, every other character is written as it is. *)
Definition escape (c : N) : pystr :=
  if c =? 34 then [92; 34]
  else if c =? 92 then [92; 92]
  else if c =? 10 then [92; 110]
  else if c =? 13 then [92; 114]
  else if c =? 9 then [92; 116]
  else if c =? 12 then [92; 102]
  else if c =? 8 then [92; 98]
  else if c <? 32 then 92 :: 117 :: hex4 c
  else [c].

(** [encode_basestring(s)] *)
Definition encode_basestring (s : pystr) : pystr :=
  34 :: flat_map escape s ++ [34].

Fixpoint uint_chars (d : Decimal.uint) : pystr :=
  match d with
  | Decimal.Nil => []
  | Decimal.D0 r => 48 :: uint_chars r
  | Decimal.D1 r => 49 :: uint_chars r
  | Decimal.D2 r => 50 :: uint_chars r
  | Decimal.D3 r => 51 :: uint_chars r
  | Decimal.D4 r => 52 :: uint_chars r
  | Decimal.D5 r => 53 :: uint_chars r
  | Decimal.D6 r => 54 :: uint_chars r
  | Decimal.D7 r => 55 :: uint_chars r
  | Decimal.D8 r => 56 :: uint_chars r
  | Decimal.D9 r => 57 :: uint_chars r
  end.

(** [int.__repr__] *)
Definition int_repr (z : Z) : pystr :=
  match Z.to_int z with
  | Decimal.Pos d => uint_chars d
  | Decimal.Neg d => 45 :: uint_chars d
  end.

Definition text_null : pystr := [110; 117; 108; 108].
Definition text_true : pystr := [116; 114; 117; 101].
Definition text_false : pystr := [102; 97; 108; 115; 101].
Definition text_NaN : pystr := [78; 97; 78].
Definition text_Infinity : pystr := [73; 110; 102; 105; 110; 105; 116; 121].

(** ['\n' + ' ' * (2 * level)] *)
Definition newline_indent (level : nat) : pystr :=
  10 :: repeat 32 (2 * level).

Fixpoint join (sep : pystr) (items : list pystr) : pystr :=
  match items with
  | [] => []
  | x :: r =>
      match r with
      | [] => x
      | _ :: _ => x ++ sep ++ join sep r
      end
  end.

Section Codec.

(** [float.__repr__] and [float] on a string *)
Variable float_repr : float -> pystr.
Variable float_of : pystr -> option float.

(** [floatstr], with [allow_nan] left at its default *)
Definition floatstr (f : float) : pystr :=
  if is_nan f then text_NaN
  else if (f =? infinity)%float then text_Infinity
  else if (f =? neg_infinity)%float then 45 :: text_Infinity
  else float_repr f.

(** [_iterencode(v, level)], the pieces joined *)
Fixpoint encode (v : pyval) (level : nat) : pystr :=
  match v with
  | PNone => text_null
  | PBool true => text_true
  | PBool false => text_false
  | PInt z => int_repr z
  | PFloat f => floatstr f
  | PStr s => encode_basestring s
  | PList l =>
      match l with
      | [] => [91; 93]
      | _ :: _ =>
          91 :: newline_indent (S level)
          ++ join (44 :: newline_indent (S level))
               (map (fun x => encode x (S level)) l)
          ++ newline_indent level ++ [93]
      end
  | PDict d =>
      match d with
      | [] => [123; 125]
      | _ :: _ =>
          123 :: newline_indent (S level)
          ++ join (44 :: newline_indent (S level))
               (map (fun kv => let '(k, x) := kv in
                               encode_basestring k ++ [58; 32]
                               ++ encode x (S level)) d)
          ++ newline_indent level ++ [125]
      end
  end.

(** The text [json.dump(v, f, ensure_ascii=False, indent=2)] writes. *)
Definition dumps (v : pyval) : pystr := encode v 0.

(** *** Reading *)

(** [WHITESPACE] *)
Definition ws (c : N) : bool :=
  (c =? 32) || (c =? 9) || (c =? 10) || (c =? 13).

Fixpoint skip (s : pystr) : pystr :=
  match s with
  | c :: r => if ws c then skip r else s
  | [] => []
  end.

Definition hex_value (c : N) : option N :=
  if (48 <=? c) && (c <=? 57) then Some (c - 48)
  else if (97 <=? c) && (c <=? 102) then Some (c - 87)
  else if (65 <=? c) && (c <=? 70) then Some (c - 55)
  else None.

Definition hex4_value (a b c d : N) : option N :=
  match hex_value a, hex_value b, hex_value c, hex_value d with
  | Some x, Some y, Some z, Some t => Some (((x * 16 + y) * 16 + z) * 16 + t)
  | _, _, _, _ => None
  end.

(** [BACKSLASH]: the character a one-letter escape stands for *)
Definition unescape (c : N) : option N :=
  if c =? 34 then Some 34
  else if c =? 92 then Some 92
  else if c =? 47 then Some 47
  else if c =? 98 then Some 8
  else if c =? 102 then Some 12
  else if c =? 110 then Some 10
  else if c =? 114 then Some 13
  else if c =? 116 then Some 9
  else None.

Definition push (c : N) (r : option (pystr * pystr))
  : option (pystr * pystr) :=
  match r with
  | Some (str, rest) => Some (c :: str, rest)
  | None => None
  end.

(** [scanstring], from after the opening quote: the string and what
    follows the closing quote.  A control character is refused (the decoder
    is strict); an escaped high surrogate followed by an escaped low one is
    one character. *)
Fixpoint scanstring (s : pystr) : option (pystr * pystr) :=
  match s with
  | [] => None
  | c :: r =>
      if c =? 34 then Some ([], r)
      else if c =? 92 then
        match r with
        | [] => None
        | e :: r1 =>
            if e =? 117 then
              match r1 with
              | a :: b :: c1 :: d :: r2 =>
                  match hex4_value a b c1 d with
                  | None => None
                  | Some hi =>
                      match r2 with
                      | e1 :: e2 :: a' :: b' :: c' :: d' :: ((_ :: _) as r3) =>
                          if (55296 <=? hi) && (hi <=? 56319)
                             && (e1 =? 92) && (e2 =? 117) then
                            match hex4_value a' b' c' d' with
                            | None => None
                            | Some lo =>
                                if (56320 <=? lo) && (lo <=? 57343) then
                                  push (65536 + (hi - 55296) * 1024
                                        + (lo - 56320)) (scanstring r3)
                                else push hi (scanstring r2)
                            end
                          else push hi (scanstring r2)
                      | _ => push hi (scanstring r2)
                      end
                  end
              | _ => None
              end
            else
              match unescape e with
              | Some x => push x (scanstring r1)
              | None => None
              end
        end
      else if c <? 32 then None
      else push c (scanstring r)
  end.

Definition digit (c : N) : bool := (48 <=? c) && (c <=? 57).

(** The longest run of digits at the head of [s], and what follows. *)
Fixpoint digits_run (s : pystr) : pystr * pystr :=
  match s with
  | c :: r =>
      if digit c then let (ds, rest) := digits_run r in (c :: ds, rest)
      else ([], s)
  | [] => ([], [])
  end.

(** The integer part: an optional minus sign, then a zero or digits that
    do not start with a zero. *)
Definition match_integer (s : pystr) : option (pystr * pystr) :=
  let '(sign, s1) := match s with
                     | c :: r => if c =? 45 then ([c], r) else ([], s)
                     | [] => ([], s)
                     end in
  match s1 with
  | c :: r =>
      if c =? 48 then Some (sign ++ [c], r)
      else if digit c then
        let (ds, rest) := digits_run r in Some (sign ++ c :: ds, rest)
      else None
  | [] => None
  end.

(** The fraction, if any: a point and at least one digit. *)
Definition match_fraction (s : pystr) : pystr * pystr :=
  match s with
  | c :: r =>
      if c =? 46 then
        match digits_run r with
        | ([], _) => ([], s)
        | (ds, rest) => (c :: ds, rest)
        end
      else ([], s)
  | [] => ([], s)
  end.

(** The exponent, if any: [e] or [E], an optional sign and at least one
    digit. *)
Definition match_exponent (s : pystr) : pystr * pystr :=
  match s with
  | e :: r =>
      if (e =? 101) || (e =? 69) then
        let '(sign, r1) := match r with
                           | c :: r' =>
                               if (c =? 45) || (c =? 43) then ([c], r')
                               else ([], r)
                           | [] => ([], r)
                           end in
        match digits_run r1 with
        | ([], _) => ([], s)
        | (ds, rest) => (e :: sign ++ ds, rest)
        end
      else ([], s)
  | [] => ([], s)
  end.

(** [NUMBER_RE]: the text of the number, whether it has a fraction or an
    exponent, and what follows. *)
Definition match_number (s : pystr) : option (pystr * bool * pystr) :=
  match match_integer s with
  | None => None
  | Some (i, r1) =>
      let (f, r2) := match_fraction r1 in
      let (e, r3) := match_exponent r2 in
      Some (i ++ f ++ e,
            match f ++ e with [] => false | _ :: _ => true end, r3)
  end.

Fixpoint chars_uint (s : pystr) : Decimal.uint :=
  match s with
  | [] => Decimal.Nil
  | c :: r =>
      let d := chars_uint r in
      if c =? 48 then Decimal.D0 d
      else if c =? 49 then Decimal.D1 d
      else if c =? 50 then Decimal.D2 d
      else if c =? 51 then Decimal.D3 d
      else if c =? 52 then Decimal.D4 d
      else if c =? 53 then Decimal.D5 d
      else if c =? 54 then Decimal.D6 d
      else if c =? 55 then Decimal.D7 d
      else if c =? 56 then Decimal.D8 d
      else Decimal.D9 d
  end.

(** [int] on the text of an integer *)
Definition int_of (s : pystr) : Z :=
  match s with
  | c :: r =>
      if c =? 45 then Z.of_int (Decimal.Neg (chars_uint r))
      else Z.of_int (Decimal.Pos (chars_uint s))
  | [] => 0%Z
  end.

(** [s] starts with [p]: what follows. *)
Fixpoint after_prefix (p s : pystr) : option pystr :=
  match p, s with
  | [], _ => Some s
  | a :: p', b :: s' => if a =? b then after_prefix p' s' else None
  | _ :: _, [] => None
  end.

(** The constants and the numbers. *)
Definition scan_atom (s : pystr) : option (pyval * pystr) :=
  match after_prefix text_null s with
  | Some r => Some (PNone, r)
  | None =>
  match after_prefix text_true s with
  | Some r => Some (PBool true, r)
  | None =>
  match after_prefix text_false s with
  | Some r => Some (PBool false, r)
  | None =>
  match match_number s with
  | Some (t, true, r) =>
      match float_of t with
      | Some f => Some (PFloat f, r)
      | None => None
      end
  | Some (t, false, r) => Some (PInt (int_of t), r)
  | None =>
  match after_prefix text_NaN s with
  | Some r => Some (PFloat nan, r)
  | None =>
  match after_prefix text_Infinity s with
  | Some r => Some (PFloat infinity, r)
  | None =>
  match after_prefix (45 :: text_Infinity) s with
  | Some r => Some (PFloat neg_infinity, r)
  | None => None
  end end end end end end end.

(** [dict(pairs)], one pair at a time: a key seen before keeps its place
    and takes the new value. *)
Fixpoint dict_set (d : list (pystr * pyval)) (k : pystr) (v : pyval)
  : list (pystr * pyval) :=
  match d with
  | [] => [(k, v)]
  | (k', v') :: r =>
      if Str.eqb k k' then (k', v) :: r else (k', v') :: dict_set r k v
  end.

(** [scan_once], [JSONArray] and [JSONObject].  [fuel] bounds the depth of
    the calls; [array_items] starts at an item, [object_items] after the
    opening quote of a key. *)
Fixpoint scan_once (fuel : nat) (s : pystr) : option (pyval * pystr) :=
  match fuel with
  | O => None
  | S fuel =>
      match s with
      | [] => None
      | c :: r =>
          if c =? 34 then
            match scanstring r with
            | Some (str, rest) => Some (PStr str, rest)
            | None => None
            end
          else if c =? 123 then
            match skip r with
            | c1 :: r1 =>
                if c1 =? 125 then Some (PDict [], r1)
                else if c1 =? 34 then object_items fuel r1 []
                else None
            | [] => None
            end
          else if c =? 91 then
            match skip r with
            | c1 :: r1 =>
                if c1 =? 93 then Some (PList [], r1)
                else array_items fuel (c1 :: r1) []
            | [] => None
            end
          else scan_atom s
      end
  end
with array_items (fuel : nat) (s : pystr) (acc : list pyval)
  : option (pyval * pystr) :=
  match fuel with
  | O => None
  | S fuel =>
      match scan_once fuel s with
      | None => None
      | Some (v, r) =>
          match skip r with
          | c :: r1 =>
              if c =? 44 then array_items fuel (skip r1) (acc ++ [v])
              else if c =? 93 then Some (PList (acc ++ [v]), r1)
              else None
          | [] => None
          end
      end
  end
with object_items (fuel : nat) (s : pystr) (acc : list (pystr * pyval))
  : option (pyval * pystr) :=
  match fuel with
  | O => None
  | S fuel =>
      match scanstring s with
      | None => None
      | Some (k, r) =>
          match skip r with
          | c :: r1 =>
              if c =? 58 then
                match scan_once fuel (skip r1) with
                | None => None
                | Some (v, r2) =>
                    match skip r2 with
                    | c2 :: r3 =>
                        if c2 =? 125 then Some (PDict (dict_set acc k v), r3)
                        else if c2 =? 44 then
                          match skip r3 with
                          | c3 :: r4 =>
                              if c3 =? 34 then
                                object_items fuel r4 (dict_set acc k v)
                              else None
                          | [] => None
                          end
                        else None
                    | [] => None
                    end
                end
              else None
          | [] => None
          end
      end
  end.

(** [json.load]: one value, with white space around it and nothing else.
    [None] is the decoder's error. *)
Definition loads (t : pystr) : option pyval :=
  match scan_once (2 * List.length t + 1) (skip t) with
  | Some (v, r) =>
      match skip r with
      | [] => Some v
      | _ :: _ => None
      end
  | None => None
  end.

End Codec.

End Json.

(** The runtime whose POI file holds JSON text: [json.dump] and [json.load]
    are the codec above with the [repr] of a float given by [float_repr]
    and [float] taken from [base], as everything else is; [partial] is the
    text an interrupted write leaves. *)
Definition json_runtime (base : Runtime) (float_repr : float -> pystr)
    (partial : pyval -> pystr) : Runtime :=
  {| file_text := pystr;
     json_dump := Json.dumps float_repr;
     json_dump_prefix := partial;
     json_load := Json.loads (@py_float base);
     str_lower := @str_lower base;
     py_float := @py_float base;
     uuid4_int := @uuid4_int base;
     ORS_API_KEY := @ORS_API_KEY base |}.

Section Application.

Context {RT : Runtime}.

Inductive event : Type :=
| FileWritten (contents : file_text)
| HttpSent (req : http_request).

Record world : Type := {
  pois_file : option file_text;   (** [BASE_DIR / "pois.json"], if any *)
  uuid_draws : nat;               (** identifiers drawn so far *)
  trace : list event              (** writes and network calls, oldest first *)
}.

(** A handler: it may raise, and the effects made before that stay. *)
Definition M (A : Type) : Type := world -> result A * world.

Definition ret {A} (a : A) : M A := fun w => (Ok a, w).

Definition raise {A} (e : exn) : M A := fun w => (Raise e, w).

Definition bind {A B} (c : M A) (k : A -> M B) : M B :=
  fun w =>
    match c w with
    | (Ok a, w') => k a w'
    | (Raise e, w') => (Raise e, w')
    end.

Definition lift {A} (r : result A) : M A := fun w => (r, w).

Local Notation "x <- c ;; k" := (bind c (fun x => k))
  (at level 61, c at next level, right associativity).
Local Notation "c ;;; k" := (bind c (fun _ => k))
  (at level 61, right associativity).

(** The value a handler returns or the exception it raises, and the world
    it leaves. *)
Definition outcome {A} (c : M A) (w : world) : result A := fst (c w).
Definition after {A} (c : M A) (w : world) : world := snd (c w).

Local Open Scope result_scope.

(** *** Configuration *)

Definition BASE_GEO : pystr := u "https://api.openrouteservice.org/geocode".
Definition BASE_DIRS : pystr :=
  u "https://api.openrouteservice.org/v2/directions".

(** *** POI store *)

Definition load_pois : M pyval :=
  fun w =>
    match pois_file w with
    | None => (Ok (PList []), w)
    | Some t =>
        match json_load t with
        | Some v => (Ok v, w)
        | None => (Raise JSONDecodeError, w)
        end
    end.

(** [open("w")] truncates the file, [json.dump] writes the text piece by
    piece and the file is closed on the way out.  The UTF-8 encoder stops
    with [UnicodeEncodeError] at the first [str] holding a surrogate (which
    [json.load] reads from an escape): the file then keeps what was written
    before it. *)
Definition save_pois (pois : pyval) : M unit :=
  fun w =>
    if Py.encodable pois then
      let t := json_dump pois in
      (Ok tt, {| pois_file := Some t;
                 uuid_draws := uuid_draws w;
                 trace := trace w ++ [FileWritten t] |})
    else
      let t := json_dump_prefix pois in
      (Raise UnicodeEncodeError,
       {| pois_file := Some t;
          uuid_draws := uuid_draws w;
          trace := trace w ++ [FileWritten t] |}).

(** A [PoiIn] object.  pydantic builds it from validated fields only, and
    its [str] is Unicode text: a surrogate is refused. *)
Record PoiIn : Type := {
  name : pystr;
  lat : float;
  lon : float;
  tags : list pystr;
  PoiIn_text : forallb Str.is_text (name :: tags) = true
}.

Definition _lat (v : float) : bool := Num.between (-90) v 90.
Definition _lon (v : float) : bool := Num.between (-180) v 180.

(** Building a [PoiIn] from the request body: the name and the tags must
    be text, [Field(min_length=1)] counts the name as received, then the
    two field validators run; the fields that fail are reported together,
    each with the input that was refused. *)
Definition PoiIn_errors (name : pystr) (lat lon : float)
    (tags : list pystr) : list (string * pyval) :=
  (if Str.is_text name && (1 <=? List.length name)%nat then []
   else [("name"%string, PStr name)])
  ++ (if _lat lat then [] else [("lat"%string, PFloat lat)])
  ++ (if _lon lon then [] else [("lon"%string, PFloat lon)])
  ++ map (fun t => ("tags"%string, PStr t))
         (filter (fun t => negb (Str.is_text t)) tags).

Definition PoiIn_validate (name : pystr) (lat lon : float)
    (tags : list pystr) : result PoiIn :=
  match PoiIn_errors name lat lon tags,
        bool_dec (forallb Str.is_text (name :: tags)) true with
  | [], left H =>
      Ok {| name := name; lat := lat; lon := lon; tags := tags;
            PoiIn_text := H |}
  | bad, _ => Raise (ValidationError bad)
  end.

(** [GET /pois] *)
Definition list_pois : M pyval :=
  fun w =>
    match pois_file w with
    | None => (Raise FileNotFoundError, w)
    | Some t =>
        match json_load t with
        | Some v => (Ok v, w)
        | None => (Raise JSONDecodeError, w)
        end
    end.

(** [p["name"].strip().lower()] *)
Definition name_key (p : pyval) : result pystr :=
  n <~ Py.getitem p (u "name") ;;
  s <~ Py.strip n ;;
  Ok (str_lower s).

(** [{p["name"].strip().lower() for p in pois}] *)
Definition name_keys (pois : pyval) : result (list pystr) :=
  items <~ Py.iter pois ;;
  R.mapM name_key items.

(** [uuid.uuid4().hex] at the n-th draw of the process *)
Definition uuid4_hex (n : nat) : pystr := Str.hex32 (uuid4_int n).

Definition uuid4 : M pystr :=
  fun w =>
    (Ok (uuid4_hex (uuid_draws w)),
     {| pois_file := pois_file w;
        uuid_draws := S (uuid_draws w);
        trace := trace w |}).

Definition new_item (id : pystr) (poi : PoiIn) : pyval :=
  PDict [ (u "id", PStr id);
          (u "name", PStr (Str.strip (name poi)));
          (u "lat", PFloat (lat poi));
          (u "lon", PFloat (lon poi));
          (u "tags", PList (map PStr (tags poi))) ].

(** [POST /pois] *)
Definition create_poi (poi : PoiIn) : M pyval :=
  pois <- load_pois ;;
  names <- lift (name_keys pois) ;;
  if existsb (Str.eqb (str_lower (Str.strip (name poi)))) names then
    raise (HTTPException 409 (u "POI с таким названием уже существует"))
  else
    id <- uuid4 ;;
    let item := new_item id poi in
    pois' <- lift (Py.append pois item) ;;
    save_pois pois' ;;;
    ret item.

(** [p.get("id") != poi_id] *)
Definition keeps (poi_id : pystr) (p : pyval) : result bool :=
  v <~ Py.get p (u "id") PNone ;;
  Ok (negb (Py.eq_str v poi_id)).

(** [DELETE /pois/{poi_id}] *)
Definition delete_poi (poi_id : pystr) : M unit :=
  pois <- load_pois ;;
  items <- lift (Py.iter pois) ;;
  new_pois <- lift (R.filterM (keeps poi_id) items) ;;
  n <- lift (Py.len pois) ;;
  if Nat.eqb (List.length new_pois) n then
    raise (HTTPException 404 (u "POI не найден"))
  else
    save_pois (PList new_pois).

(** *** Gateways *)

(** What building the request raises, before anything is sent: the
    [json=] body is rendered as [Py.render_error] describes. *)
Definition body_error (req : http_request) : option exn :=
  match req_json req with
  | Some body => Py.render_error body
  | None => None
  end.

(** [await client.get(...)] / [await client.post(...)] *)
Definition send (net : provider) (req : http_request) : M http_response :=
  fun w =>
    match body_error req with
    | Some e => (Raise e, w)
    | None =>
        let w' := {| pois_file := pois_file w;
                     uuid_draws := uuid_draws w;
                     trace := trace w ++ [HttpSent req] |} in
        match net req with
        | Some r => (Ok r, w')
        | None => (Raise TransportError, w')
        end
    end.

(** [r.json()] *)
Definition body_json (r : http_response) : result pyval :=
  match json r with
  | Some v => Ok v
  | None => Raise JSONDecodeError
  end.

Definition geocode_request (q : pystr) : http_request :=
  {| req_method := GET;
     req_url := BASE_GEO ++ u "/search";
     req_headers := [(u "Authorization", ORS_API_KEY)];
     req_params := [ (u "api_key", PStr ORS_API_KEY);
                     (u "text", PStr q);
                     (u "size", PInt 5) ];
     req_json := None;
     req_timeout := 10 |}.

(** One turn of the loop over the features: [Some entry] is appended to
    [out], [None] leaves it as it is. *)
Definition geocode_feature (f : pyval) : result (option pyval) :=
  geom <~ Py.get f (u "geometry") (PDict []) ;;
  props <~ Py.get f (u "properties") (PDict []) ;;
  ty <~ Py.get geom (u "type") PNone ;;
  if Py.eq_str ty (u "Point") then
    coords <~ Py.get geom (u "coordinates") (PList [PNone; PNone]) ;;
    '(lon, lat) <~ Py.unpack2 coords ;;
    label <~ Py.get props (u "label") PNone ;;
    name <~ Py.get props (u "name") PNone ;;
    Ok (Some (PDict [ (u "label", Py.or_ label name);
                      (u "lat", lat);
                      (u "lon", lon) ]))
  else Ok None.

Fixpoint geocode_loop (fs : list pyval) (out : list pyval)
  : result (list pyval) :=
  match fs with
  | [] => Ok out
  | f :: rest =>
      e <~ geocode_feature f ;;
      geocode_loop rest (match e with Some x => out ++ [x] | None => out end)
  end.

(** [GET /geocode?q=...], with [q: str = Query(..., min_length=2)] *)
Definition geocode (net : provider) (q : pystr) : M pyval :=
  if (2 <=? List.length q)%nat then
    r <- send net (geocode_request q) ;;
    if negb (status_code r =? 200)%Z then
      raise (HTTPException (status_code r) (u "Geocode error: " ++ text r))
    else
      data <- lift (body_json r) ;;
      feats <- lift (Py.get data (u "features") (PList [])) ;;
      fs <- lift (Py.iter feats) ;;
      out <- lift (geocode_loop fs []) ;;
      ret (PDict [(u "results", PList out)])
  else raise (ValidationError [("q"%string, PStr q)]).

(** [[float(x.strip()) for x in s.split(",")]] unpacked into two names. *)
Definition parse_coord (s : pystr) : result (float * float) :=
  xs <~ R.mapM (fun x => match py_float (Str.strip x) with
                         | Some v => Ok v
                         | None => Raise ValueError
                         end) (Str.split 44 s) ;;
  match xs with
  | [a; b] => Ok (a, b)
  | _ => Raise ValueError
  end.

Definition route_request (f_lat f_lon t_lat t_lon : float)
    (profile : pystr) : http_request :=
  {| req_method := POST;
     req_url := BASE_DIRS ++ u "/" ++ profile ++ u "/geojson";
     req_headers := [ (u "Authorization", ORS_API_KEY);
                      (u "Content-Type", u "application/json") ];
     req_params := [];
     req_json :=
       Some (PDict [ (u "coordinates",
                       PList [ PList [PFloat f_lon; PFloat f_lat];
                               PList [PFloat t_lon; PFloat t_lat] ]);
                     (u "instructions", PBool false);
                     (u "elevation", PBool false);
                     (u "radiuses", PList [PInt 50; PInt 50]);
                     (u "preference", PStr (u "recommended")) ]);
     req_timeout := 15 |}.

(** The part of [route] after the provider has answered 200. *)
Definition route_result (data : pyval) (profile : pystr) : result pyval :=
  feat <~ Py.get data (u "features") (PList []) ;;
  if negb (Py.truthy feat) then
    Raise (HTTPException 502 (u "Пустой ответ маршрутизатора"))
  else
    f0 <~ Py.first feat ;;
    props <~ Py.getitem f0 (u "properties") ;;
    summary <~ Py.get props (u "summary") (PDict []) ;;
    dist <~ Py.get summary (u "distance") (PFloat 0) ;;
    km <~ Num.truediv dist 1000 ;;
    dur <~ Py.get summary (u "duration") (PFloat 0) ;;
    mins <~ Num.truediv dur 60 ;;
    duration_min <~ Num.round_int mins ;;
    Ok (PDict [ (u "geojson", data);
                (u "distance_km", PFloat (Num.round_ndigits km 3));
                (u "duration_min", PInt duration_min);
                (u "profile", PStr profile) ]).

(** [GET /route?from_coord=...&to_coord=...&profile=...] *)
Definition route (net : provider) (from_coord to_coord profile : pystr)
  : M pyval :=
  match (f <~ parse_coord from_coord ;;
         t <~ parse_coord to_coord ;;
         Ok (f, t)) with
  | Raise _ =>
      raise (HTTPException 400
               (u "Неверный формат координат. Ожидал 'lat,lon'."))
  | Ok ((f_lat, f_lon), (t_lat, t_lon)) =>
      r <- send net (route_request f_lat f_lon t_lat t_lon profile) ;;
      if negb (status_code r =? 200)%Z then
        raise (HTTPException (status_code r)
                 (u "Directions error: " ++ text r))
      else
        data <- lift (body_json r) ;;
        lift (route_result data profile)
  end.

(** The default of [profile]. *)
Definition default_profile : pystr := u "foot-walking".

End Application.

(** ** A concrete runtime

    An instance of [Runtime] on which the handlers run by computation: a
    file holds [Some] JSON document, or [None] for a text that is not one
    (as a write that stopped half-way leaves it), [float] reads plain
    decimal literals, [lower] is the ASCII one. *)

Module Sample.

Definition digit (c : N) : option Z :=
  if ((48 <=? c) && (c <=? 57))%N then Some (Z.of_N c - 48)%Z else None.

(** The number a run of decimal digits denotes, after the prefix [acc]. *)
Fixpoint digits (s : pystr) (acc : Z) : option Z :=
  match s with
  | [] => Some acc
  | c :: r =>
      match digit c with
      | Some d => digits r (10 * acc + d)%Z
      | None => None
      end
  end.

Definition unsigned_decimal (neg : bool) (s : pystr) : option float :=
  match Str.split 46 s with
  | [ip] =>
      match ip, digits ip 0 with
      | _ :: _, Some n => Some (Num.nearest_quotient neg n 1)
      | _, _ => None
      end
  | [ip; fp] =>
      match ip ++ fp, digits (ip ++ fp) 0 with
      | _ :: _, Some n =>
          Some (Num.nearest_quotient neg n
                  (Z.to_pos (10 ^ Z.of_nat (List.length fp))))
      | _, _ => None
      end
  | _ => None
  end.

(** [nan], [inf] and [infinity], in any case. *)
Definition special_float (neg : bool) (s : pystr) : option float :=
  let l := Str.ascii_lower s in
  if Str.eqb l (u "nan") then Some nan
  else if Str.eqb l (u "inf") || Str.eqb l (u "infinity") then
    Some (if neg then neg_infinity else infinity)
  else None.

Definition unsigned_float (neg : bool) (s : pystr) : option float :=
  match special_float neg s with
  | Some x => Some x
  | None => unsigned_decimal neg s
  end.

(** [float(s)] on the literals [[+-]digits[.digits]], correctly rounded as
    [float] is, and on [[+-]nan], [[+-]inf] and [[+-]infinity]; every other
    string is rejected here, also the exponent and underscore forms that
    [float] reads. *)
Definition decimal_float (s : pystr) : option float :=
  match s with
  | 45%N :: r => unsigned_float true r
  | 43%N :: r => unsigned_float false r
  | _ => unsigned_float false s
  end.

(** 32 hexadecimal digits, as [UUID.hex] has: here the draw number. *)
Definition counter_hex (n : nat) : pystr := Str.hex32 (N.of_nat n).

Definition runtime : Runtime :=
  {| file_text := option pyval;
     json_dump := fun v => Some v;
     json_dump_prefix := fun _ => None;
     json_load := fun t => t;
     str_lower := Str.ascii_lower;
     py_float := decimal_float;
     uuid4_int := N.of_nat;
     ORS_API_KEY := u "sample-key" |}.

(** The world before anything was stored. *)
Definition fresh_world : @world runtime :=
  {| pois_file := None; uuid_draws := 0; trace := [] |}.

(** The candidate of these fields; the literals of this file are text,
    and the empty candidate stands for any other. *)
Definition poi (name : string) (lat lon : float) (tags : list string)
  : PoiIn :=
  match bool_dec (forallb Str.is_text (u name :: map u tags)) true with
  | left H =>
      {| name := u name; lat := lat; lon := lon; tags := map u tags;
         PoiIn_text := H |}
  | right _ =>
      {| name := []; lat := lat; lon := lon; tags := [];
         PoiIn_text := eq_refl |}
  end.

Definition cafe : PoiIn := poi "Café" 48.5 2.25 ["food"%string].

(** The record the first [create_poi] of a process makes of [cafe]. *)
Definition cafe_item : pyval := new_item (counter_hex 0) cafe.

(** The world once [cafe] was created. *)
Definition cafe_world : @world runtime :=
  after (create_poi cafe) fresh_world.

(** The provider that answers every request with [r]. *)
Definition always (r : http_response) : provider := fun _ => Some r.

Definition ok_json (v : pyval) : http_response :=
  {| status_code := 200; text := []; json := Some v |}.

Definition dict (kvs : list (string * pyval)) : pyval :=
  PDict (map (fun kv => (u (fst kv), snd kv)) kvs).

Definition louvre : PoiIn := poi " Louvre " 48.75 2.5 [].

Definition louvre_item : pyval := new_item (counter_hex 1) louvre.

(** The world once [cafe] and then [louvre] were created. *)
Definition paris_world : @world runtime :=
  after (create_poi louvre) cafe_world.

(** A GeoJSON point feature, coordinates in the provider's order. *)
Definition point_geometry (lon lat : float) : list (pystr * pyval) :=
  [ (u "type", PStr (u "Point"));
    (u "coordinates", PList [PFloat lon; PFloat lat]) ].

Definition point (lon lat : float) (props : list (pystr * pyval)) : pyval :=
  PDict [ (u "type", PStr (u "Feature"));
          (u "geometry", PDict (point_geometry lon lat));
          (u "properties", PDict props) ].

Definition moscow_properties : list (pystr * pyval) :=
  [ (u "label", PStr (u "Moscow, Russia")); (u "name", PStr (u "Moscow")) ].

#[warnings="-inexact-float"]
Definition moscow : pyval := point 37.6173 55.7558 moscow_properties.

Definition region_geometry : list (pystr * pyval) :=
  [ (u "type", PStr (u "Polygon")); (u "coordinates", PList []) ].

Definition region_properties : list (pystr * pyval) :=
  [ (u "label", PStr (u "Moscow Oblast")) ].

(** A labelled feature that is not a point. *)
Definition region : pyval :=
  PDict [ (u "type", PStr (u "Feature"));
          (u "geometry", PDict region_geometry);
          (u "properties", PDict region_properties) ].

(** A point feature with neither label nor name. *)
Definition unlabelled : pyval := point 1 2 [].

(** A labelled point whose position has an elevation as third component. *)
Definition summit : pyval :=
  PDict [ (u "type", PStr (u "Feature"));
          (u "geometry",
           PDict [ (u "type", PStr (u "Point"));
                   (u "coordinates", PList [PFloat 1; PFloat 2; PFloat 3]) ]);
          (u "properties", PDict [(u "label", PStr (u "Summit"))]) ].

Definition collection (features : list pyval) : pyval :=
  dict [ ("type"%string, PStr (u "FeatureCollection"));
         ("features"%string, PList features) ].

Definition six_points : list pyval :=
  map (fun i => point (PrimFloat.of_uint63 (Uint63.of_Z (Z.of_nat i))) 0
                      [(u "label", PStr (counter_hex i))])
      (seq 1 6).

Definition summary_fields : pyval :=
  dict [ ("distance"%string, PFloat 3500); ("duration"%string, PFloat 2700) ].

Definition route_properties : pyval :=
  dict [ ("summary"%string, summary_fields) ].

#[warnings="-inexact-float"]
Definition route_feature : pyval :=
  dict [ ("geometry"%string,
          dict [ ("type"%string, PStr (u "LineString"));
                 ("coordinates"%string,
                  PList [ PList [PFloat 2.2945; PFloat 48.8584];
                          PList [PFloat 2.3376; PFloat 48.8606] ]) ]);
         ("properties"%string, route_properties) ].

(** The answer the unit test of [route] mocks: 3500 m in 2700 s. *)
Definition route_payload : pyval :=
  dict [ ("features"%string, PList [route_feature]) ].

(** The text after its leading zeros. *)
Fixpoint drop_zeros (s : pystr) : pystr :=
  match s with
  | c :: r => if (c =? 48)%N then drop_zeros r else s
  | [] => []
  end.

(** The digits of [r / 10^k] after the point, without trailing zeros. *)
Definition fraction (r k : N) : pystr :=
  match rev (drop_zeros (rev (tl (Json.uint_chars (N.to_uint (10 ^ k + r))))))
  with
  | [] => [48%N]
  | t => t
  end.

(** The decimal expansion of a float, which is finite and exact.  It is
    what [repr] gives on a float that has at most 15 significant digits and
    lies between 1e-4 and 1e16 in magnitude, as [48.5] does. *)
Definition float_repr (f : float) : pystr :=
  match Prim2SF f with
  | S754_zero s => (if s then [45%N] else []) ++ u "0.0"
  | S754_infinity s => if s then u "-inf" else u "inf"
  | S754_nan => u "nan"
  | S754_finite s m e =>
      (if s then [45%N] else [])
      ++ (if (0 <=? e)%Z
          then Json.uint_chars (N.to_uint (Npos m * 2 ^ Z.to_N e)) ++ u ".0"
          else
            let k := Z.to_N (- e) in
            let n := (Npos m * 5 ^ k)%N in
            Json.uint_chars (N.to_uint (n / 10 ^ k))
            ++ 46%N :: fraction (n mod 10 ^ k) k)
  end.

(** The sample runtime with the POI file as JSON text. *)
Definition json_files : Runtime := json_runtime runtime float_repr (fun _ => []).

(** The world before anything was stored, on that runtime. *)
Definition empty_store : @world json_files :=
  {| pois_file := None; uuid_draws := 0; trace := [] |}.

End Sample.

(** ** Vocabulary of the statements *)

Module Spec.

(** [p] is a record whose [name] is the text [n]. *)
Definition named (p : pyval) (n : pystr) : Prop :=
  Py.getitem p (u "name") = Ok (PStr n).

(** [p] is a record whose [id] is the text [i]. *)
Definition identified (p : pyval) (i : pystr) : bool :=
  match Py.get p (u "id") PNone with
  | Ok v => Py.eq_str v i
  | Raise _ => false
  end.

Definition is_dict (p : pyval) : bool :=
  match p with
  | PDict _ => true
  | _ => false
  end.

(** Text that has a UTF-8 encoding: no surrogate code point. *)
Definition text_ok (s : pystr) : bool := Str.is_text s.

Fixpoint distinct (ks : list pystr) : bool :=
  match ks with
  | [] => true
  | k :: r => negb (existsb (Str.eqb k) r) && distinct r
  end.

(** The values [json.dump] writes to a UTF-8 file and [json.load] reads
    back equal: encodable text, distinct keys, no NaN (which is not equal
    to itself). *)
Fixpoint storable (v : pyval) : bool :=
  match v with
  | PNone | PBool _ | PInt _ => true
  | PFloat f => negb (is_nan f)
  | PStr s => text_ok s
  | PList l => forallb storable l
  | PDict d =>
      distinct (map fst d)
      && forallb (fun kv => let '(k, x) := kv in text_ok k && storable x) d
  end.

(** A POI record as [create_poi] builds them from validated input. *)
Definition poi_record (p : pyval) : Prop :=
  exists i n a b ts,
    p = PDict [ (u "id", PStr i); (u "name", PStr n);
                (u "lat", PFloat a); (u "lon", PFloat b);
                (u "tags", PList (map PStr ts)) ]
    /\ text_ok i = true /\ text_ok n = true
    /\ _lat a = true /\ _lon b = true
    /\ forallb text_ok ts = true.

Definition duplicate_detail : pystr :=
  u "POI с таким названием уже существует".

Definition not_found_detail : pystr := u "POI не найден".

Definition bad_coords_detail : pystr :=
  u "Неверный формат координат. Ожидал 'lat,lon'.".

(** The string reads as exactly two comma-separated numbers. *)
Definition two_numbers {RT : Runtime} (s : pystr) : Prop :=
  exists a b x y,
    Str.split 44 s = [a; b]
    /\ py_float (Str.strip a) = Some x
    /\ py_float (Str.strip b) = Some y.

(** *** Dividing and rounding, in the words of the claims *)





(** [obj.get(key, default)] where it cannot raise; [None] elsewhere. *)
Definition get_or (obj : pyval) (key : pystr) (default : pyval) : pyval :=
  match Py.get obj key default with
  | Ok v => v
  | Raise _ => PNone
  end.

Definition geometry (f : pyval) : pyval := get_or f (u "geometry") (PDict []).

Definition properties (f : pyval) : pyval :=
  get_or f (u "properties") (PDict []).

(** The feature's geometry is of type [Point]. *)
Definition is_point (f : pyval) : bool :=
  Py.eq_str (get_or (geometry f) (u "type") PNone) (u "Point").

(** The label field, or else the name field. *)
Definition label_of (f : pyval) : pyval :=
  Py.or_ (get_or (properties f) (u "label") PNone)
         (get_or (properties f) (u "name") PNone).

(** The feature has a usable label. *)
Definition has_label (f : pyval) : bool := Py.truthy (label_of f).

Definition coordinate (f : pyval) (i : nat) : pyval :=
  match get_or (geometry f) (u "coordinates") (PList [PNone; PNone]) with
  | PList l => nth i l PNone
  | _ => PNone
  end.

(** The result entry of a point feature: the provider's (lon, lat) pair
    swapped. *)
Definition point_entry (f : pyval) : pyval :=
  PDict [ (u "label", label_of f);
          (u "lat", coordinate f 1);
          (u "lon", coordinate f 0) ].

(** The entries of the point features that have a usable label. *)
Definition labelled_points (fs : list pyval) : list pyval :=
  map point_entry (filter (fun f => is_point f && has_label f) fs).

(** A feature of the GeoJSON shape: an object whose geometry and properties,
    when present, are objects, and whose coordinates, for a point and when
    present, are a pair. *)
Definition feature_ok (f : pyval) : Prop :=
  exists g ps,
    Py.get f (u "geometry") (PDict []) = Ok (PDict g)
    /\ Py.get f (u "properties") (PDict []) = Ok (PDict ps)
    /\ (is_point f = true ->
        exists lon lat,
          Py.get (PDict g) (u "coordinates") (PList [PNone; PNone])
          = Ok (PList [lon; lat])).

End Spec.

Import Spec.

(** ** Vocabulary of the further statements *)

Module Shape.

(** The codec reads the document back as it was written. *)
Definition reads_back {RT : Runtime} (v : pyval) : Prop :=
  json_load (json_dump v) = Some v.

(** A result entry of [geocode]: an object with exactly the keys [label],
    [lat] and [lon], in this order. *)
Definition entry_shape (e : pyval) : Prop :=
  exists label lat lon,
    e = PDict [ (u "label", label); (u "lat", lat); (u "lon", lon) ].

(** The answer of [route]: an object with exactly the keys [geojson],
    [distance_km], [duration_min] and [profile]. *)
Definition route_answer (data : pyval) (km : float) (mins : Z)
    (profile : pystr) : pyval :=
  PDict [ (u "geojson", data);
          (u "distance_km", PFloat km);
          (u "duration_min", PInt mins);
          (u "profile", PStr profile) ].


End Shape.

Import Shape.

(** ** Vocabulary of the file's text *)

Module Codec.

(** The floats of a value, in the order they are written. *)
Fixpoint floats (v : pyval) : list float :=
  match v with
  | PFloat f => [f]
  | PList l => flat_map floats l
  | PDict d => flat_map (fun kv => let '(_, x) := kv in floats x) d
  | _ => []
  end.

(** The depth of the calls [scan_once] makes on the text of [v]: one more
    than the deepest item, counted from its place in the list. *)
Fixpoint calls (v : pyval) : nat :=
  match v with
  | PList l =>
      S ((fix items (l : list pyval) : nat :=
            match l with
            | [] => 0
            | x :: r => S (Nat.max (calls x) (items r))
            end) l)
  | PDict d =>
      S ((fix items (d : list (pystr * pyval)) : nat :=
            match d with
            | [] => 0
            | (_, x) :: r => S (Nat.max (calls x) (items r))
            end) d)
  | _ => 1
  end.

Definition list_calls (l : list pyval) : nat :=
  fold_right (fun x n => S (Nat.max (calls x) n)) 0 l.

Definition dict_calls (d : list (pystr * pyval)) : nat :=
  fold_right (fun kv n => S (Nat.max (calls (snd kv)) n)) 0 d.

(** What [hex4] writes for a control character, [hex4_value] reads. *)
Definition escape_reads (c : N) : bool :=
  match Json.hex4 c with
  | [a; b; c1; d] =>
      match Json.hex4_value a b c1 d with
      | Some v => (v =? c)%N
      | None => false
      end
  | _ => false
  end.

(** What may follow a value in the text [dumps] writes: a comma, a line
    break, or nothing. *)
Definition boundary (rest : pystr) : Prop :=
  match rest with
  | [] => True
  | c :: _ => c = 44%N \/ c = 10%N
  end.

(** A number starts with a digit or a minus sign. *)
Definition number_start (c : N) : bool := Json.digit c || (c =? 45)%N.

(** A value starts with a character that is neither white space nor a
    closing bracket. *)
Definition value_start (c : N) : Prop :=
  Json.ws c = false /\ (c =? 93)%N = false /\ (c =? 125)%N = false.

Section Law.

Variable float_repr : float -> pystr.
Variable float_of : pystr -> option float.

(** [float_repr f] is the text of a JSON number with a fraction or an
    exponent, and [float_of] reads it as [f]: what Python promises of
    [repr] and [float] on a finite float. *)
Definition repr_reads (f : float) : Prop :=
  Json.match_number (float_repr f) = Some (float_repr f, true, [])
  /\ float_of (float_repr f) = Some f.

Definition float_law (f : float) : Prop :=
  is_finite f = true /\ repr_reads f.

(** Every float of the value is finite and read as it is written. *)
Definition readable (v : pyval) : Prop :=
  forall f, In f (floats v) -> float_law f.

(** The scanner reads the text of [v] as [v], whatever follows it and
    however deep it is nested. *)
Definition reads_as_written (v : pyval) : Prop :=
  storable v = true -> readable v ->
  forall (level : nat) (rest : pystr) (fuel : nat),
    boundary rest -> calls v <= fuel ->
    Json.scan_once float_of fuel (Json.encode float_repr v level ++ rest)
    = Some (v, rest).

(** One entry of an object as it is written: the key, a colon and a
    space, the value. *)
Definition entry (level : nat) (kv : pystr * pyval) : pystr :=
  let '(k, x) := kv in
  Json.encode_basestring k ++ [58%N; 32%N]
  ++ Json.encode float_repr x (S level).

End Law.

(** Induction on a value with the items of a list and the values of an
    object as induction hypotheses. *)
Section PyvalInduction.

Variable P : pyval -> Prop.
Hypothesis HNone : P PNone.
Hypothesis HBool : forall b, P (PBool b).
Hypothesis HInt : forall z, P (PInt z).
Hypothesis HFloat : forall f, P (PFloat f).
Hypothesis HStr : forall s, P (PStr s).
Hypothesis HList : forall l, Forall P l -> P (PList l).
Hypothesis HDict : forall d, Forall (fun kv => P (snd kv)) d -> P (PDict d).

Fixpoint pyval_induction (v : pyval) : P v :=
  match v with
  | PNone => HNone
  | PBool b => HBool b
  | PInt z => HInt z
  | PFloat f => HFloat f
  | PStr s => HStr s
  | PList l =>
      HList l
        ((fix go (l : list pyval) : Forall P l :=
            match l with
            | [] => Forall_nil _
            | x :: r => Forall_cons x (pyval_induction x) (go r)
            end) l)
  | PDict d =>
      HDict d
        ((fix go (d : list (pystr * pyval))
            : Forall (fun kv => P (snd kv)) d :=
            match d with
            | [] => Forall_nil _
            | kv :: r =>
                Forall_cons kv (pyval_induction (snd kv)) (go r)
            end) d)
  end.

End PyvalInduction.

End Codec.

Import Codec.

(** ** Further sample data *)

Module Cases.

(** A runtime whose files may hold text that is not JSON: [None] is such a
    text, [Some v] the text of the document [v]. *)
Definition text_runtime : Runtime :=
  {| file_text := option pyval;
     json_dump := fun v => Some v;
     json_dump_prefix := fun _ => None;
     json_load := fun t => t;
     str_lower := Str.ascii_lower;
     py_float := Sample.decimal_float;
     uuid4_int := N.of_nat;
     ORS_API_KEY := u "sample-key" |}.

(** A world whose POI file is not JSON. *)
Definition corrupt_world : @world text_runtime :=
  @Build_world text_runtime (Some None) 0 [].

(** A stored entry that has an identifier but no name. *)
Definition nameless : pyval := PDict [ (u "id", PStr (u "7")) ].

(** A world whose POI file holds [Sample.cafe_item] and a nameless entry. *)
Definition nameless_world : @world Sample.runtime :=
  @Build_world Sample.runtime
    (Some (Some (PList [Sample.cafe_item; nameless]))) 1 [].

(** A stored entry whose name is an unpaired surrogate, as [json.load]
    reads it from the escape [\ud800]. *)
Definition unpaired : pyval :=
  PDict [ (u "id", PStr (u "7")); (u "name", PStr [55296%N]);
          (u "lat", PFloat 0); (u "lon", PFloat 0); (u "tags", PList []) ].

(** A world whose POI file holds [Sample.cafe_item] and that entry. *)
Definition unpaired_world : @world Sample.runtime :=
  @Build_world Sample.runtime
    (Some (Some (PList [Sample.cafe_item; unpaired]))) 1 [].






(** The provider's answer the unit tests mock for a failure. *)
Definition failing : http_response :=
  {| status_code := 500; text := u "Internal Server Error"; json := None |}.




End Cases.

(** * Properties *)

Lemma Str_eqb_eq (s t : pystr) : Str.eqb s t = true <-> s = t.
Proof.
  unfold Str.eqb. destruct (list_eq_dec N.eq_dec s t); split; congruence.
Qed.

Lemma Str_eqb_refl (s : pystr) : Str.eqb s s = true.
Proof. apply Str_eqb_eq. reflexivity. Qed.

Lemma existsb_eqb_In (k : pystr) (ks : list pystr) :
  existsb (Str.eqb k) ks = true <-> In k ks.
Proof.
  rewrite existsb_exists. split.
  - intros (x & Hin & Heq). apply Str_eqb_eq in Heq. now subst.
  - intros Hin. exists k. split; [assumption | apply Str_eqb_refl].
Qed.

(** ** Trimming *)

Lemma lstrip_spaces (a : pystr) :
  forallb Str.is_space a = true -> Str.lstrip a = [].
Proof.
  induction a as [|c a IH]; simpl; [reflexivity|].
  intros H. apply andb_true_iff in H. destruct H as [Hc Ha].
  rewrite Hc. auto.
Qed.

Lemma lstrip_spaces_app (a x : pystr) :
  forallb Str.is_space a = true -> Str.lstrip (a ++ x) = Str.lstrip x.
Proof.
  induction a as [|c a IH]; simpl; [reflexivity|].
  intros H. apply andb_true_iff in H. destruct H as [Hc Ha].
  rewrite Hc. auto.
Qed.

Lemma lstrip_app (s b : pystr) :
  Str.lstrip s <> [] -> Str.lstrip (s ++ b) = Str.lstrip s ++ b.
Proof.
  induction s as [|c s IH]; simpl; [congruence|].
  destruct (Str.is_space c); auto.
Qed.

Lemma forallb_rev {A} (f : A -> bool) (l : list A) :
  forallb f l = true -> forallb f (rev l) = true.
Proof.
  rewrite !forallb_forall. intros H x Hx. apply H. now apply in_rev.
Qed.

Lemma rstrip_app_spaces (x b : pystr) :
  forallb Str.is_space b = true -> Str.rstrip (x ++ b) = Str.rstrip x.
Proof.
  intros Hb. unfold Str.rstrip. rewrite rev_app_distr.
  now rewrite (lstrip_spaces_app (rev b) (rev x) (forallb_rev _ _ Hb)).
Qed.

(** White space around a name does not change what [strip] leaves. *)
Lemma strip_surrounding (a s b : pystr) :
  forallb Str.is_space a = true -> forallb Str.is_space b = true ->
  Str.strip (a ++ s ++ b) = Str.strip s.
Proof.
  intros Ha Hb. unfold Str.strip. rewrite (lstrip_spaces_app a _ Ha).
  destruct (Str.lstrip s) as [|c r] eqn:Hs.
  - assert (Hsb : Str.lstrip (s ++ b) = []).
    { clear Ha a. revert Hs. induction s as [|c s IH]; simpl.
      - intros _. now apply lstrip_spaces.
      - destruct (Str.is_space c); [auto | discriminate]. }
    now rewrite Hsb.
  - rewrite lstrip_app by congruence. rewrite Hs.
    now apply rstrip_app_spaces.
Qed.

Lemma lstrip_forallb (f : N -> bool) (s : pystr) :
  forallb f s = true -> forallb f (Str.lstrip s) = true.
Proof.
  induction s as [|c s IH]; simpl; [reflexivity|].
  intros H. destruct (Str.is_space c); [|exact H].
  apply andb_true_iff in H. now apply IH.
Qed.

(** Trimming keeps text encodable. *)
Lemma strip_forallb (f : N -> bool) (s : pystr) :
  forallb f s = true -> forallb f (Str.strip s) = true.
Proof.
  intros H. unfold Str.strip, Str.rstrip.
  apply forallb_rev, lstrip_forallb, forallb_rev, lstrip_forallb, H.
Qed.

Lemma strip_is_text (s : pystr) :
  Str.is_text s = true -> Str.is_text (Str.strip s) = true.
Proof. apply strip_forallb. Qed.

(** ** Identifiers *)

Lemma hex32_is_text (k : N) : Str.is_text (Str.hex32 k) = true.
Proof.
  unfold Str.is_text, Str.hex32. apply forallb_forall. intros c Hc.
  apply in_map_iff in Hc. destruct Hc as (i & <- & _).
  set (d := ((k / 16 ^ N.of_nat (31 - i)) mod 16)%N).
  assert (Hd : (d < 16)%N) by (apply N.mod_lt; discriminate).
  unfold Str.hex_digit. apply orb_true_iff. left. apply N.ltb_lt.
  destruct (d <? 10)%N; lia.
Qed.

Lemma hex32_length (k : N) : List.length (Str.hex32 k) = 32.
Proof. unfold Str.hex32. now rewrite length_map, length_seq. Qed.

(** ** Values that can be written *)

Lemma encodable_snoc (l : list pyval) (x : pyval) :
  Py.encodable (PList (l ++ [x]))
  = Py.encodable (PList l) && Py.encodable x.
Proof. cbn [Py.encodable]. rewrite forallb_app. simpl. now rewrite andb_true_r. Qed.

Lemma encodable_texts (ts : list pystr) :
  forallb Py.encodable (map PStr ts) = forallb Str.is_text ts.
Proof. induction ts as [|t ts IH]; simpl; congruence. Qed.

Lemma encodable_In (l : list pyval) (x : pyval) :
  Py.encodable (PList l) = true -> In x l -> Py.encodable x = true.
Proof. cbn [Py.encodable]. rewrite forallb_forall. auto. Qed.

Lemma encodable_filter (f : pyval -> bool) (l : list pyval) :
  Py.encodable (PList l) = true -> Py.encodable (PList (filter f l)) = true.
Proof.
  cbn [Py.encodable]. rewrite !forallb_forall. intros H x Hx.
  apply filter_In in Hx. now apply H.
Qed.

(** Literals are compared as they stand; [vm_compute] decodes them. *)
#[global] Opaque u.

Section Properties.

Context {RT : Runtime}.

(** *** The store reads without side effects *)

Lemma load_pois_world (w : world) : after load_pois w = w.
Proof.
  unfold after, load_pois.
  destruct (pois_file w) as [t|]; [destruct (json_load t)|]; reflexivity.
Qed.

Lemma load_pois_run (w : world) (v : pyval) :
  outcome load_pois w = Ok v -> load_pois w = (Ok v, w).
Proof.
  intros H. rewrite (surjective_pairing (load_pois w)).
  fold (outcome load_pois w). fold (after load_pois w).
  now rewrite H, load_pois_world.
Qed.

Lemma list_pois_world (w : world) : after list_pois w = w.
Proof.
  unfold after, list_pois.
  destruct (pois_file w) as [t|]; [destruct (json_load t)|]; reflexivity.
Qed.

(** *** The set of normalised names *)

Lemma name_key_named (p : pyval) (n : pystr) :
  named p n -> name_key p = Ok (str_lower (Str.strip n)).
Proof. unfold named, name_key. intros ->. reflexivity. Qed.

Lemma name_keys_spec (pois : list pyval) :
  Forall (fun p => exists n, named p n) pois ->
  exists keys,
    name_keys (PList pois) = Ok keys
    /\ forall k, In k keys <->
         exists p n, In p pois /\ named p n
                     /\ k = str_lower (Str.strip n).
Proof.
  unfold name_keys. simpl.
  induction 1 as [|p pois (n & Hn) _ (keys & Hk & Hspec)].
  - exists []. split; [reflexivity|].
    intros k. split; [intros [] | intros (p & n & [] & _)].
  - exists (str_lower (Str.strip n) :: keys). split.
    + simpl. rewrite (name_key_named p n Hn). simpl. now rewrite Hk.
    + intros k. simpl. rewrite Hspec. split.
      * intros [<- | (q & m & Hq & Hm & ->)].
        -- exists p, n. auto.
        -- exists q, m. auto.
      * intros (q & m & [<- | Hq] & Hm & ->).
        -- left. unfold named in *. congruence.
        -- right. exists q, m. auto.
Qed.

Lemma create_poi_conflict (w : world) (pois : list pyval) (poi : PoiIn) :
  outcome load_pois w = Ok (PList pois) ->
  Forall (fun p => exists n, named p n) pois ->
  (exists p n, In p pois /\ named p n
     /\ str_lower (Str.strip n) = str_lower (Str.strip (name poi))) ->
  create_poi poi w = (Raise (HTTPException 409 duplicate_detail), w).
Proof.
  intros Hload Hnamed (p & n & Hin & Hn & Heq).
  destruct (name_keys_spec pois Hnamed) as (keys & Hkeys & Hspec).
  unfold create_poi, bind, lift. rewrite (load_pois_run w _ Hload), Hkeys.
  assert (Hex : existsb (Str.eqb (str_lower (Str.strip (name poi)))) keys
                = true).
  { apply existsb_eqb_In, Hspec. exists p, n. auto. }
  rewrite Hex. reflexivity.
Qed.

(** A stored name padded with white space is still a duplicate. *)
Corollary create_poi_rejects_padded_name (w : world) (pois : list pyval)
    (p : pyval) (n a b : pystr) (poi : PoiIn) :
  outcome load_pois w = Ok (PList pois) ->
  Forall (fun p => exists n, named p n) pois ->
  In p pois -> named p n ->
  forallb Str.is_space a = true -> forallb Str.is_space b = true ->
  name poi = a ++ n ++ b ->
  create_poi poi w = (Raise (HTTPException 409 duplicate_detail), w).
Proof.
  intros Hload Hnamed Hin Hn Ha Hb Hname.
  apply (create_poi_conflict w pois poi Hload Hnamed).
  exists p, n. repeat split; try assumption.
  now rewrite Hname, strip_surrounding.
Qed.

(** *** Writing *)

Lemma save_pois_ok (v : pyval) (w : world) :
  Py.encodable v = true ->
  save_pois v w
  = (Ok tt, {| pois_file := Some (json_dump v);
               uuid_draws := uuid_draws w;
               trace := trace w ++ [FileWritten (json_dump v)] |}).
Proof. intros H. unfold save_pois. now rewrite H. Qed.

Lemma save_pois_fails (v : pyval) (w : world) :
  Py.encodable v = false ->
  save_pois v w
  = (Raise UnicodeEncodeError,
     {| pois_file := Some (json_dump_prefix v);
        uuid_draws := uuid_draws w;
        trace := trace w ++ [FileWritten (json_dump_prefix v)] |}).
Proof. intros H. unfold save_pois. now rewrite H. Qed.

Lemma uuid4_hex_is_text (n : nat) : Str.is_text (uuid4_hex n) = true.
Proof. apply hex32_is_text. Qed.

(** The entry [create_poi] makes of a candidate holds encodable text only:
    the identifier is hexadecimal and the candidate was validated. *)
Lemma new_item_encodable (id : pystr) (poi : PoiIn) :
  Str.is_text id = true -> Py.encodable (new_item id poi) = true.
Proof.
  intros Hid. pose proof (PoiIn_text poi) as Ht. cbn [forallb] in Ht.
  apply andb_true_iff in Ht. destruct Ht as [Hn Hts].
  assert (K : forallb Str.is_text
                [u "id"; u "name"; u "lat"; u "lon"; u "tags"] = true)
    by (vm_compute; reflexivity).
  cbn [forallb] in K.
  repeat (apply andb_true_iff in K; destruct K as [? K]).
  unfold new_item. cbn [Py.encodable forallb].
  rewrite encodable_texts, Hid, (strip_is_text _ Hn), Hts.
  repeat (apply andb_true_iff; split); auto.
Qed.

Lemma encodable_new_item (pois : list pyval) (n : nat) (poi : PoiIn) :
  Py.encodable (PList (pois ++ [new_item (uuid4_hex n) poi]))
  = Py.encodable (PList pois).
Proof.
  rewrite encodable_snoc, (new_item_encodable _ poi (uuid4_hex_is_text n)).
  apply andb_true_r.
Qed.

(** [create_poi], step by step, once the collection and its keys are
    known. *)
Lemma create_poi_run (w : world) (pois : list pyval) (keys : list pystr)
    (poi : PoiIn) :
  outcome load_pois w = Ok (PList pois) ->
  name_keys (PList pois) = Ok keys ->
  let item := new_item (uuid4_hex (uuid_draws w)) poi in
  let written (t : file_text) :=
    {| pois_file := Some t;
       uuid_draws := S (uuid_draws w);
       trace := trace w ++ [FileWritten t] |} in
  create_poi poi w =
    if existsb (Str.eqb (str_lower (Str.strip (name poi)))) keys
    then (Raise (HTTPException 409 duplicate_detail), w)
    else if Py.encodable (PList pois)
    then (Ok item, written (json_dump (PList (pois ++ [item]))))
    else (Raise UnicodeEncodeError,
          written (json_dump_prefix (PList (pois ++ [item])))).
Proof.
  intros Hload Hkeys item written. unfold create_poi, bind, lift.
  rewrite (load_pois_run w _ Hload), Hkeys.
  destruct (existsb _ keys); [reflexivity|].
  unfold uuid4, Py.append, save_pois. cbv iota beta.
  fold item. unfold item at 1. rewrite encodable_new_item. fold item.
  destruct (Py.encodable (PList pois)); reflexivity.
Qed.


Lemma identified_new_item (id : pystr) (poi : PoiIn) :
  identified (new_item id poi) id = true.
Proof.
  unfold identified, new_item. simpl. rewrite Str_eqb_refl. simpl.
  apply Str_eqb_refl.
Qed.




(** While [uuid4] never repeats a value and the stored identifiers are
    earlier draws, the identifier of a new entry is on no stored entry. *)
Lemma drawn_id_is_fresh (w : world) (pois : list pyval) :
  (forall j k, uuid4_hex j = uuid4_hex k -> j = k) ->
  (forall p i, In p pois -> identified p i = true ->
     exists k, k < uuid_draws w /\ i = uuid4_hex k) ->
  forall p, In p pois -> identified p (uuid4_hex (uuid_draws w)) = false.
Proof.
  intros Hinj Hdrawn p Hin.
  destruct (identified p (uuid4_hex (uuid_draws w))) eqn:Hid; [|reflexivity].
  destruct (Hdrawn p _ Hin Hid) as (k & Hlt & Heq).
  apply Hinj in Heq. lia.
Qed.

(** Whatever the file holds, a [create_poi] that answers 409 has written
    nothing and drawn no identifier. *)
Lemma create_poi_409_world (w : world) (poi : PoiIn) (detail : pystr) :
  outcome (create_poi poi) w = Raise (HTTPException 409 detail) ->
  after (create_poi poi) w = w.
Proof.
  unfold outcome, after, create_poi, bind, lift.
  pose proof (load_pois_world w) as Hw. unfold after in Hw.
  destruct (load_pois w) as [[pois|e] w']; simpl in Hw; subst w';
    [|reflexivity].
  destruct (name_keys pois) as [keys|e]; [|reflexivity].
  destruct (existsb _ keys); [reflexivity|].
  unfold uuid4, Py.append, save_pois.
  destruct pois; simpl; try (intros H; discriminate H).
  destruct (forallb Py.encodable _); simpl; intros H; discriminate H.
Qed.

(** C10: a [create_poi] that fails on a name collision leaves the world as
    it found it: the POI file has the contents it had and nothing was
    written. *)
Theorem create_poi_conflict_writes_nothing (w : world)
    (pois : list pyval) (poi : PoiIn) :
  outcome load_pois w = Ok (PList pois) ->
  Forall (fun p => exists n, named p n) pois ->
  (exists p n, In p pois /\ named p n
     /\ str_lower (Str.strip n) = str_lower (Str.strip (name poi))) ->
  after (create_poi poi) w = w
  /\ pois_file (after (create_poi poi) w) = pois_file w
  /\ trace (after (create_poi poi) w) = trace w.
Proof.
  intros Hload Hnamed Hdup.
  assert (H : after (create_poi poi) w = w).
  { unfold after.
    now rewrite (create_poi_conflict w pois poi Hload Hnamed Hdup). }
  rewrite H. auto.
Qed.

(** *** Deleting *)

Lemma filterM_keeps (poi_id : pystr) (pois : list pyval) :
  Forall (fun p => is_dict p = true) pois ->
  R.filterM (keeps poi_id) pois
  = Ok (filter (fun p => negb (identified p poi_id)) pois).
Proof.
  induction 1 as [|p pois Hp _ IH]; [reflexivity|].
  destruct p; try discriminate Hp.
  simpl. rewrite IH. unfold keeps, identified. simpl.
  destruct (Py.lookup (u "id") d); reflexivity.
Qed.

Lemma filter_length_all {A} (f : A -> bool) (l : list A) :
  List.length (filter f l) = List.length l <->
  forall x, In x l -> f x = true.
Proof.
  induction l as [|a l IH]; simpl.
  - split; [intros _ x [] | reflexivity].
  - pose proof (filter_length_le f l) as Hle.
    destruct (f a) eqn:Hfa; simpl.
    + split.
      * intros H x [<- | Hx]; [assumption|].
        apply IH; [lia | assumption].
      * intros H. f_equal. apply IH. auto.
    + split.
      * intros H. lia.
      * intros H. specialize (H a (or_introl eq_refl)). congruence.
Qed.

Lemma filter_single_out {A} (f : A -> bool) (l1 l2 : list A) (x : A) :
  f x = false -> (forall y, In y (l1 ++ l2) -> f y = true) ->
  filter f (l1 ++ x :: l2) = l1 ++ l2.
Proof.
  intros Hx Hall. rewrite filter_app. simpl. rewrite Hx.
  rewrite <- filter_app. apply forallb_filter_id, forallb_forall, Hall.
Qed.

Lemma delete_poi_run (w : world) (pois : list pyval) (poi_id : pystr) :
  outcome load_pois w = Ok (PList pois) ->
  Forall (fun p => is_dict p = true) pois ->
  let kept := filter (fun p => negb (identified p poi_id)) pois in
  delete_poi poi_id w =
    if Nat.eqb (List.length kept) (List.length pois)
    then (Raise (HTTPException 404 not_found_detail), w)
    else save_pois (PList kept) w.
Proof.
  intros Hload Hdict kept. unfold delete_poi, bind, lift.
  rewrite (load_pois_run w _ Hload). simpl Py.iter. cbv iota beta.
  rewrite (filterM_keeps poi_id pois Hdict). simpl Py.len. cbv iota beta.
  fold kept. destruct (Nat.eqb (List.length kept) (List.length pois));
    reflexivity.
Qed.

(** C6 (amended): against a collection of records, [delete_poi] keeps, in
    order, the entries whose [id] differs from the one given and, their
    text being encodable, writes that collection, so the entry that
    carries the id is the one removed; when no entry carries it, the
    answer is 404 and the world is left as it was. *)
Theorem delete_poi_removes_matching (w : world) (pois : list pyval)
    (poi_id : pystr) :
  outcome load_pois w = Ok (PList pois) ->
  Forall (fun p => is_dict p = true) pois ->
  let kept := filter (fun p => negb (identified p poi_id)) pois in
  ((exists p, In p pois /\ identified p poi_id = true) ->
   Py.encodable (PList kept) = true ->
   outcome (delete_poi poi_id) w = Ok tt
   /\ pois_file (after (delete_poi poi_id) w)
      = Some (json_dump (PList kept))
   /\ (forall p, In p kept <-> In p pois /\ identified p poi_id = false)
   /\ (forall l1 p l2,
         pois = l1 ++ p :: l2 -> identified p poi_id = true ->
         (forall q, In q (l1 ++ l2) -> identified q poi_id = false) ->
         kept = l1 ++ l2))
  /\
  ((forall p, In p pois -> identified p poi_id = false) ->
   outcome (delete_poi poi_id) w
   = Raise (HTTPException 404 not_found_detail)
   /\ after (delete_poi poi_id) w = w).
Proof.
  intros Hload Hdict kept.
  pose proof (delete_poi_run w pois poi_id Hload Hdict) as Hrun.
  fold kept in Hrun. cbv zeta in Hrun. split.
  - intros (p & Hin & Hid) Henc.
    assert (Hne : Nat.eqb (List.length kept) (List.length pois) = false).
    { apply Nat.eqb_neq. intros Hlen. unfold kept in Hlen.
      pose proof (proj1 (filter_length_all _ _) Hlen p Hin) as Hkeep.
      cbv beta in Hkeep.
      rewrite Hid in Hkeep. discriminate. }
    unfold outcome, after. rewrite Hrun, Hne, (save_pois_ok _ _ Henc). simpl.
    split; [reflexivity|]. split; [reflexivity|]. split.
    + intros q. unfold kept. rewrite filter_In, negb_true_iff. tauto.
    + intros l1 q l2 -> Hq Hrest. unfold kept.
      apply filter_single_out.
      * now rewrite Hq.
      * intros y Hy. now rewrite (Hrest y Hy).
  - intros Hnone.
    assert (Heq : Nat.eqb (List.length kept) (List.length pois) = true).
    { apply Nat.eqb_eq. unfold kept.
      apply (proj2 (filter_length_all _ _)). intros x Hx.
      now rewrite (Hnone x Hx). }
    unfold outcome, after. rewrite Hrun, Heq. split; reflexivity.
Qed.

(** *** Saving and loading *)

Lemma in_range_not_nan (lo hi a : float) :
  Num.between lo a hi = true -> is_nan a = false.
Proof.
  unfold Num.between. intros H. apply andb_true_iff in H.
  destruct H as [H _]. rewrite leb_spec in H.
  destruct (is_nan a) eqn:Hnan; [|reflexivity].
  unfold Prim2SF in H at 2. rewrite Hnan in H.
  unfold SFleb, SFcompare in H.
  destruct (Prim2SF lo); discriminate H.
Qed.

Lemma tags_storable (ts : list pystr) :
  forallb text_ok ts = true -> forallb storable (map PStr ts) = true.
Proof.
  induction ts as [|t ts IH]; simpl; [reflexivity|].
  intros H. apply andb_true_iff in H. destruct H as [Ht Hts].
  now rewrite Ht, IH.
Qed.

Lemma record_keys_ok :
  distinct [u "id"; u "name"; u "lat"; u "lon"; u "tags"] = true
  /\ text_ok (u "id") = true /\ text_ok (u "name") = true
  /\ text_ok (u "lat") = true /\ text_ok (u "lon") = true
  /\ text_ok (u "tags") = true.
Proof. vm_compute. repeat split. Qed.

Lemma poi_record_storable (p : pyval) :
  poi_record p -> storable p = true.
Proof.
  intros (i & n & a & b & ts & -> & Hi & Hn & Ha & Hb & Hts).
  destruct record_keys_ok as (Hk & K1 & K2 & K3 & K4 & K5).
  apply in_range_not_nan in Ha, Hb. apply tags_storable in Hts.
  cbn [storable map fst forallb].
  rewrite Hk, K1, K2, K3, K4, K5, Hi, Hn, Ha, Hb, Hts. reflexivity.
Qed.

Lemma collection_storable (pois : list pyval) :
  Forall poi_record pois -> storable (PList pois) = true.
Proof.
  intros H. cbn [storable]. apply forallb_forall. intros p Hp.
  apply poi_record_storable. now apply (proj1 (Forall_forall _ _) H).
Qed.

(** *** Listing when nothing was stored yet *)

(** C2 (the code departs from it): without a POI file [list_pois] raises
    [FileNotFoundError], which the framework answers with status 500,
    where [load_pois] returns the empty list. *)
Theorem list_pois_missing_file (n : nat) (tr : list event) :
  let w := {| pois_file := None; uuid_draws := n; trace := tr |} in
  list_pois w = (Raise FileNotFoundError, w)
  /\ http_status FileNotFoundError = 500%Z
  /\ load_pois w = (Ok (PList []), w).
Proof. repeat split. Qed.

(** *** Names made of white space *)

(** C3 (the code departs from it): the one-space name passes
    [Field(min_length=1)], and [create_poi] then stores the entry under
    the empty name its [strip()] leaves. *)
Theorem blank_name_is_stored_empty (n : nat) (tr : list event) :
  let w := {| pois_file := None; uuid_draws := n; trace := tr |} in
  exists poi item,
    PoiIn_validate (u " ") 0 0 [] = Ok poi
    /\ outcome (create_poi poi) w = Ok item
    /\ Py.getitem item (u "name") = Ok (PStr [])
    /\ pois_file (after (create_poi poi) w)
       = Some (json_dump (PList [item])).
Proof.
  intros w.
  destruct (PoiIn_validate (u " ") 0 0 []) as [poi|e] eqn:Hv;
    [|vm_compute in Hv; discriminate Hv].
  assert (Hname : name poi = u " ").
  { revert Hv. unfold PoiIn_validate.
    destruct (bool_dec _ true) as [H|H];
      [|exfalso; apply H; vm_compute; reflexivity].
    replace (PoiIn_errors (u " ") 0 0 []) with (@nil (string * pyval))
      by (vm_compute; reflexivity).
    intros E. injection E as <-. reflexivity. }
  assert (Hload : outcome load_pois w = Ok (PList [])) by reflexivity.
  exists poi, (new_item (uuid4_hex n) poi). split; [reflexivity|].
  unfold outcome, after.
  rewrite (create_poi_run w [] [] poi Hload eq_refl). simpl.
  split; [reflexivity|]. split; [|reflexivity].
  unfold new_item. rewrite Hname. vm_compute. reflexivity.
Qed.

(** *** Coordinates *)

Lemma mapM_length {A B} (f : A -> result B) (l : list A) (ys : list B) :
  R.mapM f l = Ok ys -> List.length ys = List.length l.
Proof.
  revert ys. induction l as [|a l IH]; simpl; intros ys H.
  - now inversion H.
  - destruct (f a); [|discriminate]. simpl in H.
    destruct (R.mapM f l) as [zs|]; [|discriminate]. simpl in H.
    inversion H. simpl. now rewrite (IH zs eq_refl).
Qed.

Lemma parse_coord_two_numbers (s : pystr) :
  two_numbers s -> exists lat lon, parse_coord s = Ok (lat, lon).
Proof.
  intros (a & b & x & y & Hs & Ha & Hb). exists x, y.
  unfold parse_coord. rewrite Hs. simpl. now rewrite Ha, Hb.
Qed.

Lemma parse_coord_not_two_numbers (s : pystr) :
  ~ two_numbers s -> exists e, parse_coord s = Raise e.
Proof.
  intros Hnot. unfold parse_coord.
  destruct (R.mapM _ (Str.split 44 s)) as [xs|e] eqn:Hmap;
    [|exists e; reflexivity].
  simpl. pose proof (mapM_length _ _ _ Hmap) as Hlen.
  destruct xs as [|x [|y [|z xs]]]; try (exists ValueError; reflexivity).
  exfalso. apply Hnot.
  destruct (Str.split 44 s) as [|a [|b [|c r]]] eqn:Hs;
    try discriminate Hlen.
  simpl in Hmap.
  destruct (py_float (Str.strip a)) as [x'|] eqn:Ha; [|discriminate].
  destruct (py_float (Str.strip b)) as [y'|] eqn:Hb; [|discriminate].
  exists a, b, x', y'. auto.
Qed.

(** C7: when either coordinate string does not read as exactly two
    comma-separated numbers, [route] answers 400 and leaves the world as it
    was: no request reached the provider. *)
Theorem route_rejects_malformed_coordinates (net : provider)
    (from_coord to_coord profile : pystr) (w : world) :
  ~ two_numbers from_coord \/ ~ two_numbers to_coord ->
  outcome (route net from_coord to_coord profile) w
  = Raise (HTTPException 400 bad_coords_detail)
  /\ http_status (HTTPException 400 bad_coords_detail) = 400%Z
  /\ after (route net from_coord to_coord profile) w = w
  /\ trace (after (route net from_coord to_coord profile) w) = trace w.
Proof.
  intros Hbad.
  assert (H : route net from_coord to_coord profile w
              = (Raise (HTTPException 400 bad_coords_detail), w)).
  { unfold route. destruct Hbad as [Hf | Ht].
    - destruct (parse_coord_not_two_numbers _ Hf) as (e & ->). reflexivity.
    - destruct (parse_coord_not_two_numbers _ Ht) as (e & ->).
      destruct (parse_coord from_coord) as [[? ?]|]; reflexivity. }
  unfold outcome, after. rewrite H. auto.
Qed.

(** *** The route summary *)











(** A float that is finite is a zero or [(-1)^s * m * 2^e]. *)
Lemma finite_cases (x : float) :
  is_finite x = true ->
  (exists s, Prim2SF x = S754_zero s)
  \/ exists s m e, Prim2SF x = S754_finite s m e.
Proof.
  unfold is_finite. intros H. apply negb_true_iff, orb_false_iff in H.
  destruct H as [Hnan Hinf]. unfold Prim2SF. rewrite Hnan, Hinf.
  destruct (is_zero x); [left; eauto|].
  destruct (Z.frexp x) as [r ex].
  destruct (shr_fexp _ _ _ _ _) as [shr e'].
  destruct (shr_m shr); [left | right | left]; eauto.
Qed.





(** The body of a route request can be rendered when the four coordinates
    are finite, and only then. *)
Lemma route_body_error (f_lat f_lon t_lat t_lon : float) (profile : pystr) :
  body_error (route_request f_lat f_lon t_lat t_lon profile)
  = if forallb is_finite [f_lat; f_lon; t_lat; t_lon] then None
    else Some ValueError.
Proof.
  unfold body_error, route_request, Py.render_error.
  cbn [req_json Py.finite Py.encodable forallb].
  replace (Str.is_text (u "coordinates")) with true
    by (vm_compute; reflexivity).
  replace (Str.is_text (u "instructions")) with true
    by (vm_compute; reflexivity).
  replace (Str.is_text (u "elevation")) with true
    by (vm_compute; reflexivity).
  replace (Str.is_text (u "radiuses")) with true
    by (vm_compute; reflexivity).
  replace (Str.is_text (u "preference")) with true
    by (vm_compute; reflexivity).
  replace (Str.is_text (u "recommended")) with true
    by (vm_compute; reflexivity).
  destruct (is_finite f_lat), (is_finite f_lon), (is_finite t_lat),
    (is_finite t_lon); reflexivity.
Qed.

Lemma send_run (net : provider) (req : http_request) (w : world) :
  body_error req = None ->
  send net req w
  = (match net req with
     | Some r => Ok r
     | None => Raise TransportError
     end,
     {| pois_file := pois_file w;
        uuid_draws := uuid_draws w;
        trace := trace w ++ [HttpSent req] |}).
Proof.
  intros H. unfold send. rewrite H. destruct (net req); reflexivity.
Qed.



(** *** Geocoding *)

Lemma geocode_feature_ok (f : pyval) :
  feature_ok f ->
  geocode_feature f
  = Ok (if is_point f then Some (point_entry f) else None).
Proof.
  intros (g & ps & Hg & Hp & Hc).
  unfold is_point, point_entry, label_of, coordinate, geometry, properties,
    get_or in *.
  unfold geocode_feature. rewrite Hg, Hp in *. cbn [R.bind] in *.
  assert (Hty : exists ty, Py.get (PDict g) (u "type") PNone = Ok ty).
  { simpl. destruct (Py.lookup (u "type") g); eauto. }
  destruct Hty as (ty & Hty). rewrite Hty in *. cbn [R.bind].
  destruct (Py.eq_str ty (u "Point")); [|reflexivity].
  destruct (Hc eq_refl) as (lon & lat & Hco). rewrite Hco.
  assert (Hl : exists v, Py.get (PDict ps) (u "label") PNone = Ok v).
  { simpl. destruct (Py.lookup (u "label") ps); eauto. }
  assert (Hn : exists v, Py.get (PDict ps) (u "name") PNone = Ok v).
  { simpl. destruct (Py.lookup (u "name") ps); eauto. }
  destruct Hl as (l & ->). destruct Hn as (n & ->). reflexivity.
Qed.

Lemma geocode_loop_ok (fs out : list pyval) :
  Forall feature_ok fs ->
  geocode_loop fs out = Ok (out ++ map point_entry (filter is_point fs)).
Proof.
  intros H. revert out. induction H as [|f fs Hf _ IH]; intros out; simpl.
  - now rewrite app_nil_r.
  - rewrite (geocode_feature_ok f Hf). simpl.
    destruct (is_point f); rewrite IH; [|reflexivity].
    simpl. now rewrite <- app_assoc.
Qed.

Lemma geocode_loop_length (fs out res : list pyval) :
  geocode_loop fs out = Ok res ->
  List.length res <= List.length out + List.length fs.
Proof.
  revert out. induction fs as [|f fs IH]; intros out; simpl.
  - intros H. inversion H. lia.
  - destruct (geocode_feature f) as [[e|]|]; simpl; intros H;
      try discriminate; apply IH in H; rewrite ?length_app in H;
      simpl in H; lia.
Qed.

Lemma geocode_run (net : provider) (q : pystr) (w : world)
    (r : http_response) (data : pyval) (fs : list pyval) :
  2 <= List.length q ->
  net (geocode_request q) = Some r ->
  status_code r = 200%Z ->
  json r = Some data ->
  Py.get data (u "features") (PList []) = Ok (PList fs) ->
  geocode net q w =
    (R.bind (geocode_loop fs [])
       (fun out => Ok (PDict [(u "results", PList out)])),
     {| pois_file := pois_file w;
        uuid_draws := uuid_draws w;
        trace := trace w ++ [HttpSent (geocode_request q)] |}).
Proof.
  intros Hq Hnet Hst Hjs Hfeat. unfold geocode.
  apply Nat.leb_le in Hq. rewrite Hq.
  unfold bind. rewrite send_run by reflexivity.
  unfold lift, body_json. rewrite Hnet, Hst, Hjs. simpl.
  rewrite Hfeat. simpl.
  destruct (geocode_loop fs []); reflexivity.
Qed.

(** C5, as the code has it: from a 200 answer whose features have the
    GeoJSON shape, [geocode] returns one entry per feature of type [Point],
    in the provider's order, with the (lon, lat) pair swapped and with the
    value of [label or name] as label: the label field when it is truthy,
    otherwise the name field as it stands, be it empty, and [None] when
    there is no name field.  The other features are skipped.  A point
    feature is kept whether or not it has a usable label. *)
Theorem geocode_point_features (net : provider) (q : pystr) (w : world)
    (r : http_response) (data : pyval) (fs : list pyval) :
  2 <= List.length q ->
  net (geocode_request q) = Some r ->
  status_code r = 200%Z ->
  json r = Some data ->
  Py.get data (u "features") (PList []) = Ok (PList fs) ->
  Forall feature_ok fs ->
  outcome (geocode net q) w
  = Ok (PDict [(u "results",
                PList (map point_entry (filter is_point fs)))])
  /\ (forall f, In f fs -> is_point f = true ->
        In (point_entry f) (map point_entry (filter is_point fs)))
  /\ (forall e, In e (map point_entry (filter is_point fs)) ->
        exists f, In f fs /\ is_point f = true /\ e = point_entry f).
Proof.
  intros Hq Hnet Hst Hjs Hfeat Hok. split; [|split].
  - unfold outcome.
    rewrite (geocode_run net q w r data fs Hq Hnet Hst Hjs Hfeat).
    now rewrite (geocode_loop_ok fs [] Hok).
  - intros f Hin Hpt. apply in_map, filter_In. auto.
  - intros e He. apply in_map_iff in He. destruct He as (f & <- & Hf).
    apply filter_In in Hf. exists f. tauto.
Qed.

(** C9, as the code has it: [geocode] asks the provider for five
    candidates ([size] is 5) and returns at most as many entries as the
    answer has features, so at most five when the provider keeps to the
    size asked for; the handler does not cut the list itself. *)
Theorem geocode_size (net : provider) (q : pystr) (w : world) :
  2 <= List.length q ->
  trace (after (geocode net q) w) = trace w ++ [HttpSent (geocode_request q)]
  /\ Py.lookup (u "size") (req_params (geocode_request q)) = Some (PInt 5)
  /\ forall r data fs out,
       net (geocode_request q) = Some r ->
       status_code r = 200%Z ->
       json r = Some data ->
       Py.get data (u "features") (PList []) = Ok (PList fs) ->
       outcome (geocode net q) w = Ok (PDict [(u "results", PList out)]) ->
       List.length out <= List.length fs
       /\ (List.length fs <= 5 -> List.length out <= 5).
Proof.
  intros Hq. split; [|split].
  - unfold after, geocode. rewrite (proj2 (Nat.leb_le _ _) Hq).
    unfold bind. rewrite send_run by reflexivity.
    destruct (net (geocode_request q)) as [r|]; [|reflexivity].
    destruct (negb (status_code r =? 200)%Z); [reflexivity|].
    unfold lift. destruct (body_json r) as [data|]; [|reflexivity].
    destruct (Py.get data (u "features") (PList [])) as [feats|];
      [|reflexivity].
    destruct (Py.iter feats) as [fs|]; [|reflexivity].
    destruct (geocode_loop fs []); reflexivity.
  - vm_compute. reflexivity.
  - intros r data fs out Hnet Hst Hjs Hfeat Hout. unfold outcome in Hout.
    rewrite (geocode_run net q w r data fs Hq Hnet Hst Hjs Hfeat) in Hout.
    simpl in Hout. destruct (geocode_loop fs []) as [res|] eqn:Hloop;
      [|discriminate].
    simpl in Hout. injection Hout as <-.
    apply geocode_loop_length in Hloop. simpl in Hloop. lia.
Qed.

End Properties.

(** * Further properties of the handlers *)

(** ** Trimming twice, splitting *)

Lemma lstrip_idem (s : pystr) : Str.lstrip (Str.lstrip s) = Str.lstrip s.
Proof.
  induction s as [|c s IH]; simpl; [reflexivity|].
  destruct (Str.is_space c) eqn:Hc; [assumption|]. simpl. now rewrite Hc.
Qed.

Lemma lstrip_head (s r : pystr) (c : N) :
  Str.lstrip s = c :: r -> Str.is_space c = false.
Proof.
  induction s as [|d s IH]; simpl; [discriminate|].
  destruct (Str.is_space d) eqn:Hd; [assumption|].
  intros H. injection H as <- _. assumption.
Qed.

Lemma lstrip_snoc (x : pystr) (c : N) :
  Str.is_space c = false -> Str.lstrip (x ++ [c]) = Str.lstrip x ++ [c].
Proof.
  intros Hc. induction x as [|d x IH]; simpl.
  - now rewrite Hc.
  - destruct (Str.is_space d); [assumption | reflexivity].
Qed.

Lemma rstrip_cons (c : N) (r : pystr) :
  Str.is_space c = false -> Str.rstrip (c :: r) = c :: Str.rstrip r.
Proof.
  intros Hc. unfold Str.rstrip. simpl rev.
  rewrite (lstrip_snoc _ c Hc), rev_app_distr. reflexivity.
Qed.

Lemma rstrip_idem (s : pystr) : Str.rstrip (Str.rstrip s) = Str.rstrip s.
Proof. unfold Str.rstrip. now rewrite rev_involutive, lstrip_idem. Qed.

(** [s.strip().strip()] is [s.strip()]. *)
Lemma strip_idem (s : pystr) : Str.strip (Str.strip s) = Str.strip s.
Proof.
  unfold Str.strip.
  destruct (Str.lstrip s) as [|c r] eqn:Hs; [reflexivity|].
  pose proof (lstrip_head s r c Hs) as Hc.
  rewrite (rstrip_cons c r Hc). simpl Str.lstrip. rewrite Hc.
  rewrite <- (rstrip_cons c r Hc). apply rstrip_idem.
Qed.

Lemma split_nonempty (sep : N) (s : pystr) : Str.split sep s <> [].
Proof.
  destruct s as [|c r]; simpl; [discriminate|].
  destruct (c =? sep)%N; [discriminate|].
  destruct (Str.split sep r); discriminate.
Qed.

(** The first piece of a split has no separator; the string is that piece
    alone, or the piece, a separator and a rest that splits into the other
    pieces. *)
Lemma split_first (sep : N) (s w : pystr) (ws : list pystr) :
  Str.split sep s = w :: ws ->
  ~ In sep w
  /\ match ws with
     | [] => s = w
     | _ :: _ => exists r, s = w ++ sep :: r /\ Str.split sep r = ws
     end.
Proof.
  revert w ws. induction s as [|c r IH]; intros w ws; simpl.
  - intros H. injection H as <- <-. split; [intros [] | reflexivity].
  - destruct (N.eqb_spec c sep) as [-> | Hne].
    + intros H. injection H as <- <-. split; [intros []|].
      destruct (Str.split sep r) as [|w' ws'] eqn:Hr.
      * now apply split_nonempty in Hr.
      * exists r. rewrite Hr. auto.
    + destruct (Str.split sep r) as [|w0 ws0] eqn:Hr.
      * now apply split_nonempty in Hr.
      * intros H. injection H as <- <-.
        destruct (IH w0 ws0 eq_refl) as [Hnot Hrest]. split.
        -- intros [Heq | Hin]; [congruence | contradiction].
        -- destruct ws0 as [|w1 ws1].
           ++ now rewrite Hrest.
           ++ destruct Hrest as (r' & -> & Hr').
              exists r'. auto.
Qed.

Lemma split_no_separator (sep : N) (b : pystr) :
  ~ In sep b -> Str.split sep b = [b].
Proof.
  induction b as [|c b IH]; simpl; [reflexivity|].
  intros Hnot. destruct (N.eqb_spec c sep) as [-> | Hne].
  - exfalso. apply Hnot. now left.
  - rewrite IH; [reflexivity | tauto].
Qed.

Lemma split_at_separator (sep : N) (a r : pystr) :
  ~ In sep a -> Str.split sep (a ++ sep :: r) = a :: Str.split sep r.
Proof.
  induction a as [|c a IH]; simpl; intros Hnot.
  - now rewrite N.eqb_refl.
  - destruct (N.eqb_spec c sep) as [-> | Hne].
    + exfalso. apply Hnot. now left.
    + rewrite IH; [reflexivity | tauto].
Qed.

Lemma mapM_app {A B} (f : A -> result B) (l1 l2 : list A) :
  R.mapM f (l1 ++ l2)
  = R.bind (R.mapM f l1) (fun a =>
    R.bind (R.mapM f l2) (fun b => Ok (a ++ b))).
Proof.
  induction l1 as [|x l1 IH]; simpl.
  - destruct (R.mapM f l2); reflexivity.
  - destruct (f x); [|reflexivity]. simpl. rewrite IH.
    destruct (R.mapM f l1); [|reflexivity]. simpl.
    destruct (R.mapM f l2); reflexivity.
Qed.

Section Further.

Context {RT : Runtime}.

(** ** The validator *)


Lemma PoiIn_validate_refused (n : pystr) (a b : float) (ts : list pystr) :
  PoiIn_errors n a b ts <> [] ->
  PoiIn_validate n a b ts
  = Raise (ValidationError (PoiIn_errors n a b ts)).
Proof.
  unfold PoiIn_validate. destruct (PoiIn_errors n a b ts); [congruence|].
  reflexivity.
Qed.

(** X2: a latitude or longitude that is NaN does not pass validation.  The
    refusal echoes the NaN, which the body of a 422 answer cannot hold, so
    the request is answered with status 500. *)
Theorem PoiIn_validate_rejects_nan (n : pystr) (a b : float)
    (ts : list pystr) :
  is_nan a = true \/ is_nan b = true ->
  exists errors,
    PoiIn_validate n a b ts = Raise (ValidationError errors)
    /\ (exists field x, In (field, PFloat x) errors /\ is_nan x = true)
    /\ http_status (ValidationError errors) = 500%Z.
Proof.
  intros Hnan.
  assert (Hin : exists field x,
             In (field, PFloat x) (PoiIn_errors n a b ts)
             /\ is_nan x = true).
  { unfold PoiIn_errors. destruct Hnan as [Ha | Hb].
    - exists "lat"%string, a. split; [|assumption].
      destruct (_lat a) eqn:Hr;
        [apply in_range_not_nan in Hr; congruence|].
      rewrite !in_app_iff. right. left. now left.
    - exists "lon"%string, b. split; [|assumption].
      destruct (_lon b) eqn:Hr;
        [apply in_range_not_nan in Hr; congruence|].
      rewrite !in_app_iff. right. right. left. now left. }
  exists (PoiIn_errors n a b ts). split; [|split; [exact Hin|]].
  - apply PoiIn_validate_refused.
    destruct Hin as (field & x & Hx & _). intros E. now rewrite E in Hx.
  - destruct Hin as (field & x & Hx & Hxnan). unfold http_status.
    destruct (forallb _ (PoiIn_errors n a b ts)) eqn:Hall; [|reflexivity].
    rewrite forallb_forall in Hall. specialize (Hall _ Hx).
    unfold Py.render_error, is_finite in Hall. cbn [snd Py.finite] in Hall.
    unfold is_finite in Hall. rewrite Hxnan in Hall. discriminate Hall.
Qed.

(** ** The store *)

(** What a successful [create_poi] has gone through. *)
Lemma create_poi_ok (w : world) (pois : list pyval) (poi : PoiIn)
    (item : pyval) :
  outcome load_pois w = Ok (PList pois) ->
  outcome (create_poi poi) w = Ok item ->
  exists keys,
    name_keys (PList pois) = Ok keys
    /\ existsb (Str.eqb (str_lower (Str.strip (name poi)))) keys = false
    /\ Py.encodable (PList pois) = true
    /\ item = new_item (uuid4_hex (uuid_draws w)) poi
    /\ create_poi poi w
       = (Ok item,
          {| pois_file := Some (json_dump (PList (pois ++ [item])));
             uuid_draws := S (uuid_draws w);
             trace := trace w
                      ++ [FileWritten (json_dump (PList (pois ++ [item])))]
          |}).
Proof.
  intros Hload Hok. unfold outcome in Hok.
  destruct (name_keys (PList pois)) as [keys|e] eqn:Hkeys.
  - exists keys. rewrite (create_poi_run w pois keys poi Hload Hkeys) in *.
    destruct (existsb _ keys); [discriminate Hok|].
    destruct (Py.encodable (PList pois)); [|discriminate Hok].
    simpl in Hok. injection Hok as <-. repeat split.
  - exfalso. revert Hok. unfold create_poi, bind, lift.
    rewrite (load_pois_run w _ Hload), Hkeys. discriminate.
Qed.

Lemma new_item_named (id : pystr) (poi : PoiIn) :
  named (new_item id poi) (Str.strip (name poi)).
Proof. reflexivity. Qed.

(** The key under which a new entry is compared later is the key that was
    checked when it was created. *)
Lemma new_item_name_key (id : pystr) (poi : PoiIn) :
  name_key (new_item id poi) = Ok (str_lower (Str.strip (name poi))).
Proof.
  rewrite (name_key_named _ _ (new_item_named id poi)).
  now rewrite strip_idem.
Qed.

Lemma name_keys_snoc (pois : list pyval) (keys : list pystr)
    (id : pystr) (poi : PoiIn) :
  name_keys (PList pois) = Ok keys ->
  name_keys (PList (pois ++ [new_item id poi]))
  = Ok (keys ++ [str_lower (Str.strip (name poi))]).
Proof.
  unfold name_keys. simpl. intros Hk. rewrite mapM_app, Hk. simpl.
  now rewrite new_item_name_key.
Qed.

Lemma load_after_write (v : pyval) (n : nat) (tr : list event) :
  reads_back v ->
  outcome load_pois {| pois_file := Some (json_dump v);
                       uuid_draws := n; trace := tr |} = Ok v.
Proof.
  unfold reads_back, outcome, load_pois. simpl. now intros ->.
Qed.

(** X3: [create_poi] keeps the names of the collection distinct: when the
    trimmed, lower-cased names of the stored entries are pairwise
    different, so are those of the collection a successful create writes,
    the new entry being filed under the key that was checked. *)
Theorem create_poi_keeps_names_distinct (w : world) (pois : list pyval)
    (keys : list pystr) (poi : PoiIn) (item : pyval) :
  outcome load_pois w = Ok (PList pois) ->
  name_keys (PList pois) = Ok keys ->
  NoDup keys ->
  outcome (create_poi poi) w = Ok item ->
  pois_file (after (create_poi poi) w)
  = Some (json_dump (PList (pois ++ [item])))
  /\ name_keys (PList (pois ++ [item]))
     = Ok (keys ++ [str_lower (Str.strip (name poi))])
  /\ NoDup (keys ++ [str_lower (Str.strip (name poi))]).
Proof.
  intros Hload Hkeys Hnd Hok.
  destruct (create_poi_ok w pois poi item Hload Hok)
    as (keys' & Hkeys' & Hex & _ & -> & Hrun).
  assert (keys' = keys) by congruence. subst keys'.
  unfold after. rewrite Hrun. split; [reflexivity|]. split.
  - now apply name_keys_snoc.
  - apply NoDup_app; [assumption | repeat constructor; intros [] |].
    intros k Hin [<- | []].
    apply existsb_eqb_In in Hin. congruence.
Qed.

(** X4: once a candidate was created, a candidate with the same trimmed,
    lower-cased name (the same candidate again, say) is refused with 409
    and the world stays as the first create left it. *)
Theorem create_poi_twice_conflicts (w : world) (pois : list pyval)
    (keys : list pystr) (poi again : PoiIn) (item : pyval) :
  outcome load_pois w = Ok (PList pois) ->
  name_keys (PList pois) = Ok keys ->
  outcome (create_poi poi) w = Ok item ->
  reads_back (PList (pois ++ [item])) ->
  str_lower (Str.strip (name again)) = str_lower (Str.strip (name poi)) ->
  create_poi again (after (create_poi poi) w)
  = (Raise (HTTPException 409 duplicate_detail), after (create_poi poi) w).
Proof.
  intros Hload Hkeys Hok Hback Hsame.
  destruct (create_poi_ok w pois poi item Hload Hok)
    as (keys' & Hkeys' & Hex & _ & -> & Hrun).
  unfold after. rewrite Hrun. cbn [snd].
  rewrite (create_poi_run _ _ _ again
             (load_after_write _ _ _ Hback)
             (name_keys_snoc pois keys _ poi Hkeys)).
  rewrite Hsame, existsb_app. simpl. rewrite Str_eqb_refl.
  now rewrite orb_true_r.
Qed.


(** X6: after a successful create, [list_pois] and [load_pois] return the
    former collection followed by the new entry. *)
Theorem create_poi_then_list (w : world) (pois : list pyval)
    (poi : PoiIn) (item : pyval) :
  outcome load_pois w = Ok (PList pois) ->
  outcome (create_poi poi) w = Ok item ->
  reads_back (PList (pois ++ [item])) ->
  outcome list_pois (after (create_poi poi) w) = Ok (PList (pois ++ [item]))
  /\ outcome load_pois (after (create_poi poi) w)
     = Ok (PList (pois ++ [item])).
Proof.
  intros Hload Hok Hback.
  destruct (create_poi_ok w pois poi item Hload Hok)
    as (keys & _ & _ & _ & _ & Hrun).
  unfold outcome, after. rewrite Hrun.
  unfold list_pois, load_pois. simpl. rewrite Hback.
  split; reflexivity.
Qed.

(** X7: deleting the identifier a create has just returned gives the
    collection back as it was, provided no stored entry already carried
    that identifier. *)
Theorem create_then_delete_restores (w : world) (pois : list pyval)
    (poi : PoiIn) (item : pyval) :
  outcome load_pois w = Ok (PList pois) ->
  Forall (fun p => is_dict p = true) pois ->
  outcome (create_poi poi) w = Ok item ->
  reads_back (PList (pois ++ [item])) ->
  (forall p, In p pois ->
     identified p (uuid4_hex (uuid_draws w)) = false) ->
  outcome (delete_poi (uuid4_hex (uuid_draws w))) (after (create_poi poi) w)
  = Ok tt
  /\ pois_file (after (delete_poi (uuid4_hex (uuid_draws w)))
                  (after (create_poi poi) w))
     = Some (json_dump (PList pois)).
Proof.
  intros Hload Hdict Hok Hback Hfresh.
  destruct (create_poi_ok w pois poi item Hload Hok)
    as (keys & _ & _ & Henc & -> & Hrun).
  unfold outcome, after. rewrite Hrun. cbn [snd].
  set (id := uuid4_hex (uuid_draws w)) in *.
  assert (Hd : Forall (fun p => is_dict p = true)
                 (pois ++ [new_item id poi])).
  { apply Forall_app. split; [assumption | repeat constructor]. }
  rewrite (delete_poi_run _ _ id (load_after_write _ _ _ Hback) Hd).
  assert (Hkept : filter (fun p => negb (identified p id))
                    (pois ++ [new_item id poi]) = pois).
  { rewrite filter_app. simpl. rewrite identified_new_item. simpl.
    rewrite app_nil_r. apply forallb_filter_id, forallb_forall.
    intros p Hp. now rewrite (Hfresh p Hp). }
  rewrite Hkept, length_app. simpl.
  replace (List.length pois =? List.length pois + 1)%nat with false
    by (symmetry; apply Nat.eqb_neq; lia).
  rewrite (save_pois_ok _ _ Henc). split; reflexivity.
Qed.

(** X8: after a successful delete no entry carries the identifier any
    more, so deleting it a second time answers 404 and writes nothing. *)
Theorem delete_poi_twice_not_found (w : world) (pois : list pyval)
    (poi_id : pystr) :
  outcome load_pois w = Ok (PList pois) ->
  Forall (fun p => is_dict p = true) pois ->
  outcome (delete_poi poi_id) w = Ok tt ->
  reads_back (PList (filter (fun p => negb (identified p poi_id)) pois)) ->
  delete_poi poi_id (after (delete_poi poi_id) w)
  = (Raise (HTTPException 404 not_found_detail),
     after (delete_poi poi_id) w).
Proof.
  intros Hload Hdict Hok Hback. unfold outcome, after in *.
  rewrite (delete_poi_run w pois poi_id Hload Hdict) in *.
  set (kept := filter (fun p => negb (identified p poi_id)) pois) in *.
  destruct (Nat.eqb (List.length kept) (List.length pois));
    [discriminate Hok|].
  destruct (Py.encodable (PList kept)) eqn:Henc;
    [|rewrite (save_pois_fails _ _ Henc) in Hok; discriminate Hok].
  rewrite (save_pois_ok _ _ Henc) in *. cbn [fst snd] in *.
  assert (Hd : Forall (fun p => is_dict p = true) kept).
  { apply Forall_forall. intros p Hp. apply filter_In in Hp.
    exact (proj1 (Forall_forall _ _) Hdict p (proj1 Hp)). }
  rewrite (delete_poi_run _ _ poi_id (load_after_write _ _ _ Hback) Hd).
  assert (Hsame : filter (fun p => negb (identified p poi_id)) kept = kept).
  { apply forallb_filter_id, forallb_forall. intros p Hp.
    apply filter_In in Hp. tauto. }
  rewrite Hsame, Nat.eqb_refl. reflexivity.
Qed.

(** X9: when the POI file does not parse, [list_pois], [create_poi] and
    [delete_poi] all raise the decoder's error (status 500) and leave the
    world as it was: the corrupt file is not overwritten. *)
Theorem corrupt_store_stays (w : world) (t : file_text) (poi : PoiIn)
    (poi_id : pystr) :
  pois_file w = Some t -> json_load t = None ->
  list_pois w = (Raise JSONDecodeError, w)
  /\ create_poi poi w = (Raise JSONDecodeError, w)
  /\ delete_poi poi_id w = (Raise JSONDecodeError, w)
  /\ http_status JSONDecodeError = 500%Z.
Proof.
  intros Hfile Hbad.
  unfold list_pois, create_poi, delete_poi, bind, load_pois.
  rewrite Hfile, Hbad. repeat split.
Qed.


(** X11: whatever the file held, a create that succeeds found a list there,
    returned the entry made of the candidate and the identifier drawn, and
    wrote once: that list, unchanged and in order, followed by the entry. *)
Theorem create_poi_success_appends (w : world) (poi : PoiIn)
    (item : pyval) :
  outcome (create_poi poi) w = Ok item ->
  exists pois,
    outcome load_pois w = Ok (PList pois)
    /\ item = new_item (uuid4_hex (uuid_draws w)) poi
    /\ after (create_poi poi) w
       = {| pois_file := Some (json_dump (PList (pois ++ [item])));
            uuid_draws := S (uuid_draws w);
            trace := trace w
                     ++ [FileWritten (json_dump (PList (pois ++ [item])))] |}.
Proof.
  unfold outcome, after, create_poi, bind, lift.
  pose proof (load_pois_world w) as Hw. unfold after in Hw.
  destruct (load_pois w) as [[v|e] w'] eqn:Hload; simpl in Hw; subst w';
    [|discriminate].
  destruct (name_keys v) as [keys|e]; [|discriminate].
  destruct (existsb _ keys); [discriminate|].
  unfold uuid4, Py.append, save_pois. destruct v; simpl; try discriminate.
  destruct (forallb Py.encodable _); simpl; [|discriminate].
  intros H. injection H as <-. exists l. repeat split.
Qed.

Lemma load_pois_raise (w : world) (e : exn) :
  outcome load_pois w = Raise e -> e <> UnicodeEncodeError.
Proof.
  unfold outcome, load_pois. destruct (pois_file w) as [t|];
    [destruct (json_load t)|]; simpl; intros H; try discriminate H.
  injection H as <-. discriminate.
Qed.

Lemma iter_raise (v : pyval) (e : exn) :
  Py.iter v = Raise e -> e <> UnicodeEncodeError.
Proof.
  destruct v; simpl; intros H; try discriminate H; injection H as <-;
    discriminate.
Qed.

Lemma name_key_raise (p : pyval) (e : exn) :
  name_key p = Raise e -> e <> UnicodeEncodeError.
Proof.
  unfold name_key, Py.getitem, Py.strip.
  destruct p; simpl; try (intros H; injection H as <-; discriminate).
  destruct (Py.lookup (u "name") d) as [x|]; simpl;
    [|intros H; injection H as <-; discriminate].
  destruct x; simpl; intros H; try discriminate H; injection H as <-;
    discriminate.
Qed.

Lemma mapM_name_key_raise (l : list pyval) (e : exn) :
  R.mapM name_key l = Raise e -> e <> UnicodeEncodeError.
Proof.
  induction l as [|p l IH]; simpl; [discriminate|].
  destruct (name_key p) eqn:Hp; simpl.
  - destruct (R.mapM name_key l); simpl; [discriminate|].
    intros H. injection H as <-. now apply IH.
  - intros H. injection H as <-. now apply (name_key_raise p).
Qed.

Lemma name_keys_raise (v : pyval) (e : exn) :
  name_keys v = Raise e -> e <> UnicodeEncodeError.
Proof.
  unfold name_keys. destruct (Py.iter v) as [items|e'] eqn:Ei; simpl.
  - apply mapM_name_key_raise.
  - intros H. injection H as <-. now apply (iter_raise v).
Qed.

Lemma filterM_keeps_raise (poi_id : pystr) (l : list pyval) (e : exn) :
  R.filterM (keeps poi_id) l = Raise e -> e <> UnicodeEncodeError.
Proof.
  induction l as [|p l IH]; simpl; [discriminate|].
  destruct (keeps poi_id p) eqn:Hp; simpl.
  - destruct (R.filterM (keeps poi_id) l); simpl; [discriminate|].
    intros H. injection H as <-. now apply IH.
  - intros H. injection H as <-. revert Hp. unfold keeps, Py.get.
    destruct p; simpl; try (intros H; injection H as <-; discriminate).
    destruct (Py.lookup (u "id") d); discriminate.
Qed.

(** A [create_poi] that raises either fails in the write, or has not
    reached it. *)
Lemma create_poi_raise (w : world) (poi : PoiIn) (e : exn) :
  outcome (create_poi poi) w = Raise e ->
  (e = UnicodeEncodeError
   /\ exists v, Py.encodable v = false
                /\ pois_file (after (create_poi poi) w)
                   = Some (json_dump_prefix v)
                /\ trace (after (create_poi poi) w)
                   = trace w ++ [FileWritten (json_dump_prefix v)])
  \/ (e <> UnicodeEncodeError
      /\ pois_file (after (create_poi poi) w) = pois_file w
      /\ trace (after (create_poi poi) w) = trace w).
Proof.
  pose proof (load_pois_world w) as Hw.
  pose proof (load_pois_raise w) as Hl.
  unfold outcome, after in *. unfold create_poi, bind, lift.
  destruct (load_pois w) as [[v|e'] w']; simpl in Hw, Hl; subst w';
    [|intros H; injection H as <-; right; auto].
  destruct (name_keys v) as [keys|e'] eqn:Ek; cbn [fst snd];
    [|intros H; injection H as <-; right; split;
      [exact (name_keys_raise v e' Ek) | auto]].
  destruct (existsb _ keys); cbn [fst snd];
    [intros H; injection H as <-; right; split; [discriminate | auto]|].
  unfold uuid4, Py.append, save_pois.
  destruct v; cbn [fst snd];
    try (intros H; injection H as <-; right; split; [discriminate | auto]).
  destruct (Py.encodable (PList _)) eqn:Henc; cbn [fst snd];
    [discriminate|].
  intros H. injection H as <-. left. split; [reflexivity|]. eauto.
Qed.

Lemma delete_poi_raise (w : world) (poi_id : pystr) (e : exn) :
  outcome (delete_poi poi_id) w = Raise e ->
  (e = UnicodeEncodeError
   /\ exists v, Py.encodable v = false
                /\ pois_file (after (delete_poi poi_id) w)
                   = Some (json_dump_prefix v)
                /\ trace (after (delete_poi poi_id) w)
                   = trace w ++ [FileWritten (json_dump_prefix v)])
  \/ (e <> UnicodeEncodeError /\ after (delete_poi poi_id) w = w).
Proof.
  pose proof (load_pois_world w) as Hw.
  pose proof (load_pois_raise w) as Hl.
  unfold outcome, after in *. unfold delete_poi, bind, lift.
  destruct (load_pois w) as [[v|e'] w']; simpl in Hw, Hl; subst w';
    [|intros H; injection H as <-; right; auto].
  destruct (Py.iter v) as [items|e'] eqn:Ei; cbn [fst snd];
    [|intros H; injection H as <-; right; split;
      [exact (iter_raise v e' Ei) | auto]].
  destruct (R.filterM (keeps poi_id) items) as [kept|e'] eqn:Ef;
    cbn [fst snd];
    [|intros H; injection H as <-; right; split;
      [exact (filterM_keeps_raise poi_id items e' Ef) | auto]].
  destruct (Py.len v) as [n|e'] eqn:En; cbn [fst snd];
    [|intros H; injection H as <-; right; split; [|auto];
      destruct v; simpl in En; try discriminate En; injection En as <-;
      discriminate].
  destruct (Nat.eqb (List.length kept) n); cbn [fst snd];
    [intros H; injection H as <-; right; split; [discriminate | auto]|].
  unfold save_pois.
  destruct (Py.encodable (PList kept)) eqn:Henc; cbn [fst snd];
    [discriminate|].
  intros H. injection H as <-. left. split; [reflexivity|]. eauto.
Qed.

(** X12: a create or a delete that raises anything but the encoder's
    [UnicodeEncodeError] has not written: the POI file and the trace are
    what they were.  The encoder's error is raised by the write itself, on
    a collection that holds a surrogate, and the file is left with the part
    written before it. *)
Theorem failed_store_handler_writes_nothing (w : world) (poi : PoiIn)
    (poi_id : pystr) :
  (forall e, outcome (create_poi poi) w = Raise e ->
     e <> UnicodeEncodeError ->
     pois_file (after (create_poi poi) w) = pois_file w
     /\ trace (after (create_poi poi) w) = trace w)
  /\ (forall e, outcome (delete_poi poi_id) w = Raise e ->
        e <> UnicodeEncodeError ->
        after (delete_poi poi_id) w = w)
  /\ (outcome (create_poi poi) w = Raise UnicodeEncodeError ->
      exists v, Py.encodable v = false
                /\ pois_file (after (create_poi poi) w)
                   = Some (json_dump_prefix v))
  /\ (outcome (delete_poi poi_id) w = Raise UnicodeEncodeError ->
      exists v, Py.encodable v = false
                /\ pois_file (after (delete_poi poi_id) w)
                   = Some (json_dump_prefix v)).
Proof.
  repeat split.
  - destruct (create_poi_raise w poi e H) as [[-> _] | (_ & Hf & _)];
      [contradiction | exact Hf].
  - destruct (create_poi_raise w poi e H) as [[-> _] | (_ & _ & Ht)];
      [contradiction | exact Ht].
  - intros e H Hne.
    destruct (delete_poi_raise w poi_id e H) as [[-> _] | (_ & Hw)];
      [contradiction | exact Hw].
  - intros H.
    destruct (create_poi_raise w poi _ H)
      as [(_ & v & Hv & Hf & _) | (Hne & _)]; [eauto | contradiction].
  - intros H.
    destruct (delete_poi_raise w poi_id _ H)
      as [(_ & v & Hv & Hf & _) | (Hne & _)]; [eauto | contradiction].
Qed.

(** X13: the store handlers do not use the network: the events
    [list_pois], [create_poi] and [delete_poi] add to the trace are writes
    of the POI file, at most one each. *)
Theorem store_handlers_only_write (w : world) (poi : PoiIn)
    (poi_id : pystr) :
  trace (after list_pois w) = trace w
  /\ (trace (after (create_poi poi) w) = trace w
      \/ exists t, trace (after (create_poi poi) w)
                   = trace w ++ [FileWritten t])
  /\ (trace (after (delete_poi poi_id) w) = trace w
      \/ exists t, trace (after (delete_poi poi_id) w)
                   = trace w ++ [FileWritten t]).
Proof.
  pose proof (load_pois_world w) as Hw. unfold after in Hw.
  split; [now rewrite list_pois_world|]. split; unfold after.
  - unfold create_poi, bind, lift.
    destruct (load_pois w) as [[v|e'] w']; simpl in Hw; subst w';
      [|auto].
    destruct (name_keys v) as [keys|]; [|auto].
    destruct (existsb _ keys); [auto|].
    unfold uuid4, Py.append, save_pois. destruct v; simpl; eauto.
    destruct (forallb Py.encodable _); simpl; eauto.
  - unfold delete_poi, bind, lift.
    destruct (load_pois w) as [[v|e'] w']; simpl in Hw; subst w';
      [|auto].
    destruct (Py.iter v) as [items|]; [|auto].
    destruct (R.filterM (keeps poi_id) items) as [kept|]; [|auto].
    destruct (Py.len v) as [n|]; [|auto].
    destruct (Nat.eqb (List.length kept) n); simpl; eauto.
    unfold save_pois. destruct (Py.encodable (PList kept)); simpl; eauto.
Qed.

Lemma name_key_exception (p : pyval) (e : exn) :
  name_key p = Raise e -> http_status e = 500%Z.
Proof.
  unfold name_key.
  destruct (Py.getitem p (u "name")) as [n|e'] eqn:Hn; simpl.
  - destruct n; simpl; try discriminate; intros H; injection H as <-;
      reflexivity.
  - intros H. injection H as <-. unfold Py.getitem in Hn.
    destruct p; try (injection Hn as <-; reflexivity).
    destruct (Py.lookup (u "name") d); [discriminate|].
    injection Hn as <-. reflexivity.
Qed.

Lemma mapM_name_key_fails (pois : list pyval) (p : pyval) (e : exn) :
  In p pois -> name_key p = Raise e ->
  exists e', R.mapM name_key pois = Raise e' /\ http_status e' = 500%Z.
Proof.
  induction pois as [|q pois IH]; [intros []|].
  intros Hin Hp. simpl.
  destruct (name_key q) as [k|eq] eqn:Hq; simpl.
  - destruct Hin as [-> | Hin]; [congruence|].
    destruct (IH Hin Hp) as (e' & -> & He'). simpl. eauto.
  - exists eq. split; [reflexivity|]. exact (name_key_exception q eq Hq).
Qed.

(** X14: one stored entry without a usable name (no [name] key, or a name
    that is not text) blocks every create, whatever the candidate: the
    handler raises while it collects the names (status 500) and leaves the
    world as it was. *)
Theorem nameless_entry_blocks_create (w : world) (pois : list pyval)
    (p : pyval) (e : exn) (poi : PoiIn) :
  outcome load_pois w = Ok (PList pois) ->
  In p pois ->
  name_key p = Raise e ->
  exists e',
    create_poi poi w = (Raise e', w) /\ http_status e' = 500%Z.
Proof.
  intros Hload Hin Hp.
  destruct (mapM_name_key_fails pois p e Hin Hp) as (e' & Hmap & He').
  exists e'. split; [|assumption].
  unfold create_poi, bind, lift. rewrite (load_pois_run w _ Hload).
  unfold name_keys. simpl. now rewrite Hmap.
Qed.

(** ** The gateways *)

Ltac step_binds :=
  repeat match goal with
         | |- context [R.bind ?c _] =>
             let E := fresh "E" in
             destruct c eqn:E; simpl; try discriminate
         | |- context [if ?b then _ else _] =>
             let E := fresh "E" in
             destruct b eqn:E; simpl; try discriminate
         end.

Lemma geocode_answer (net : provider) (q : pystr) (w : world) :
  2 <= List.length q ->
  geocode net q w =
    (match net (geocode_request q) with
     | None => Raise TransportError
     | Some r =>
         if negb (status_code r =? 200)%Z then
           Raise (HTTPException (status_code r)
                    (u "Geocode error: " ++ text r))
         else
           R.bind (body_json r) (fun data =>
           R.bind (Py.get data (u "features") (PList [])) (fun feats =>
           R.bind (Py.iter feats) (fun fs =>
           R.bind (geocode_loop fs []) (fun out =>
           Ok (PDict [(u "results", PList out)])))))
     end,
     {| pois_file := pois_file w;
        uuid_draws := uuid_draws w;
        trace := trace w ++ [HttpSent (geocode_request q)] |}).
Proof.
  intros Hq. unfold geocode. rewrite (proj2 (Nat.leb_le _ _) Hq).
  unfold bind. rewrite send_run by reflexivity. unfold lift.
  destruct (net (geocode_request q)) as [r|]; [|reflexivity].
  destruct (negb (status_code r =? 200)%Z); [reflexivity|].
  destruct (body_json r) as [data|]; [|reflexivity]. simpl.
  destruct (Py.get data (u "features") (PList [])) as [feats|];
    [|reflexivity]. simpl.
  destruct (Py.iter feats) as [fs|]; [|reflexivity]. simpl.
  destruct (geocode_loop fs []); reflexivity.
Qed.

Lemma route_answer_run (net : provider)
    (from_coord to_coord profile : pystr) (w : world)
    (f_lat f_lon t_lat t_lon : float) :
  parse_coord from_coord = Ok (f_lat, f_lon) ->
  parse_coord to_coord = Ok (t_lat, t_lon) ->
  route net from_coord to_coord profile w =
    if forallb is_finite [f_lat; f_lon; t_lat; t_lon] then
      (match net (route_request f_lat f_lon t_lat t_lon profile) with
       | None => Raise TransportError
       | Some r =>
           if negb (status_code r =? 200)%Z then
             Raise (HTTPException (status_code r)
                      (u "Directions error: " ++ text r))
           else
             R.bind (body_json r) (fun data => route_result data profile)
       end,
       {| pois_file := pois_file w;
          uuid_draws := uuid_draws w;
          trace := trace w
                   ++ [HttpSent (route_request f_lat f_lon t_lat t_lon
                                   profile)] |})
    else (Raise ValueError, w).
Proof.
  intros Hf Ht. unfold route. rewrite Hf, Ht. cbn [R.bind].
  unfold bind, send, lift. rewrite route_body_error.
  destruct (forallb is_finite _); [|reflexivity].
  destruct (net _) as [r|]; [|reflexivity].
  destruct (negb (status_code r =? 200)%Z); [reflexivity|].
  destruct (body_json r); reflexivity.
Qed.

(** A query shorter than two characters is refused (status 422 for a
    query that is text) and no request is sent. *)
Lemma geocode_short_query (net : provider) (q : pystr) (w : world) :
  List.length q < 2 ->
  geocode net q w = (Raise (ValidationError [("q"%string, PStr q)]), w)
  /\ (Str.is_text q = true ->
      http_status (ValidationError [("q"%string, PStr q)]) = 422%Z).
Proof.
  intros Hq. unfold geocode.
  rewrite (proj2 (Nat.leb_gt _ _) Hq). split; [reflexivity|].
  intros Ht. unfold http_status, Py.render_error. simpl. now rewrite Ht.
Qed.

(** X15: when the provider answers a geocoding request with a status other
    than 200, [geocode] raises an HTTP error with that status, whose detail
    is the provider's body after the words [Geocode error:]. *)
Theorem geocode_upstream_error (net : provider) (q : pystr) (w : world)
    (r : http_response) :
  2 <= List.length q ->
  net (geocode_request q) = Some r ->
  status_code r <> 200%Z ->
  outcome (geocode net q) w
  = Raise (HTTPException (status_code r) (u "Geocode error: " ++ text r))
  /\ http_status (HTTPException (status_code r)
                    (u "Geocode error: " ++ text r)) = status_code r.
Proof.
  intros Hq Hnet Hst. unfold outcome.
  rewrite (geocode_answer net q w Hq), Hnet. simpl.
  rewrite (proj2 (Z.eqb_neq _ _) Hst). split; reflexivity.
Qed.





Lemma route_result_shape (data v : pyval) (profile : pystr) :
  route_result data profile = Ok v ->
  exists km mins, v = route_answer data km mins profile.
Proof.
  unfold route_result. step_binds.
  intros H. injection H as <-. eexists _, _. reflexivity.
Qed.

(** X20: whatever the provider sent, an answer [route] returns is an object
    with exactly the keys [geojson], [distance_km], [duration_min] and
    [profile]: the provider's whole JSON body, a float, an integer and the
    profile asked for; and the provider had answered 200. *)
Theorem route_success_shape (net : provider)
    (from_coord to_coord profile : pystr) (w : world) (v : pyval) :
  outcome (route net from_coord to_coord profile) w = Ok v ->
  exists f_lat f_lon t_lat t_lon r data km mins,
    parse_coord from_coord = Ok (f_lat, f_lon)
    /\ parse_coord to_coord = Ok (t_lat, t_lon)
    /\ net (route_request f_lat f_lon t_lat t_lon profile) = Some r
    /\ status_code r = 200%Z
    /\ json r = Some data
    /\ v = route_answer data km mins profile.
Proof.
  unfold outcome.
  destruct (parse_coord from_coord) as [[f_lat f_lon]|e] eqn:Hf.
  2:{ unfold route. rewrite Hf. discriminate. }
  destruct (parse_coord to_coord) as [[t_lat t_lon]|e] eqn:Ht.
  2:{ unfold route. rewrite Hf, Ht. discriminate. }
  rewrite (route_answer_run net _ _ profile w _ _ _ _ Hf Ht).
  destruct (forallb is_finite _); [|discriminate]. cbn [fst].
  destruct (net _) as [r|] eqn:Hnet; [|discriminate].
  destruct (status_code r =? 200)%Z eqn:Hst; [|discriminate]. simpl.
  unfold body_json. destruct (json r) as [data|] eqn:Hjs; [|discriminate].
  simpl. intros Hres.
  destruct (route_result_shape data v profile Hres) as (km & mins & ->).
  apply Z.eqb_eq in Hst.
  exists f_lat, f_lon, t_lat, t_lon, r, data, km, mins. auto 10.
Qed.

Lemma geocode_feature_shape (f e : pyval) :
  geocode_feature f = Ok (Some e) -> entry_shape e.
Proof.
  unfold geocode_feature.
  destruct (Py.get f (u "geometry") (PDict [])) as [geom|]; [|discriminate].
  destruct (Py.get f (u "properties") (PDict [])) as [props|];
    [|discriminate].
  simpl.
  destruct (Py.get geom (u "type") PNone) as [ty|]; [|discriminate]. simpl.
  destruct (Py.eq_str ty (u "Point")); [|discriminate].
  destruct (Py.get geom (u "coordinates") (PList [PNone; PNone]))
    as [coords|]; [|discriminate].
  simpl. destruct (Py.unpack2 coords) as [[lon lat]|]; [|discriminate].
  simpl. destruct (Py.get props (u "label") PNone) as [label|];
    [|discriminate].
  simpl. destruct (Py.get props (u "name") PNone) as [nm|]; [|discriminate].
  simpl. intros H. injection H as <-. eexists _, _, _. reflexivity.
Qed.

Lemma geocode_loop_shape (fs out res : list pyval) :
  Forall entry_shape out ->
  geocode_loop fs out = Ok res ->
  Forall entry_shape res
  /\ Forall (fun f => exists e, geocode_feature f = Ok e) fs.
Proof.
  revert out. induction fs as [|f fs IH]; intros out Hout; simpl.
  - intros H. injection H as <-. auto.
  - destruct (geocode_feature f) as [e|] eqn:Hf; [|discriminate]. simpl.
    intros Hres. apply IH in Hres.
    + destruct Hres as [Hs Hall]. split; [assumption|].
      constructor; eauto.
    + destruct e as [e|]; [|assumption].
      apply Forall_app. split; [assumption|].
      repeat constructor. exact (geocode_feature_shape f e Hf).
Qed.

(** X21: whatever the provider sent, an answer [geocode] returns is an
    object with the one key [results], a list whose entries are objects
    with exactly the keys [label], [lat] and [lon]; and then every feature
    of the answer went through the loop without an exception: no partial
    result is ever returned. *)
Theorem geocode_success_shape (net : provider) (q : pystr) (w : world)
    (v : pyval) :
  outcome (geocode net q) w = Ok v ->
  exists r data feats fs out,
    net (geocode_request q) = Some r
    /\ status_code r = 200%Z
    /\ json r = Some data
    /\ Py.get data (u "features") (PList []) = Ok feats
    /\ Py.iter feats = Ok fs
    /\ v = PDict [(u "results", PList out)]
    /\ Forall entry_shape out
    /\ Forall (fun f => exists e, geocode_feature f = Ok e) fs
    /\ List.length out <= List.length fs.
Proof.
  unfold outcome.
  destruct (Nat.leb_spec 2 (List.length q)) as [Hq | Hq].
  2:{ rewrite (proj1 (geocode_short_query net q w Hq)). discriminate. }
  rewrite (geocode_answer net q w Hq). simpl.
  destruct (net _) as [r|] eqn:Hnet; [|discriminate].
  destruct (status_code r =? 200)%Z eqn:Hst; [|discriminate]. simpl.
  unfold body_json. destruct (json r) as [data|] eqn:Hjs; [|discriminate].
  simpl.
  destruct (Py.get data (u "features") (PList [])) as [feats|] eqn:Hfeat;
    [|discriminate]. simpl.
  destruct (Py.iter feats) as [fs|] eqn:Hit; [|discriminate]. simpl.
  destruct (geocode_loop fs []) as [out|] eqn:Hloop; [|discriminate].
  simpl. intros H. injection H as <-.
  destruct (geocode_loop_shape fs [] out (Forall_nil _) Hloop) as [Hs Hall].
  pose proof (geocode_loop_length fs [] out Hloop) as Hlen.
  apply Z.eqb_eq in Hst.
  exists r, data, feats, fs, out. auto 12.
Qed.

(** X22: [parse_coord] accepts exactly the strings made of two pieces
    around a single comma, each of which [float] reads once trimmed, and
    returns the two numbers in the order written. *)
Theorem parse_coord_single_comma (s : pystr) (x y : float) :
  parse_coord s = Ok (x, y) <->
  exists a b,
    s = a ++ 44%N :: b
    /\ ~ In 44%N a /\ ~ In 44%N b
    /\ py_float (Str.strip a) = Some x
    /\ py_float (Str.strip b) = Some y.
Proof.
  split.
  - unfold parse_coord.
    destruct (R.mapM _ (Str.split 44 s)) as [xs|e] eqn:Hmap;
      [|discriminate].
    simpl. pose proof (mapM_length _ _ _ Hmap) as Hlen.
    destruct xs as [|x' [|y' [|z xs]]]; try discriminate.
    intros H. injection H as -> ->.
    destruct (Str.split 44 s) as [|a [|b [|c r]]] eqn:Hs;
      try discriminate Hlen.
    simpl in Hmap.
    destruct (py_float (Str.strip a)) as [xa|] eqn:Ha; [|discriminate].
    destruct (py_float (Str.strip b)) as [yb|] eqn:Hb; [|discriminate].
    simpl in Hmap. injection Hmap as -> ->.
    destruct (split_first 44 s a [b] Hs) as [Hna (r & -> & Hr)].
    destruct (split_first 44 r b [] Hr) as [Hnb ->].
    exists a, b. auto.
  - intros (a & b & -> & Hna & Hnb & Ha & Hb). unfold parse_coord.
    rewrite (split_at_separator 44 a b Hna), (split_no_separator 44 b Hnb).
    simpl. now rewrite Ha, Hb.
Qed.


(** X24: the gateways do not touch the store: after [geocode] or [route],
    whatever they were given and whatever came back, the POI file and the
    identifier counter are what they were, and at most one request was
    sent. *)
Theorem gateways_leave_store (net : provider)
    (q from_coord to_coord profile : pystr) (w : world) :
  (pois_file (after (geocode net q) w) = pois_file w
   /\ uuid_draws (after (geocode net q) w) = uuid_draws w
   /\ (trace (after (geocode net q) w) = trace w
       \/ exists req, trace (after (geocode net q) w)
                      = trace w ++ [HttpSent req]))
  /\ (pois_file (after (route net from_coord to_coord profile) w)
      = pois_file w
      /\ uuid_draws (after (route net from_coord to_coord profile) w)
         = uuid_draws w
      /\ (trace (after (route net from_coord to_coord profile) w) = trace w
          \/ exists req, trace (after (route net from_coord to_coord
                                         profile) w)
                         = trace w ++ [HttpSent req])).
Proof.
  split; unfold after.
  - destruct (Nat.leb_spec 2 (List.length q)) as [Hq | Hq].
    + rewrite (geocode_answer net q w Hq). simpl. eauto.
    + rewrite (proj1 (geocode_short_query net q w Hq)). simpl. auto.
  - destruct (parse_coord from_coord) as [[f_lat f_lon]|e] eqn:Hf.
    2:{ unfold route. rewrite Hf. simpl. auto. }
    destruct (parse_coord to_coord) as [[t_lat t_lon]|e] eqn:Ht.
    2:{ unfold route. rewrite Hf, Ht. simpl. auto. }
    rewrite (route_answer_run net _ _ profile w _ _ _ _ Hf Ht).
    destruct (forallb is_finite _); simpl; eauto.
Qed.

End Further.

(** * The JSON codec *)

(** ** Strings *)

Lemma scanstring_escape_u (a b c d hi : N) (t : pystr) :
  Json.hex4_value a b c d = Some hi -> (hi < 55296)%N ->
  Json.scanstring (92 :: 117 :: a :: b :: c :: d :: t)%N
  = Json.push hi (Json.scanstring t).
Proof.
  intros Hv Hlt.
  assert (Hhi : (55296 <=? hi)%N = false) by (apply N.leb_gt; lia).
  cbn [Json.scanstring N.eqb Pos.eqb]. rewrite Hv.
  generalize (Json.push hi (Json.scanstring t)). intros x.
  destruct t as [|e1 [|e2 [|a' [|b' [|c' [|d' [|y t]]]]]]]; try reflexivity.
  now rewrite Hhi.
Qed.

Lemma control_escapes :
  forallb escape_reads (map N.of_nat (seq 0 32)) = true.
Proof. vm_compute. reflexivity. Qed.

Lemma hex4_reads (c : N) :
  (c < 32)%N ->
  exists a b c1 d,
    Json.hex4 c = [a; b; c1; d] /\ Json.hex4_value a b c1 d = Some c.
Proof.
  intros Hc.
  assert (Hin : In c (map N.of_nat (seq 0 32))).
  { rewrite <- (N2Nat.id c). apply in_map, in_seq. lia. }
  pose proof (proj1 (forallb_forall _ _) control_escapes c Hin) as H.
  unfold escape_reads in H.
  destruct (Json.hex4 c) as [|a [|b [|c1 [|d [|? ?]]]]]; try discriminate H.
  destruct (Json.hex4_value a b c1 d) as [v|] eqn:Hv; [|discriminate H].
  apply N.eqb_eq in H. subst v. eauto 6.
Qed.

(** Reading an escaped character gives the character. *)
Lemma scanstring_escape (c : N) (t : pystr) :
  Json.scanstring (Json.escape c ++ t)
  = Json.push c (Json.scanstring t).
Proof.
  unfold Json.escape.
  destruct (c =? 34)%N eqn:E34; [apply N.eqb_eq in E34; now subst|].
  destruct (c =? 92)%N eqn:E92; [apply N.eqb_eq in E92; now subst|].
  destruct (c =? 10)%N eqn:E10; [apply N.eqb_eq in E10; now subst|].
  destruct (c =? 13)%N eqn:E13; [apply N.eqb_eq in E13; now subst|].
  destruct (c =? 9)%N eqn:E9; [apply N.eqb_eq in E9; now subst|].
  destruct (c =? 12)%N eqn:E12; [apply N.eqb_eq in E12; now subst|].
  destruct (c =? 8)%N eqn:E8; [apply N.eqb_eq in E8; now subst|].
  destruct (c <? 32)%N eqn:Elt.
  - apply N.ltb_lt in Elt.
    destruct (hex4_reads c Elt) as (a & b & c1 & d & -> & Hv).
    apply (scanstring_escape_u a b c1 d c t Hv). lia.
  - cbn [app Json.scanstring]. now rewrite E34, E92, Elt.
Qed.

Lemma scanstring_encoded (s rest : pystr) :
  Json.scanstring (flat_map Json.escape s ++ 34%N :: rest) = Some (s, rest).
Proof.
  induction s as [|c s IH]; [reflexivity|].
  cbn [flat_map]. rewrite <- app_assoc, scanstring_escape, IH. reflexivity.
Qed.

(** ** Numbers *)

Lemma digits_run_stable (s rest : pystr) :
  boundary rest ->
  Json.digits_run (s ++ rest)
  = (fst (Json.digits_run s), snd (Json.digits_run s) ++ rest).
Proof.
  intros Hb. induction s as [|c s IH]; cbn [app Json.digits_run].
  - destruct rest as [|c r]; [reflexivity|].
    cbn [Json.digits_run]. now destruct Hb as [-> | ->].
  - destruct (Json.digit c); [|reflexivity].
    rewrite IH. now destruct (Json.digits_run s).
Qed.

Lemma match_integer_stable (s rest i r : pystr) :
  boundary rest ->
  Json.match_integer s = Some (i, r) ->
  Json.match_integer (s ++ rest) = Some (i, r ++ rest).
Proof.
  intros Hb. unfold Json.match_integer.
  assert (Hcore : forall sign s1,
            match s1 with
            | c :: r0 =>
                if (c =? 48)%N then Some (sign ++ [c], r0)
                else if Json.digit c then
                  let (ds, rest0) := Json.digits_run r0 in
                  Some (sign ++ c :: ds, rest0)
                else None
            | [] => None
            end = Some (i, r) ->
            match s1 ++ rest with
            | c :: r0 =>
                if (c =? 48)%N then Some (sign ++ [c], r0)
                else if Json.digit c then
                  let (ds, rest0) := Json.digits_run r0 in
                  Some (sign ++ c :: ds, rest0)
                else None
            | [] => None
            end = Some (i, r ++ rest)).
  { intros sign [|c r0]; [discriminate|]. cbn [app].
    destruct (c =? 48)%N; [intros H; now injection H as <- <-|].
    destruct (Json.digit c); [|discriminate].
    rewrite (digits_run_stable r0 rest Hb).
    destruct (Json.digits_run r0) as [ds rest0]. cbn [fst snd].
    intros H. now injection H as <- <-. }
  destruct s as [|c s0]; [discriminate|]. cbn [app].
  destruct (c =? 45)%N.
  - apply Hcore.
  - apply (Hcore [] (c :: s0)).
Qed.

Lemma match_fraction_stable (s rest : pystr) :
  boundary rest ->
  Json.match_fraction (s ++ rest)
  = (fst (Json.match_fraction s), snd (Json.match_fraction s) ++ rest).
Proof.
  intros Hb. unfold Json.match_fraction. destruct s as [|c s0]; cbn [app].
  - destruct rest as [|c r]; [reflexivity|].
    now destruct Hb as [-> | ->].
  - destruct (c =? 46)%N; [|reflexivity].
    rewrite (digits_run_stable s0 rest Hb).
    destruct (Json.digits_run s0) as [[|d ds] r0]; reflexivity.
Qed.

Lemma match_exponent_stable (s rest : pystr) :
  boundary rest ->
  Json.match_exponent (s ++ rest)
  = (fst (Json.match_exponent s), snd (Json.match_exponent s) ++ rest).
Proof.
  intros Hb. unfold Json.match_exponent. destruct s as [|e s0]; cbn [app].
  - destruct rest as [|c r]; [reflexivity|].
    now destruct Hb as [-> | ->].
  - destruct ((e =? 101) || (e =? 69))%N; [|reflexivity].
    destruct s0 as [|c s1]; cbn [app].
    + destruct rest as [|c r]; [reflexivity|].
      destruct Hb as [-> | ->]; reflexivity.
    + destruct ((c =? 45) || (c =? 43))%N.
      * rewrite (digits_run_stable s1 rest Hb).
        destruct (Json.digits_run s1) as [[|d ds] r0]; reflexivity.
      * change (c :: s1 ++ rest) with ((c :: s1) ++ rest).
        rewrite (digits_run_stable (c :: s1) rest Hb).
        destruct (Json.digits_run (c :: s1)) as [[|d ds] r0]; reflexivity.
Qed.

(** A number read to its end is read the same when a boundary follows. *)
Lemma match_number_stable (s rest tok r : pystr) (fl : bool) :
  boundary rest ->
  Json.match_number s = Some (tok, fl, r) ->
  Json.match_number (s ++ rest) = Some (tok, fl, r ++ rest).
Proof.
  intros Hb. unfold Json.match_number.
  destruct (Json.match_integer s) as [[i r1]|] eqn:Hi; [|discriminate].
  rewrite (match_integer_stable s rest i r1 Hb Hi).
  rewrite (match_fraction_stable r1 rest Hb).
  destruct (Json.match_fraction r1) as [f r2]. cbn [fst snd].
  rewrite (match_exponent_stable r2 rest Hb).
  destruct (Json.match_exponent r2) as [e r3]. cbn [fst snd].
  intros H. now injection H as <- <- <-.
Qed.

Lemma match_number_head (s tok r : pystr) (fl : bool) :
  Json.match_number s = Some (tok, fl, r) ->
  exists c s', s = c :: s' /\ number_start c = true.
Proof.
  unfold Json.match_number, Json.match_integer.
  destruct s as [|c s']; [discriminate|]. intros H. exists c, s'.
  split; [reflexivity|]. unfold number_start.
  destruct (c =? 45)%N eqn:E; [apply orb_true_r|].
  destruct (c =? 48)%N eqn:E0.
  - apply N.eqb_eq in E0. now subst c.
  - destruct (Json.digit c); [reflexivity | discriminate H].
Qed.

Lemma number_start_atom (c : N) (s : pystr) :
  number_start c = true ->
  Json.after_prefix Json.text_null (c :: s) = None
  /\ Json.after_prefix Json.text_true (c :: s) = None
  /\ Json.after_prefix Json.text_false (c :: s) = None.
Proof.
  unfold number_start, Json.digit. intros H.
  cbn [Json.after_prefix Json.text_null Json.text_true Json.text_false].
  destruct (110 =? c)%N eqn:E1;
    [apply N.eqb_eq in E1; subst c; discriminate H|].
  destruct (116 =? c)%N eqn:E2;
    [apply N.eqb_eq in E2; subst c; discriminate H|].
  destruct (102 =? c)%N eqn:E3;
    [apply N.eqb_eq in E3; subst c; discriminate H|].
  auto.
Qed.

(** *** Integers *)

Lemma uint_chars_digits (d : Decimal.uint) :
  forallb Json.digit (Json.uint_chars d) = true.
Proof. induction d; cbn [Json.uint_chars forallb]; auto. Qed.

Lemma chars_uint_chars (d : Decimal.uint) :
  Json.chars_uint (Json.uint_chars d) = d.
Proof.
  induction d; cbn [Json.uint_chars Json.chars_uint]; try rewrite IHd;
    reflexivity.
Qed.

Lemma digits_run_all (ds : pystr) :
  forallb Json.digit ds = true -> Json.digits_run ds = (ds, []).
Proof.
  induction ds as [|c ds IH]; [reflexivity|].
  cbn [forallb Json.digits_run]. intros H. apply andb_true_iff in H.
  destruct H as [-> H]. now rewrite (IH H).
Qed.

(** The decimal digits of a positive number do not start with a zero. *)
Lemma to_uint_head (p : positive) :
  match Pos.to_uint p with
  | Decimal.Nil | Decimal.D0 _ => False
  | _ => True
  end.
Proof.
  pose proof (DecimalPos.Unsigned.to_uint_nonzero p) as Hnz.
  pose proof (DecimalPos.Unsigned.to_of (Pos.to_uint p)) as Hn.
  rewrite DecimalPos.Unsigned.of_to in Hn. cbn [N.to_uint] in Hn.
  destruct (Pos.to_uint p) as [|u| | | | | | | | |] eqn:E; try exact I.
  - discriminate Hn.
  - rewrite DecimalFacts.unorm_D0 in Hn. unfold Decimal.unorm in Hn.
    destruct (Decimal.nzhead u) eqn:Hh; try discriminate Hn.
    + injection Hn as Hu. subst u. now apply Hnz.
    + exact (DecimalFacts.nzhead_nonzero u u0 Hh).
Qed.

Lemma match_number_uint (sign : pystr) (p : positive) :
  sign = [] \/ sign = [45%N] ->
  Json.match_number (sign ++ Json.uint_chars (Pos.to_uint p))
  = Some (sign ++ Json.uint_chars (Pos.to_uint p), false, []).
Proof.
  intros Hs. pose proof (to_uint_head p) as Hh.
  pose proof (uint_chars_digits (Pos.to_uint p)) as Hd.
  destruct (Json.uint_chars (Pos.to_uint p)) as [|c ds] eqn:E.
  { destruct (Pos.to_uint p); try contradiction; discriminate E. }
  assert (Hc : (c =? 48)%N = false /\ (c =? 45)%N = false).
  { destruct (Pos.to_uint p); try contradiction;
      cbn [Json.uint_chars] in E; injection E as <- _; split; reflexivity. }
  destruct Hc as [H48 H45]. cbn [forallb] in Hd.
  apply andb_true_iff in Hd. destruct Hd as [Hdc Hds].
  unfold Json.match_number, Json.match_integer.
  destruct Hs as [-> | ->]; cbn [app N.eqb Pos.eqb];
    rewrite ?H45, H48, Hdc, (digits_run_all ds Hds);
    cbn [Json.match_fraction Json.match_exponent app];
    rewrite ?List.app_nil_r; reflexivity.
Qed.

Lemma match_number_int (z : Z) :
  Json.match_number (Json.int_repr z) = Some (Json.int_repr z, false, []).
Proof.
  unfold Json.int_repr. destruct z as [|p|p]; cbn [Z.to_int].
  - reflexivity.
  - apply (match_number_uint [] p). now left.
  - apply (match_number_uint [45%N] p). now right.
Qed.

Lemma int_of_repr (z : Z) : Json.int_of (Json.int_repr z) = z.
Proof.
  rewrite <- (DecimalZ.of_to z) at 2.
  unfold Json.int_repr, Json.int_of.
  destruct (Z.to_int z) as [d|d] eqn:E.
  - destruct (Json.uint_chars d) as [|c ds] eqn:Ec.
    + destruct d; try discriminate Ec. reflexivity.
    + assert (H45 : (c =? 45)%N = false).
      { destruct d; cbn [Json.uint_chars] in Ec; try discriminate Ec;
          injection Ec as <- _; reflexivity. }
      now rewrite H45, <- Ec, chars_uint_chars.
  - cbn [N.eqb Pos.eqb]. now rewrite chars_uint_chars.
Qed.


Lemma calls_list (l : list pyval) : calls (PList l) = S (list_calls l).
Proof.
  cbn [calls]. f_equal.
Qed.

Lemma calls_dict (d : list (pystr * pyval)) :
  calls (PDict d) = S (dict_calls d).
Proof.
  cbn [calls]. f_equal. induction d as [|[k x] d IH]; [reflexivity|].
  cbn [dict_calls fold_right snd]. now rewrite IH.
Qed.

Section RoundTrip.

Variable float_repr : float -> pystr.
Variable float_of : pystr -> option float.

Abbreviation scan_once := (Json.scan_once float_of).
Abbreviation array_items := (Json.array_items float_of).
Abbreviation object_items := (Json.object_items float_of).
Abbreviation encode := (Json.encode float_repr).
Abbreviation float_law := (Codec.float_law float_repr float_of).
Abbreviation readable := (Codec.readable float_repr float_of).
Abbreviation reads_as_written :=
  (Codec.reads_as_written float_repr float_of).
Abbreviation entry := (Codec.entry float_repr).

(** *** White space *)

Lemma skip_spaces (n : nat) (s : pystr) :
  Json.skip (repeat 32%N n ++ s) = Json.skip s.
Proof. induction n as [|n IH]; [reflexivity | exact IH]. Qed.

Lemma skip_indent (level : nat) (s : pystr) :
  Json.skip (Json.newline_indent level ++ s) = Json.skip s.
Proof. unfold Json.newline_indent. cbn [app Json.skip Json.ws N.eqb Pos.eqb orb]. apply skip_spaces. Qed.

Lemma skip_head (c : N) (s : pystr) :
  Json.ws c = false -> Json.skip (c :: s) = c :: s.
Proof. intros H. cbn [Json.skip]. now rewrite H. Qed.

(** *** The first character of a value *)

Lemma number_start_value (c : N) : number_start c = true -> value_start c.
Proof.
  unfold number_start, Json.digit, value_start, Json.ws. intros H.
  destruct (N.eqb_spec c 32); [subst; discriminate H|].
  destruct (N.eqb_spec c 9); [subst; discriminate H|].
  destruct (N.eqb_spec c 10); [subst; discriminate H|].
  destruct (N.eqb_spec c 13); [subst; discriminate H|].
  destruct (N.eqb_spec c 93); [subst; discriminate H|].
  destruct (N.eqb_spec c 125); [subst; discriminate H|].
  auto.
Qed.

Lemma floatstr_finite (f : float) :
  is_finite f = true -> Json.floatstr float_repr f = float_repr f.
Proof.
  intros Hfin. unfold Json.floatstr.
  assert (Hnan : is_nan f = false).
  { unfold is_finite in Hfin.
    now apply negb_true_iff, orb_false_iff in Hfin. }
  rewrite Hnan, !eqb_spec.
  destruct (finite_cases f Hfin) as [(s & ->) | (s & m & e & ->)];
    reflexivity.
Qed.

Lemma readable_item (l : list pyval) (x : pyval) :
  readable (PList l) -> In x l -> readable x.
Proof.
  intros H Hx f Hf. apply H. cbn [floats]. apply in_flat_map. eauto.
Qed.

Lemma readable_value (d : list (pystr * pyval)) (k : pystr) (x : pyval) :
  readable (PDict d) -> In (k, x) d -> readable x.
Proof.
  intros H Hx f Hf. apply H. cbn [floats]. apply in_flat_map.
  exists (k, x). auto.
Qed.

Lemma encode_head (v : pyval) (level : nat) :
  readable v ->
  exists c r, encode v level = c :: r /\ value_start c.
Proof.
  intros Hr. destruct v as [|b|z|f|s|l|d].
  - eexists _, _. split; [reflexivity | repeat split].
  - destruct b; eexists _, _; (split; [reflexivity | repeat split]).
  - cbn [Json.encode].
    destruct (match_number_head _ _ _ _ (match_number_int z))
      as (c & r & -> & Hc).
    exists c, r. split; [reflexivity | now apply number_start_value].
  - cbn [Json.encode].
    destruct (Hr f (or_introl eq_refl)) as (Hfin & Hlit & _).
    rewrite (floatstr_finite f Hfin).
    destruct (match_number_head _ _ _ _ Hlit) as (c & r & -> & Hc).
    exists c, r. split; [reflexivity | now apply number_start_value].
  - eexists _, _. split; [reflexivity | repeat split].
  - destruct l; eexists _, _; (split; [reflexivity | repeat split]).
  - destruct d; eexists _, _; (split; [reflexivity | repeat split]).
Qed.

(** *** One step of the scanner *)

Lemma scan_once_string (fuel : nat) (s : pystr) :
  scan_once (S fuel) (34%N :: s)
  = match Json.scanstring s with
    | Some (str, rest) => Some (PStr str, rest)
    | None => None
    end.
Proof. reflexivity. Qed.

Lemma scan_once_array (fuel : nat) (r : pystr) :
  scan_once (S fuel) (91%N :: r)
  = match Json.skip r with
    | c1 :: r1 =>
        if (c1 =? 93)%N then Some (PList [], r1)
        else array_items fuel (c1 :: r1) []
    | [] => None
    end.
Proof. reflexivity. Qed.

Lemma scan_once_object (fuel : nat) (r : pystr) :
  scan_once (S fuel) (123%N :: r)
  = match Json.skip r with
    | c1 :: r1 =>
        if (c1 =? 125)%N then Some (PDict [], r1)
        else if (c1 =? 34)%N then object_items fuel r1 []
        else None
    | [] => None
    end.
Proof. reflexivity. Qed.

Lemma scan_once_number (fuel : nat) (s rest : pystr) (fl : bool) :
  boundary rest ->
  Json.match_number s = Some (s, fl, []) ->
  scan_once (S fuel) (s ++ rest)
  = if fl then
      match float_of s with
      | Some f => Some (PFloat f, rest)
      | None => None
      end
    else Some (PInt (Json.int_of s), rest).
Proof.
  intros Hb Hm.
  destruct (match_number_head _ _ _ _ Hm) as (c & s' & -> & Hc).
  pose proof (match_number_stable _ rest _ _ _ Hb Hm) as Hs.
  destruct (number_start_atom c (s' ++ rest) Hc) as (H1 & H2 & H3).
  cbn [app] in *. cbn [Json.scan_once].
  assert (E : (c =? 34)%N = false /\ (c =? 123)%N = false
              /\ (c =? 91)%N = false).
  { unfold number_start, Json.digit in Hc.
    destruct (N.eqb_spec c 34); [subst; discriminate Hc|].
    destruct (N.eqb_spec c 123); [subst; discriminate Hc|].
    destruct (N.eqb_spec c 91); [subst; discriminate Hc|]. auto. }
  destruct E as (-> & -> & ->).
  unfold Json.scan_atom. rewrite H1, H2, H3, Hs.
  destruct fl; [destruct (float_of (c :: s'))|]; reflexivity.
Qed.


(** *** Lists and objects *)

Lemma dict_set_new (acc : list (pystr * pyval)) (k : pystr) (x : pyval) :
  existsb (Str.eqb k) (map fst acc) = false ->
  Json.dict_set acc k x = acc ++ [(k, x)].
Proof.
  induction acc as [|[k' x'] acc IH]; [reflexivity|].
  cbn [map fst existsb Json.dict_set app]. intros H.
  apply orb_false_iff in H. destruct H as [-> H]. now rewrite (IH H).
Qed.

Lemma join_one (sep x : pystr) : Json.join sep [x] = x.
Proof. reflexivity. Qed.

Lemma join_cons (sep x y : pystr) (l : list pystr) :
  Json.join sep (x :: y :: l) = x ++ sep ++ Json.join sep (y :: l).
Proof. reflexivity. Qed.

Lemma array_items_encoded (l : list pyval) (x : pyval) (level : nat)
    (rest : pystr) :
  Forall reads_as_written (x :: l) ->
  storable (PList (x :: l)) = true -> readable (PList (x :: l)) ->
  forall (fuel : nat) (acc : list pyval),
    list_calls (x :: l) <= fuel ->
    array_items fuel
      (Json.join (44%N :: Json.newline_indent (S level))
         (map (fun y => encode y (S level)) (x :: l))
       ++ Json.newline_indent level ++ 93%N :: rest) acc
    = Some (PList (acc ++ x :: l), rest).
Proof.
  revert x. induction l as [|y l IH]; intros x Hall Hst Hrd fuel acc Hfuel;
    cbn [list_calls fold_right] in Hfuel;
    (destruct fuel as [|fuel]; [lia|]); cbn [Json.array_items];
    inversion Hall as [|? ? Hx Hrest]; subst;
    cbn [storable forallb] in Hst; apply andb_true_iff in Hst;
    destruct Hst as [Hsx Hsl];
    pose proof (readable_item _ _ Hrd (or_introl eq_refl)) as Hrx.
  - cbn [map]. rewrite join_one.
    rewrite (Hx Hsx Hrx (S level) _ fuel); [|now right | lia].
    rewrite skip_indent. reflexivity.
  - change (map (fun y0 => encode y0 (S level)) (x :: y :: l))
      with (encode x (S level)
            :: encode y (S level) :: map (fun y0 => encode y0 (S level)) l).
    rewrite join_cons, <- !app_assoc.
    rewrite (Hx Hsx Hrx (S level) _ fuel); [|now left | lia].
    cbn [app Json.skip Json.ws N.eqb Pos.eqb orb].
    rewrite skip_indent.
    assert (Hry : readable (PList (y :: l))).
    { intros f Hf. apply Hrd. cbn [floats flat_map] in *.
      apply in_or_app. now right. }
    pose proof (IH y Hrest Hsl Hry fuel (acc ++ [x])) as Hnext.
    change (encode y (S level) :: map (fun y0 => encode y0 (S level)) l)
      with (map (fun y0 => encode y0 (S level)) (y :: l)).
    destruct (encode_head y (S level)
                (readable_item _ _ Hry (or_introl eq_refl)))
      as (c & r & Hc & Hws & _).
    assert (Hj : exists r', Json.join (44%N :: Json.newline_indent (S level))
                              (map (fun y0 => encode y0 (S level)) (y :: l))
                            = c :: r').
    { cbn [map Json.join]. rewrite Hc.
      destruct (map _ l); cbn [app]; eauto. }
    destruct Hj as (r' & Hj). rewrite Hj in *. cbn [app] in *.
    rewrite (skip_head c _ Hws).
    rewrite Hnext by (cbn [list_calls fold_right] in *; lia).
    now rewrite <- app_assoc.
Qed.

Lemma entry_text (level : nat) (k : pystr) (x : pyval) (t : pystr) :
  entry level (k, x) ++ t
  = 34%N :: flat_map Json.escape k ++ 34%N :: 58%N :: 32%N
           :: encode x (S level) ++ t.
Proof.
  unfold entry, Json.encode_basestring. cbn [app].
  rewrite <- !app_assoc. reflexivity.
Qed.

Lemma entries_text (level : nat) (k : pystr) (x : pyval)
    (d : list (pystr * pyval)) (t : pystr) :
  Json.join (44%N :: Json.newline_indent (S level))
    (map (entry level) ((k, x) :: d)) ++ t
  = 34%N :: flat_map Json.escape k ++ 34%N :: 58%N :: 32%N
           :: encode x (S level)
           ++ match d with
              | [] => t
              | _ :: _ =>
                  44%N :: Json.newline_indent (S level)
                  ++ Json.join (44%N :: Json.newline_indent (S level))
                       (map (entry level) d) ++ t
              end.
Proof.
  destruct d as [|kv d].
  - cbn [map]. rewrite join_one. apply entry_text.
  - change (map (entry level) ((k, x) :: kv :: d))
      with (entry level (k, x) :: entry level kv :: map (entry level) d).
    rewrite join_cons, <- app_assoc, entry_text. cbn [map app].
    now rewrite <- !app_assoc.
Qed.

Lemma object_items_encoded (d : list (pystr * pyval)) (k : pystr)
    (x : pyval) (level : nat) (rest : pystr) :
  Forall (fun kv => reads_as_written (snd kv)) ((k, x) :: d) ->
  distinct (map fst ((k, x) :: d)) = true ->
  forallb (fun kv => let '(k', x') := kv in text_ok k' && storable x')
    ((k, x) :: d) = true ->
  readable (PDict ((k, x) :: d)) ->
  forall (fuel : nat) (acc : list (pystr * pyval)),
    dict_calls ((k, x) :: d) <= fuel ->
    (forall k', In k' (map fst ((k, x) :: d)) ->
       existsb (Str.eqb k') (map fst acc) = false) ->
    object_items fuel
      (tl (Json.join (44%N :: Json.newline_indent (S level))
             (map (entry level) ((k, x) :: d))
           ++ Json.newline_indent level ++ 125%N :: rest)) acc
    = Some (PDict (acc ++ (k, x) :: d), rest).
Proof.
  revert k x. induction d as [|[k2 x2] d IH];
    intros k x Hall Hdis Hst Hrd fuel acc Hfuel Hnew;
    cbn [dict_calls fold_right snd] in Hfuel;
    (destruct fuel as [|fuel]; [lia|]); cbn [Json.object_items];
    rewrite entries_text; cbn [tl]; rewrite scanstring_encoded;
    cbn [app Json.skip Json.ws N.eqb Pos.eqb orb];
    inversion Hall as [|? ? Hx Hrest]; subst; cbn [snd] in Hx;
    cbn [forallb] in Hst; apply andb_true_iff in Hst;
    destruct Hst as [Hsx Hsd]; apply andb_true_iff in Hsx;
    pose proof (readable_value _ k x Hrd (or_introl eq_refl)) as Hrx;
    destruct (encode_head x (S level) Hrx) as (c & r & Hc & Hws & _).
  - rewrite Hc. cbn [app]. rewrite (skip_head c _ Hws).
    change (c :: r ++ Json.newline_indent level ++ 125%N :: rest)
      with ((c :: r) ++ Json.newline_indent level ++ 125%N :: rest).
    rewrite <- Hc.
    rewrite (Hx (proj2 Hsx) Hrx (S level) _ fuel); [|now right | lia].
    rewrite skip_indent. cbn [Json.skip Json.ws N.eqb Pos.eqb orb].
    rewrite dict_set_new by (apply Hnew; now left). reflexivity.
  - rewrite Hc. cbn [app]. rewrite (skip_head c _ Hws).
    match goal with
    | |- context [Json.scan_once _ _ (c :: r ++ ?t)] =>
        change (c :: r ++ t) with ((c :: r) ++ t)
    end.
    rewrite <- Hc.
    rewrite (Hx (proj2 Hsx) Hrx (S level) _ fuel); [|now left | lia].
    cbn [app Json.skip Json.ws N.eqb Pos.eqb orb].
    rewrite skip_indent.
    assert (Hrd2 : readable (PDict ((k2, x2) :: d))).
    { intros f Hf. apply Hrd. cbn [floats flat_map] in *.
      apply in_or_app. now right. }
    cbn [map fst distinct] in Hdis. apply andb_true_iff in Hdis.
    destruct Hdis as [Hk Hdis]. apply negb_true_iff in Hk.
    pose proof (IH k2 x2 Hrest Hdis Hsd Hrd2 fuel (acc ++ [(k, x)]))
      as Hnext.
    rewrite entries_text in Hnext |- *. cbn [tl] in Hnext.
    cbn [Json.skip Json.ws N.eqb Pos.eqb orb].
    rewrite dict_set_new by (apply Hnew; now left).
    rewrite Hnext.
    + now rewrite <- app_assoc.
    + cbn [dict_calls fold_right snd] in *; lia.
    + intros k' Hk'. rewrite map_app, existsb_app.
      rewrite (Hnew k' (or_intror Hk')). cbn [map fst existsb].
      rewrite orb_false_r. apply not_true_is_false. intros E.
      apply Str_eqb_eq in E. subst k'.
      apply (proj2 (existsb_eqb_In k _)) in Hk'. cbn [map fst] in Hk'.
      congruence.
Qed.

(** Reading what was written gives the value back, whatever follows and
    however deep the text is nested. *)
Lemma scan_once_encoded (v : pyval) : reads_as_written v.
Proof.
  induction v using pyval_induction; intros Hst Hrd level rest fuel Hb Hfuel.
  - destruct fuel; [cbn in Hfuel; lia | reflexivity].
  - destruct fuel; [cbn in Hfuel; lia | destruct b; reflexivity].
  - destruct fuel; [cbn in Hfuel; lia|]. cbn [Json.encode].
    rewrite (scan_once_number fuel _ rest false Hb (match_number_int z)).
    now rewrite int_of_repr.
  - destruct fuel; [cbn in Hfuel; lia|]. cbn [Json.encode].
    destruct (Hrd f (or_introl eq_refl)) as (Hfin & Hlit & Hof).
    rewrite (floatstr_finite f Hfin).
    rewrite (scan_once_number fuel _ rest true Hb Hlit). now rewrite Hof.
  - destruct fuel; [cbn in Hfuel; lia|]. cbn [Json.encode].
    unfold Json.encode_basestring. cbn [app].
    rewrite scan_once_string, <- app_assoc. cbn [app].
    now rewrite scanstring_encoded.
  - rewrite calls_list in Hfuel. destruct fuel as [|fuel]; [lia|].
    destruct l as [|x l]; [reflexivity|].
    cbn [Json.encode]. cbn [app]. rewrite scan_once_array.
    rewrite <- !app_assoc, skip_indent.
    destruct (encode_head x (S level)
                (readable_item _ _ Hrd (or_introl eq_refl)))
      as (c & r & Hc & Hws & H93 & _).
    assert (Hj : exists r', Json.join (44%N :: Json.newline_indent (S level))
                              (map (fun y0 => encode y0 (S level)) (x :: l))
                            = c :: r').
    { cbn [map Json.join]. rewrite Hc.
      destruct (map _ l); cbn [app]; eauto. }
    destruct Hj as (r' & Hj).
    pose proof (array_items_encoded l x level rest H Hst Hrd fuel []) as Hit.
    rewrite Hj in *. cbn [app] in *. rewrite (skip_head c _ Hws), H93.
    apply Hit. lia.
  - rewrite calls_dict in Hfuel. destruct fuel as [|fuel]; [lia|].
    destruct d as [|[k x] d]; [reflexivity|].
    cbn [Json.encode]. cbn [app]. rewrite scan_once_object.
    rewrite <- !app_assoc, skip_indent.
    cbn [storable] in Hst. apply andb_true_iff in Hst.
    destruct Hst as [Hdis Hst].
    pose proof (object_items_encoded d k x level rest H Hdis Hst Hrd fuel [])
      as Hit.
    change (fun kv : pystr * pyval =>
              let '(k0, x0) := kv in
              Json.encode_basestring k0 ++ [58%N; 32%N] ++ encode x0 (S level))
      with (entry level).
    cbn [app]. rewrite entries_text in Hit |- *. cbn [tl] in Hit.
    cbn [Json.skip Json.ws N.eqb Pos.eqb orb].
    apply Hit; [lia | reflexivity].
Qed.

Lemma join_length (sep : pystr) (x : pystr) (l : list pystr) :
  List.length (Json.join sep (x :: l))
  = List.length x
    + fold_right (fun y n => List.length sep + List.length y + n) 0 l.
Proof.
  revert x. induction l as [|y l IH]; intros x.
  - rewrite join_one. cbn [fold_right]. lia.
  - rewrite join_cons, !length_app, IH. cbn [fold_right]. lia.
Qed.

Lemma list_calls_bound (l : list pyval) (level : nat) (sep : pystr) :
  Forall (fun x => forall level, calls x <= List.length (encode x level) + 1)
    l ->
  1 <= List.length sep ->
  list_calls l
  <= List.length (Json.join sep (map (fun x => encode x level) l)) + 2.
Proof.
  intros Hall Hsep. induction Hall as [|x l Hx Hall IH].
  - cbn. lia.
  - change (list_calls (x :: l)) with (S (Nat.max (calls x) (list_calls l))).
    specialize (Hx level). destruct l as [|y l].
    + cbn [map list_calls fold_right]. rewrite join_one. lia.
    + change (map (fun x0 => encode x0 level) (x :: y :: l))
        with (encode x level :: encode y level
              :: map (fun x0 => encode x0 level) l).
      rewrite join_cons, !length_app.
      change (encode y level :: map (fun x0 => encode x0 level) l)
        with (map (fun x0 => encode x0 level) (y :: l)).
      lia.
Qed.

Lemma dict_calls_bound (d : list (pystr * pyval)) (level : nat)
    (sep : pystr) :
  Forall (fun kv => forall level,
            calls (snd kv) <= List.length (encode (snd kv) level) + 1) d ->
  1 <= List.length sep ->
  dict_calls d
  <= List.length (Json.join sep (map (entry level) d)) + 2.
Proof.
  intros Hall Hsep. induction Hall as [|[k x] d Hx Hall IH].
  - cbn. lia.
  - change (dict_calls ((k, x) :: d))
      with (S (Nat.max (calls x) (dict_calls d))).
    cbn [snd] in Hx. specialize (Hx (S level)).
    assert (He : List.length (encode x (S level))
                 <= List.length (entry level (k, x))).
    { unfold entry. rewrite !length_app. lia. }
    destruct d as [|kv d].
    + cbn [map dict_calls fold_right]. rewrite join_one. lia.
    + change (map (entry level) ((k, x) :: kv :: d))
        with (entry level (k, x) :: entry level kv
              :: map (entry level) d).
      rewrite join_cons, !length_app.
      change (entry level kv :: map (entry level) d)
        with (map (entry level) (kv :: d)).
      lia.
Qed.

(** The scanner goes no deeper than the text is long. *)
Lemma calls_bound (v : pyval) (level : nat) :
  calls v <= List.length (encode v level) + 1.
Proof.
  assert (Hnl : forall n, 1 <= List.length (Json.newline_indent n))
    by (intros n; cbn [Json.newline_indent List.length]; lia).
  revert level. induction v using pyval_induction; intros level;
    try (cbn [calls]; lia);
    pose proof (Hnl level); pose proof (Hnl (S level)).
  - rewrite calls_list. destruct l as [|x l]; [cbn; lia|].
    pose proof (list_calls_bound (x :: l) (S level)
                  (44%N :: Json.newline_indent (S level)) H) as Hb.
    cbn [Json.encode]. cbn [List.length]. rewrite !length_app.
    cbn [List.length] in *. lia.
  - rewrite calls_dict. destruct d as [|kv d]; [cbn; lia|].
    pose proof (dict_calls_bound (kv :: d) level
                  (44%N :: Json.newline_indent (S level)) H) as Hb.
    cbn [Json.encode]. cbn [List.length]. rewrite !length_app.
    change (fun kv0 : pystr * pyval =>
              let '(k0, x0) := kv0 in
              Json.encode_basestring k0 ++ [58%N; 32%N] ++ encode x0 (S level))
      with (entry level).
    cbn [List.length] in *. specialize (Hb ltac:(lia)).
    change (list N) with pystr in Hb |- *. lia.
Qed.

(** [json.load] reads what [json.dump] wrote as the value written. *)
Theorem loads_dumps (v : pyval) :
  storable v = true -> readable v ->
  Json.loads float_of (Json.dumps float_repr v) = Some v.
Proof.
  intros Hst Hrd. unfold Json.loads, Json.dumps.
  destruct (encode_head v 0 Hrd)
    as (c & r & Hc & Hws & _).
  rewrite Hc at 2. rewrite (skip_head c r Hws), <- Hc.
  pose proof (scan_once_encoded v Hst Hrd 0 []
                (2 * List.length (encode v 0) + 1)) as H.
  rewrite List.app_nil_r in H. rewrite H; [reflexivity | exact I |].
  pose proof (calls_bound v 0). lia.
Qed.

End RoundTrip.

(** ** Saving and loading the POI file *)

Lemma storable_encodable (v : pyval) :
  storable v = true -> Py.encodable v = true.
Proof.
  induction v using pyval_induction; cbn [storable Py.encodable];
    try reflexivity.
  - unfold text_ok. auto.
  - rewrite !forallb_forall. intros Hl x Hx.
    apply (proj1 (Forall_forall _ _) H x Hx). now apply Hl.
  - intros Hd. apply andb_true_iff in Hd. destruct Hd as [_ Hd].
    rewrite forallb_forall in *. intros [k x] Hx.
    specialize (Hd _ Hx). cbn beta iota in Hd.
    apply andb_true_iff in Hd. destruct Hd as [Hk Hv].
    apply andb_true_iff. split; [exact Hk|].
    apply (proj1 (Forall_forall _ _) H (k, x) Hx). exact Hv.
Qed.

(** A float between two finite floats is finite. *)
Lemma between_finite (lo hi a : float) :
  is_finite lo = true -> is_finite hi = true ->
  Num.between lo a hi = true -> is_finite a = true.
Proof.
  intros Hlo Hhi Hb. pose proof (in_range_not_nan lo hi a Hb) as Hnan.
  unfold Num.between in Hb. apply andb_true_iff in Hb.
  destruct Hb as [H1 H2]. rewrite leb_spec in H1, H2.
  unfold is_finite. rewrite Hnan. cbn [orb]. apply negb_true_iff.
  unfold is_infinity. rewrite eqb_spec, abs_spec.
  change (Prim2SF infinity) with (S754_infinity false).
  destruct (finite_cases lo Hlo) as [(sl & Hl) | (sl & ml & el & Hl)];
    destruct (finite_cases hi Hhi) as [(sh & Hh) | (sh & mh & eh & Hh)];
    rewrite Hl in H1; rewrite Hh in H2;
    destruct (Prim2SF a) as [s|[|]| |s m e]; try reflexivity;
    try discriminate H1; try discriminate H2;
    try (destruct sl; discriminate H1); try (destruct sh; discriminate H2).
Qed.

Lemma floats_of_texts (ts : list pystr) :
  flat_map floats (map PStr ts) = [].
Proof. induction ts as [|t ts IH]; [reflexivity | exact IH]. Qed.

(** The floats of POI records are coordinates in range, which are
    finite. *)
Lemma records_finite (pois : list pyval) (f : float) :
  Forall poi_record pois -> In f (floats (PList pois)) ->
  is_finite f = true.
Proof.
  intros Hrec Hf. cbn [floats] in Hf. apply in_flat_map in Hf.
  destruct Hf as (p & Hp & Hf).
  destruct (proj1 (Forall_forall _ _) Hrec p Hp)
    as (i & n & a & b & ts & -> & _ & _ & Ha & Hb & _).
  cbn [floats flat_map app] in Hf. rewrite floats_of_texts in Hf.
  destruct Hf as [<- | [<- | []]].
  - now apply (between_finite (-90) 90).
  - now apply (between_finite (-180) 180).
Qed.

Section StoreRoundTrip.

Variable base : Runtime.
Variable float_repr : float -> pystr.
Variable partial : pyval -> pystr.

Abbreviation files := (json_runtime base float_repr partial).

(** C8: on a POI file that holds JSON text, a collection of POI records
    saved by [save_pois] is what [load_pois] and [list_pois] return next,
    the same records in the same order, provided [float] reads the [repr]
    of each of its coordinates as that coordinate.  [json.dump] and
    [json.load] are the codec of [Json]. *)
Theorem save_then_load_roundtrip (w : @world files) (pois : list pyval) :
  Forall poi_record pois ->
  (forall f, In f (floats (PList pois)) ->
     repr_reads float_repr (@py_float base) f) ->
  outcome (save_pois (PList pois)) w = Ok tt
  /\ outcome load_pois (after (save_pois (PList pois)) w)
     = Ok (PList pois)
  /\ outcome list_pois (after (save_pois (PList pois)) w)
     = Ok (PList pois).
Proof.
  intros Hrec Hrepr.
  pose proof (collection_storable pois Hrec) as Hst.
  assert (Hrd : Codec.readable float_repr (@py_float base) (PList pois)).
  { intros f Hf. split; [now apply (records_finite pois) | now apply Hrepr]. }
  pose proof (loads_dumps float_repr (@py_float base) _ Hst Hrd) as Hload.
  unfold outcome, after, save_pois, load_pois, list_pois.
  rewrite (storable_encodable _ Hst).
  cbn [fst snd pois_file json_load json_dump json_runtime].
  rewrite Hload. auto.
Qed.

End StoreRoundTrip.

(** * The statements at concrete inputs *)

Section Witnesses.

#[local] Existing Instance Sample.runtime.

(** ** The runtime model on known values *)

Example strip_surrounding_space :
  Str.strip (u "  Louvre	") = u "Louvre"
  /\ Str.strip (u " ") = [] /\ Str.strip (u "a b") = u "a b".
Proof. repeat split; vm_compute; reflexivity. Qed.

Example split_on_commas :
  Str.split 44 (u "48.8584,2.2945") = [u "48.8584"; u "2.2945"]
  /\ Str.split 44 (u "invalid") = [u "invalid"]
  /\ Str.split 44 (u "1,,2") = [u "1"; []; u "2"]
  /\ Str.split 44 [] = [[]].
Proof. repeat split; vm_compute; reflexivity. Qed.

Example literal_code_points : u "Café" = [67; 97; 102; 233]%N.
Proof. vm_compute. reflexivity. Qed.

Example round3_of_3_5 : Num.round_ndigits 3.5 3 = 3.5%float.
Proof. reflexivity. Qed.

(** [round(1.0005, 3)] is [1.0]: the float written 1.0005 lies below the
    tie. *)
Example round3_below_tie :
  Num.round_ndigits 0x1.0020c49ba5e35p+0 3 = 1%float.
Proof. reflexivity. Qed.

Example round3_negative_zero : Num.round_ndigits (-0x1p-20) 3 = (-0)%float.
Proof. reflexivity. Qed.

Example round_int_ties_to_even :
  Num.round_int 0.5 = Ok 0%Z /\ Num.round_int 1.5 = Ok 2%Z
  /\ Num.round_int 2.5 = Ok 2%Z /\ Num.round_int (-2.5) = Ok (-2)%Z.
Proof. repeat split. Qed.

Example round_int_not_finite :
  Num.round_int infinity = Raise OverflowError
  /\ Num.round_int nan = Raise ValueError.
Proof. split; reflexivity. Qed.

Example truediv_operands :
  Num.truediv (PInt 3500) 1000 = Ok 3.5%float
  /\ Num.truediv (PFloat 2700) 60 = Ok 45%float
  /\ Num.truediv (PStr (u "3500")) 1000 = Raise TypeError.
Proof. repeat split. Qed.

Example validation_bounds :
  PoiIn_validate (u "P") 90 (-180) [] = Ok (Sample.poi "P" 90 (-180) [])
  /\ name (Sample.poi "P" 90 (-180) []) = u "P"
  /\ PoiIn_validate (u "P") 100 0 []
     = Raise (ValidationError [("lat"%string, PFloat 100)])
  /\ PoiIn_validate (u "P") 0 200 []
     = Raise (ValidationError [("lon"%string, PFloat 200)])
  /\ PoiIn_validate [] nan 0 []
     = Raise (ValidationError [ ("name"%string, PStr []);
                                ("lat"%string, PFloat nan) ])
  /\ PoiIn_validate [55296%N] 0 0 []
     = Raise (ValidationError [("name"%string, PStr [55296%N])]).
Proof. repeat split; vm_compute; reflexivity. Qed.

(** A refusal is answered 422, unless its body would hold a NaN or a
    surrogate. *)
Example validation_status :
  http_status (ValidationError [("lat"%string, PFloat 100)]) = 422%Z
  /\ http_status (ValidationError [("lat"%string, PFloat nan)]) = 500%Z
  /\ http_status (ValidationError [("name"%string, PStr [55296%N])])
     = 500%Z.
Proof. repeat split. Qed.

Example float_reads :
  Sample.decimal_float (u "48.5") = Some 48.5%float
  /\ Sample.decimal_float (u "-2.25") = Some (-2.25)%float
  /\ Sample.decimal_float (u "nan") = Some nan
  /\ Sample.decimal_float (u "-inf") = Some neg_infinity
  /\ Sample.decimal_float (u "1e3") = None
  /\ Sample.decimal_float (u "invalid") = None.
Proof. repeat split; vm_compute; reflexivity. Qed.

Example identifier_digits :
  Sample.counter_hex 0 = u "00000000000000000000000000000000"
  /\ Sample.counter_hex 255 = u "000000000000000000000000000000ff".
Proof. split; vm_compute; reflexivity. Qed.

(** ** The statements at sample inputs *)

Lemma cafe_world_collection :
  outcome load_pois Sample.cafe_world = Ok (PList [Sample.cafe_item]).
Proof. vm_compute. reflexivity. Qed.

Lemma cafe_item_named :
  Forall (fun p => exists n, named p n) [Sample.cafe_item].
Proof. repeat constructor. exists (u "Café"). vm_compute. reflexivity. Qed.



Lemma create_poi_conflict_writes_nothing_witness :
  after (create_poi (Sample.poi " café " 1 2 [])) Sample.cafe_world
  = Sample.cafe_world
  /\ trace (after (create_poi (Sample.poi " café " 1 2 []))
              Sample.cafe_world)
     = trace Sample.cafe_world.
Proof.
  destruct (create_poi_conflict_writes_nothing Sample.cafe_world
              [Sample.cafe_item] (Sample.poi " café " 1 2 [])
              cafe_world_collection cafe_item_named) as (Hw & _ & Htr).
  - exists Sample.cafe_item, (u "Café").
    repeat split; [left; reflexivity | vm_compute; reflexivity ..].
  - split; [exact Hw | exact Htr].
Defined.

Lemma paris_world_collection :
  outcome load_pois Sample.paris_world
  = Ok (PList [Sample.cafe_item; Sample.louvre_item]).
Proof. vm_compute. reflexivity. Qed.

Lemma delete_poi_removes_matching_witness :
  (outcome (delete_poi (Sample.counter_hex 0)) Sample.paris_world = Ok tt
   /\ pois_file (after (delete_poi (Sample.counter_hex 0))
                   Sample.paris_world)
      = Some (json_dump (PList [Sample.louvre_item])))
  /\ (outcome (delete_poi (u "nonexistent")) Sample.paris_world
      = Raise (HTTPException 404 not_found_detail)
      /\ after (delete_poi (u "nonexistent")) Sample.paris_world
         = Sample.paris_world).
Proof.
  assert (Hdict : Forall (fun p => is_dict p = true)
                    [Sample.cafe_item; Sample.louvre_item])
    by (repeat constructor).
  split.
  - destruct (delete_poi_removes_matching Sample.paris_world
                [Sample.cafe_item; Sample.louvre_item]
                (Sample.counter_hex 0) paris_world_collection Hdict)
      as [Hfound _].
    destruct Hfound as (Hout & Hfile & _).
    + exists Sample.cafe_item. split; [left|vm_compute]; reflexivity.
    + vm_compute. reflexivity.
    + split; [exact Hout|]. rewrite Hfile. vm_compute. reflexivity.
  - apply (delete_poi_removes_matching Sample.paris_world
             [Sample.cafe_item; Sample.louvre_item]
             (u "nonexistent") paris_world_collection Hdict).
    intros p [<- | [<- | []]]; vm_compute; reflexivity.
Defined.

(** C6 as stated fails: where an entry that stays holds an unpaired
    surrogate, deleting another entry by its identifier raises in the
    write; the reduced collection is not persisted and the file is left
    with a text that no longer parses. *)
Lemma delete_poi_loses_collection :
  outcome load_pois Cases.unpaired_world
  = Ok (PList [Sample.cafe_item; Cases.unpaired])
  /\ identified Sample.cafe_item (Sample.counter_hex 0) = true
  /\ outcome (delete_poi (Sample.counter_hex 0)) Cases.unpaired_world
     = Raise UnicodeEncodeError
  /\ outcome load_pois
       (after (delete_poi (Sample.counter_hex 0)) Cases.unpaired_world)
     = Raise JSONDecodeError.
Proof. repeat split; vm_compute; reflexivity. Qed.

Lemma sample_records :
  Forall poi_record [Sample.cafe_item; Sample.louvre_item].
Proof.
  repeat constructor.
  - exists (Sample.counter_hex 0), (u "Café"), 48.5%float, 2.25%float,
      [u "food"].
    repeat split; vm_compute; reflexivity.
  - exists (Sample.counter_hex 1), (u "Louvre"), 48.75%float, 2.5%float, [].
    repeat split; vm_compute; reflexivity.
Qed.

Lemma save_then_load_roundtrip_witness :
  outcome (save_pois (PList [Sample.cafe_item; Sample.louvre_item]))
    Sample.empty_store = Ok tt
  /\ outcome load_pois
       (after (save_pois (PList [Sample.cafe_item; Sample.louvre_item]))
          Sample.empty_store)
     = Ok (PList [Sample.cafe_item; Sample.louvre_item])
  /\ outcome list_pois
       (after (save_pois (PList [Sample.cafe_item; Sample.louvre_item]))
          Sample.empty_store)
     = Ok (PList [Sample.cafe_item; Sample.louvre_item]).
Proof.
  apply (save_then_load_roundtrip Sample.runtime Sample.float_repr
           (fun _ => []) Sample.empty_store
           [Sample.cafe_item; Sample.louvre_item]).
  - exact sample_records.
  - intros f Hf. vm_compute in Hf.
    destruct Hf as [<- | [<- | [<- | [<- | []]]]];
      vm_compute; split; reflexivity.
Defined.

(** The codec on known texts. *)
Example dumped_text :
  Json.dumps Sample.float_repr
    (PList [PInt 1; PList []; PFloat 2.5; PNone; PBool true; PInt (-7)])
  = u "[
  1,
  [],
  2.5,
  null,
  true,
  -7
]"
  /\ Json.dumps Sample.float_repr (PList [PDict [(u "lat", PFloat 48.5)]])
     = [91; 10; 32; 32; 123; 10; 32; 32; 32; 32; 34; 108; 97; 116; 34; 58;
        32; 52; 56; 46; 53; 10; 32; 32; 125; 10; 93]%N.
Proof. split; vm_compute; reflexivity. Qed.

Example loaded_text :
  Json.loads Sample.decimal_float (u " [1, 2.5, null, true, [], {}] ")
  = Some (PList [PInt 1; PFloat 2.5; PNone; PBool true; PList []; PDict []])
  /\ Json.loads Sample.decimal_float (u "[1,") = None
  /\ Json.loads Sample.decimal_float
       [34; 92; 117; 48; 48; 101; 57; 34]%N = Some (PStr [233%N])
  /\ Json.loads Sample.decimal_float
       [34; 92; 117; 100; 56; 48; 48; 34]%N = Some (PStr [55296%N]).
Proof. repeat split; vm_compute; reflexivity. Qed.

Lemma invalid_is_not_two_numbers : ~ two_numbers (u "invalid").
Proof.
  intros (a & b & x & y & Hs & _). vm_compute in Hs. discriminate Hs.
Qed.

Lemma route_rejects_malformed_coordinates_witness :
  outcome (route (Sample.always (Sample.ok_json Sample.route_payload))
             (u "invalid") (u "48.8606,2.3376") default_profile)
    Sample.fresh_world
  = Raise (HTTPException 400 bad_coords_detail)
  /\ trace (after (route (Sample.always (Sample.ok_json Sample.route_payload))
                     (u "invalid") (u "48.8606,2.3376") default_profile)
              Sample.fresh_world)
     = [].
Proof.
  destruct (route_rejects_malformed_coordinates
              (Sample.always (Sample.ok_json Sample.route_payload))
              (u "invalid") (u "48.8606,2.3376") default_profile
              Sample.fresh_world (or_introl invalid_is_not_two_numbers))
    as (Hout & _ & _ & Htr).
  split; [exact Hout | exact Htr].
Defined.

Lemma rough_parses :
  parse_coord (u "48.8584,2.2945")
  = Ok (0x1.86de00d1b7176p+5, 0x1.25b22d0e56042p+1)%float
  /\ parse_coord (u "48.8606,2.3376")
     = Ok (0x1.86e28240b7803p+5, 0x1.2b367a0f9096cp+1)%float.
Proof. split; vm_compute; reflexivity. Qed.


Lemma point_feature_ok (lon lat : float) (props : list (pystr * pyval)) :
  feature_ok (Sample.point lon lat props).
Proof.
  exists (Sample.point_geometry lon lat), props.
  split; [vm_compute; reflexivity|]. split; [vm_compute; reflexivity|].
  intros _. exists (PFloat lon), (PFloat lat). vm_compute. reflexivity.
Qed.

Lemma region_feature_ok : feature_ok Sample.region.
Proof.
  exists Sample.region_geometry, Sample.region_properties.
  split; [vm_compute; reflexivity|]. split; [vm_compute; reflexivity|].
  intros H. vm_compute in H. discriminate H.
Qed.

#[warnings="-inexact-float"]
Lemma geocode_point_features_witness :
  outcome (geocode (Sample.always
                      (Sample.ok_json
                         (Sample.collection [Sample.region; Sample.moscow])))
             (u "Moscow")) Sample.fresh_world
  = Ok (PDict [(u "results",
                PList [PDict [ (u "label", PStr (u "Moscow, Russia"));
                               (u "lat", PFloat 55.7558);
                               (u "lon", PFloat 37.6173) ]])]).
Proof.
  refine (eq_trans
            (proj1 (geocode_point_features
                      (Sample.always
                         (Sample.ok_json
                            (Sample.collection
                               [Sample.region; Sample.moscow])))
                      (u "Moscow") Sample.fresh_world
                      (Sample.ok_json
                         (Sample.collection [Sample.region; Sample.moscow]))
                      (Sample.collection [Sample.region; Sample.moscow])
                      [Sample.region; Sample.moscow] _ _ _ _ _ _)) _).
  - vm_compute. repeat constructor.
  - reflexivity.
  - reflexivity.
  - reflexivity.
  - vm_compute. reflexivity.
  - repeat constructor;
      [exact region_feature_ok | apply point_feature_ok].
  - vm_compute. reflexivity.
Defined.

(** C5 as stated fails: a point feature without label or name is not
    skipped, it is returned with the label [None]; and a point whose
    position has three components makes the handler raise. *)
Lemma geocode_keeps_unlabelled_point :
  (labelled_points [Sample.unlabelled] = []
   /\ outcome (geocode (Sample.always
                          (Sample.ok_json
                             (Sample.collection [Sample.unlabelled])))
                 (u "Nowhere")) Sample.fresh_world
      = Ok (PDict [(u "results",
                    PList [PDict [ (u "label", PNone);
                                   (u "lat", PFloat 2);
                                   (u "lon", PFloat 1) ]])]))
  /\ (List.length (labelled_points [Sample.summit]) = 1
      /\ outcome (geocode (Sample.always
                             (Sample.ok_json
                                (Sample.collection [Sample.summit])))
                    (u "Summit")) Sample.fresh_world
         = Raise ValueError).
Proof. repeat split; vm_compute; reflexivity. Qed.

Lemma geocode_size_witness :
  trace (after (geocode (Sample.always
                           (Sample.ok_json
                              (Sample.collection
                                 [Sample.region; Sample.moscow])))
                  (u "Moscow")) Sample.fresh_world)
  = [HttpSent (geocode_request (u "Moscow"))]
  /\ Py.lookup (u "size") (req_params (geocode_request (u "Moscow")))
     = Some (PInt 5).
Proof.
  destruct (geocode_size
              (Sample.always
                 (Sample.ok_json
                    (Sample.collection [Sample.region; Sample.moscow])))
              (u "Moscow") Sample.fresh_world) as (Htr & Hsize & _).
  - vm_compute. repeat constructor.
  - split; [exact Htr | exact Hsize].
Defined.

(** C9 as stated fails: when the provider answers with six point features,
    the handler returns six entries. *)
Lemma geocode_returns_six :
  outcome (geocode (Sample.always
                      (Sample.ok_json (Sample.collection Sample.six_points)))
             (u "Springfield")) Sample.fresh_world
  = Ok (PDict [(u "results", PList (map point_entry Sample.six_points))])
  /\ ~ List.length (map point_entry Sample.six_points) <= 5.
Proof.
  split; [vm_compute; reflexivity|].
  vm_compute. intros H. repeat (apply le_S_n in H). inversion H.
Qed.

End Witnesses.

(** * The further statements at sample inputs *)

Section FurtherWitnesses.

#[local] Existing Instance Sample.runtime.

Lemma fresh_world_collection :
  outcome load_pois Sample.fresh_world = Ok (PList []).
Proof. reflexivity. Qed.

Lemma cafe_created :
  outcome (create_poi Sample.cafe) Sample.fresh_world = Ok Sample.cafe_item.
Proof. vm_compute. reflexivity. Qed.

Lemma cafe_keys : name_keys (PList [Sample.cafe_item]) = Ok [u "café"].
Proof. vm_compute. reflexivity. Qed.

Lemma louvre_created :
  outcome (create_poi Sample.louvre) Sample.cafe_world
  = Ok Sample.louvre_item.
Proof. vm_compute. reflexivity. Qed.

Lemma two_chars (c d : N) (s : pystr) : 2 <= List.length (c :: d :: s).
Proof. simpl. lia. Qed.


Lemma PoiIn_validate_rejects_nan_witness :
  exists errors,
    PoiIn_validate (u "Nowhere") nan 0 [] = Raise (ValidationError errors)
    /\ (exists field x, In (field, PFloat x) errors /\ is_nan x = true)
    /\ http_status (ValidationError errors) = 500%Z.
Proof.
  apply (PoiIn_validate_rejects_nan (u "Nowhere") nan 0 []).
  left. reflexivity.
Defined.

Lemma create_poi_keeps_names_distinct_witness :
  name_keys (PList ([Sample.cafe_item] ++ [Sample.louvre_item]))
  = Ok ([u "café"] ++ [str_lower (Str.strip (name Sample.louvre))])
  /\ NoDup ([u "café"] ++ [str_lower (Str.strip (name Sample.louvre))]).
Proof.
  destruct (create_poi_keeps_names_distinct Sample.cafe_world
              [Sample.cafe_item] [u "café"] Sample.louvre
              Sample.louvre_item cafe_world_collection cafe_keys)
    as (_ & H).
  - constructor; [intros [] | constructor].
  - exact louvre_created.
  - exact H.
Defined.

Lemma create_poi_twice_conflicts_witness :
  create_poi (Sample.poi " CAFé " 0 0 [])
    (after (create_poi Sample.cafe) Sample.fresh_world)
  = (Raise (HTTPException 409 duplicate_detail),
     after (create_poi Sample.cafe) Sample.fresh_world).
Proof.
  apply (create_poi_twice_conflicts Sample.fresh_world [] [] Sample.cafe
           (Sample.poi " CAFé " 0 0 []) Sample.cafe_item
           fresh_world_collection eq_refl cafe_created).
  - vm_compute. reflexivity.
  - vm_compute. reflexivity.
Defined.


Lemma create_poi_then_list_witness :
  outcome list_pois (after (create_poi Sample.cafe) Sample.fresh_world)
  = Ok (PList ([] ++ [Sample.cafe_item])).
Proof.
  apply (create_poi_then_list Sample.fresh_world [] Sample.cafe
           Sample.cafe_item fresh_world_collection cafe_created).
  vm_compute. reflexivity.
Defined.

Lemma create_then_delete_restores_witness :
  outcome (delete_poi (uuid4_hex (uuid_draws Sample.cafe_world)))
    (after (create_poi Sample.louvre) Sample.cafe_world) = Ok tt
  /\ pois_file (after (delete_poi (uuid4_hex (uuid_draws Sample.cafe_world)))
                  (after (create_poi Sample.louvre) Sample.cafe_world))
     = Some (json_dump (PList [Sample.cafe_item])).
Proof.
  apply (create_then_delete_restores Sample.cafe_world [Sample.cafe_item]
           Sample.louvre Sample.louvre_item cafe_world_collection).
  - repeat constructor.
  - exact louvre_created.
  - vm_compute. reflexivity.
  - intros p [<- | []]. vm_compute. reflexivity.
Defined.

Lemma delete_poi_twice_not_found_witness :
  delete_poi (Sample.counter_hex 0)
    (after (delete_poi (Sample.counter_hex 0)) Sample.paris_world)
  = (Raise (HTTPException 404 not_found_detail),
     after (delete_poi (Sample.counter_hex 0)) Sample.paris_world).
Proof.
  apply (delete_poi_twice_not_found Sample.paris_world
           [Sample.cafe_item; Sample.louvre_item] (Sample.counter_hex 0)
           paris_world_collection).
  - repeat constructor.
  - vm_compute. reflexivity.
  - vm_compute. reflexivity.
Defined.

Lemma corrupt_store_stays_witness :
  @list_pois Cases.text_runtime Cases.corrupt_world
  = (Raise JSONDecodeError, Cases.corrupt_world)
  /\ @create_poi Cases.text_runtime Sample.cafe Cases.corrupt_world
     = (Raise JSONDecodeError, Cases.corrupt_world)
  /\ @delete_poi Cases.text_runtime (u "7") Cases.corrupt_world
     = (Raise JSONDecodeError, Cases.corrupt_world).
Proof.
  destruct (@corrupt_store_stays Cases.text_runtime Cases.corrupt_world
              None Sample.cafe (u "7") eq_refl eq_refl)
    as (H1 & H2 & H3 & _).
  auto.
Defined.


Lemma create_poi_success_appends_witness :
  exists pois,
    outcome load_pois Sample.cafe_world = Ok (PList pois)
    /\ Sample.louvre_item
       = new_item (uuid4_hex (uuid_draws Sample.cafe_world)) Sample.louvre
    /\ pois_file (after (create_poi Sample.louvre) Sample.cafe_world)
       = Some (json_dump (PList (pois ++ [Sample.louvre_item]))).
Proof.
  destruct (create_poi_success_appends Sample.cafe_world Sample.louvre
              Sample.louvre_item louvre_created) as (pois & H1 & H2 & H3).
  exists pois. rewrite H3. auto.
Defined.

Lemma failed_store_handler_writes_nothing_witness :
  (pois_file (after (create_poi Sample.cafe) Sample.cafe_world)
   = pois_file Sample.cafe_world
   /\ after (delete_poi (u "nonexistent")) Sample.cafe_world
      = Sample.cafe_world)
  /\ exists v,
       Py.encodable v = false
       /\ pois_file (after (delete_poi (Sample.counter_hex 0))
                       Cases.unpaired_world)
          = Some (json_dump_prefix v).
Proof.
  split.
  - destruct (failed_store_handler_writes_nothing Sample.cafe_world
                Sample.cafe (u "nonexistent")) as (Hc & Hd & _).
    split.
    + apply (Hc (HTTPException 409 duplicate_detail));
        [vm_compute; reflexivity | discriminate].
    + apply (Hd (HTTPException 404 not_found_detail));
        [vm_compute; reflexivity | discriminate].
  - destruct (failed_store_handler_writes_nothing Cases.unpaired_world
                Sample.cafe (Sample.counter_hex 0)) as (_ & _ & _ & Hd).
    apply Hd. vm_compute. reflexivity.
Defined.

Lemma nameless_entry_blocks_create_witness :
  exists e,
    create_poi Sample.louvre Cases.nameless_world
    = (Raise e, Cases.nameless_world)
    /\ http_status e = 500%Z.
Proof.
  apply (nameless_entry_blocks_create Cases.nameless_world
           [Sample.cafe_item; Cases.nameless] Cases.nameless KeyError
           Sample.louvre).
  - reflexivity.
  - right. left. reflexivity.
  - vm_compute. reflexivity.
Defined.



Lemma geocode_upstream_error_witness :
  outcome (geocode (Sample.always Cases.failing) (u "InvalidPlace"))
    Sample.fresh_world
  = Raise (HTTPException (status_code Cases.failing)
             (u "Geocode error: " ++ text Cases.failing))
  /\ http_status (HTTPException (status_code Cases.failing)
                    (u "Geocode error: " ++ text Cases.failing))
     = status_code Cases.failing.
Proof.
  apply (geocode_upstream_error (Sample.always Cases.failing)
           (u "InvalidPlace") Sample.fresh_world Cases.failing).
  - vm_compute. repeat constructor.
  - reflexivity.
  - vm_compute. discriminate.
Defined.





Lemma route_success_shape_witness :
  exists f_lat f_lon t_lat t_lon r data km mins,
    parse_coord (u "48.8584,2.2945") = Ok (f_lat, f_lon)
    /\ parse_coord (u "48.8606,2.3376") = Ok (t_lat, t_lon)
    /\ Sample.always (Sample.ok_json Sample.route_payload)
         (route_request f_lat f_lon t_lat t_lon default_profile) = Some r
    /\ status_code r = 200%Z
    /\ json r = Some data
    /\ route_answer Sample.route_payload 3.5 45 default_profile
       = route_answer data km mins default_profile.
Proof.
  apply (route_success_shape
           (Sample.always (Sample.ok_json Sample.route_payload))
           (u "48.8584,2.2945") (u "48.8606,2.3376") default_profile
           Sample.fresh_world
           (route_answer Sample.route_payload 3.5 45 default_profile)).
  vm_compute. reflexivity.
Defined.

Lemma geocode_success_shape_witness :
  exists r data feats fs out,
    Sample.always
      (Sample.ok_json (Sample.collection [Sample.region; Sample.unlabelled]))
      (geocode_request (u "Nowhere")) = Some r
    /\ status_code r = 200%Z
    /\ json r = Some data
    /\ Py.get data (u "features") (PList []) = Ok feats
    /\ Py.iter feats = Ok fs
    /\ PDict [(u "results", PList [point_entry Sample.unlabelled])]
       = PDict [(u "results", PList out)]
    /\ Forall entry_shape out
    /\ Forall (fun f => exists e, geocode_feature f = Ok e) fs
    /\ List.length out <= List.length fs.
Proof.
  apply (geocode_success_shape
           (Sample.always
              (Sample.ok_json
                 (Sample.collection [Sample.region; Sample.unlabelled])))
           (u "Nowhere") Sample.fresh_world
           (PDict [(u "results", PList [point_entry Sample.unlabelled])])).
  vm_compute. reflexivity.
Defined.

Lemma parse_coord_single_comma_witness :
  parse_coord (u " 91.0 ,181.0") = Ok (91, 181)%float.
Proof.
  apply (proj2 (parse_coord_single_comma (u " 91.0 ,181.0") 91 181)).
  exists (u " 91.0 "), (u "181.0").
  split; [vm_compute; reflexivity|].
  split; [vm_compute; intuition discriminate|].
  split; [vm_compute; intuition discriminate|].
  split; vm_compute; reflexivity.
Defined.




End FurtherWitnesses.
